(** * Lintwise: the concurrent review pipeline, embedded in Rocq

    A shallow embedding of the orchestration core of Lintwise
    ([lintwise/orchestrator], [lintwise/llm/rate_limiter.py],
    [lintwise/agents/base.py], [lintwise/agents/registry.py],
    [lintwise/core]) and of its diff parser
    ([lintwise/github/diff_parser.py]) together with the properties of
    its aggregation, retry, rate-limiting, fan-out and parsing code.

    Conventions of the embedding.
    - Python [int] is [Z]; Python [float] is [Q]: arithmetic and comparisons
      are exact, so rounding and the finite range of binary64 are outside
      the model.  A division whose divisor is zero raises, as in Python.
    - Python [str] is [string], read as a sequence of code points below
      256 (ASCII and Latin-1), on which [lower], [strip] and [splitlines]
      are those of Python; text with other code points is outside the
      model.
    - A [dict] whose iteration order is observed is an association list
      kept in insertion order; constant lookup tables are [gmap]s.
    - An awaited coroutine either returns, raises, or is still pending when
      its deadline passes ([coro]). *)

From Stdlib Require Import ZArith QArith Qminmax Ascii String List Permutation Sorted Lia Lqa.
From stdpp Require Import gmap strings pretty.
Import ListNotations.

Local Open Scope Z_scope.

(** ** Python primitives *)

Module Py.

(** Exception classes that the modelled code names, raises or catches:
    the builtins it meets and the hierarchy of
    [lintwise/core/exceptions.py].  [CancelledError] (of [asyncio]) derives
    from [BaseException], not from [Exception]. *)
Inductive exn_class : Type :=
| BaseException
| CancelledError
| Exception
| ValueError
| TypeError
| AttributeError
| OverflowError
| RuntimeError
| ZeroDivisionError
| TimeoutError
| LintwiseError
| LLMError
| LLMRateLimitError
| LLMContextOverflowError
| LLMResponseParseError.

#[global] Instance exn_class_eq_dec : EqDecision exn_class.
Proof. solve_decision. Defined.

(** The nearest base class among the modelled ones. *)
Definition base_class (c : exn_class) : option exn_class :=
  match c with
  | BaseException => None
  | CancelledError | Exception => Some BaseException
  | ValueError | TypeError | AttributeError | OverflowError | RuntimeError
  | ZeroDivisionError | TimeoutError | LintwiseError => Some Exception
  | LLMError => Some LintwiseError
  | LLMRateLimitError | LLMContextOverflowError
  | LLMResponseParseError => Some LLMError
  end.

(** [issubclass c d], by walking up the (depth at most four) hierarchy. *)
Fixpoint issubclass_fuel (fuel : nat) (c d : exn_class) : bool :=
  if bool_decide (c = d) then true
  else match fuel, base_class c with
       | S fuel', Some b => issubclass_fuel fuel' b d
       | _, _ => false
       end.

Definition issubclass (c d : exn_class) : bool := issubclass_fuel 5 c d.

(** [c.__name__]. *)
Definition class_name (c : exn_class) : string :=
  match c with
  | BaseException => "BaseException"
  | CancelledError => "CancelledError"
  | Exception => "Exception"
  | ValueError => "ValueError"
  | TypeError => "TypeError"
  | AttributeError => "AttributeError"
  | OverflowError => "OverflowError"
  | RuntimeError => "RuntimeError"
  | ZeroDivisionError => "ZeroDivisionError"
  | TimeoutError => "TimeoutError"
  | LintwiseError => "LintwiseError"
  | LLMError => "LLMError"
  | LLMRateLimitError => "LLMRateLimitError"
  | LLMContextOverflowError => "LLMContextOverflowError"
  | LLMResponseParseError => "LLMResponseParseError"
  end.

(** An exception instance: its class and what [str(e)] gives. *)
Record exn : Type := Exn { exn_type : exn_class; str : string }.

Definition isinstance (e : exn) (c : exn_class) : bool :=
  issubclass (exn_type e) c.

(** [except (C1, ..., Cn)]: does the clause catch [e]? *)
Definition catches (classes : list exn_class) (e : exn) : bool :=
  existsb (isinstance e) classes.

(** A call that either returns a value or raises. *)
Inductive outcome (A : Type) : Type :=
| Return (a : A)
| Raise (e : exn).
Arguments Return {A} a.
Arguments Raise {A} e.

(** What awaiting a coroutine can observe: it returns, it raises, or it
    does not complete (before the deadline of the awaiting code, when
    there is one). *)
Inductive coro (A : Type) : Type :=
| Done (a : A)
| Throw (e : exn)
| Stall.
Arguments Done {A} a.
Arguments Throw {A} e.
Arguments Stall {A}.

Definition bind {A B : Type} (c : coro A) (k : A -> coro B) : coro B :=
  match c with
  | Done a => k a
  | Throw e => Throw e
  | Stall => Stall
  end.

Definition lift {A : Type} (o : outcome A) : coro A :=
  match o with
  | Return a => Done a
  | Raise e => Throw e
  end.

(** [range(n)]. *)
Definition range (n : Z) : list Z := map Z.of_nat (seq 0 (Z.to_nat n)).

(** [str.lower()] on the code points below 256: the letters A to Z and
    the capital letters of Latin-1 (U+00C0 to U+00DE, the multiplication
    sign U+00D7 apart) have their small form 32 places further on; every
    other code point stays. *)
Definition lower_char (c : ascii) : ascii :=
  let n := nat_of_ascii c in
  if ((Nat.leb 65 n && Nat.leb n 90) ||
      (Nat.leb 192 n && Nat.leb n 222 && negb (Nat.eqb n 215)))%bool
  then ascii_of_nat (n + 32) else c.

Fixpoint lower (s : string) : string :=
  match s with
  | EmptyString => EmptyString
  | String c s' => String (lower_char c) (lower s')
  end.

(** [str.isspace()] on the code points below 256: TAB, LF, VT, FF, CR,
    FS, GS, RS, US, SPACE, NEL (U+0085) and the no-break space (U+00A0). *)
Definition isspace (c : ascii) : bool :=
  let n := nat_of_ascii c in
  ((Nat.leb 9 n && Nat.leb n 13) || (Nat.leb 28 n && Nat.leb n 32) ||
   Nat.eqb n 133 || Nat.eqb n 160)%bool.

Fixpoint lstrip (s : string) : string :=
  match s with
  | EmptyString => EmptyString
  | String c s' => if isspace c then lstrip s' else s
  end.

Fixpoint rstrip (s : string) : string :=
  match s with
  | EmptyString => EmptyString
  | String c s' =>
      match rstrip s' with
      | EmptyString => if isspace c then EmptyString else String c EmptyString
      | r => String c r
      end
  end.

Definition strip (s : string) : string := rstrip (lstrip s).

(** [c in s]. *)
Fixpoint has_char (c : ascii) (s : string) : bool :=
  match s with
  | EmptyString => false
  | String c' s' => if Ascii.eqb c' c then true else has_char c s'
  end.

Definition isdigit (c : ascii) : bool :=
  let n := nat_of_ascii c in (Nat.leb 48 n && Nat.leb n 57)%bool.

(** [str(x)] for [x : int | None], as an f-string renders it. *)
Definition str_opt_int (x : option Z) : string :=
  match x with
  | None => "None"
  | Some n => pretty n
  end.

(** [sum(...)] over integers. *)
Definition sum (l : list Z) : Z := fold_left Z.add l 0.

(** [a < b] and [a == b] on floats. *)
Definition float_lt (a b : Q) : bool :=
  match Qcompare a b with Lt => true | _ => false end.

Definition float_eq (a b : Q) : bool := Qeq_bool a b.

(** A [dict] with string keys, in insertion order.  Assigning to a key
    that is present replaces the value where the key already sits. *)
Definition dict (V : Type) : Type := list (string * V).

Fixpoint dict_get {V : Type} (k : string) (d : dict V) : option V :=
  match d with
  | [] => None
  | (k', v) :: d' => if bool_decide (k' = k) then Some v else dict_get k d'
  end.

Fixpoint dict_set {V : Type} (k : string) (v : V) (d : dict V) : dict V :=
  match d with
  | [] => [(k, v)]
  | (k', v') :: d' =>
      if bool_decide (k' = k) then (k', v) :: d'
      else (k', v') :: dict_set k v d'
  end.

Definition dict_values {V : Type} (d : dict V) : list V := map snd d.

(** [sorted(l, key=key)] for keys compared with [lt]: the stable
    arrangement, built by inserting each element in front of the
    already sorted elements that follow it in [l]. *)
Section Sorted.
Context {A K : Type} (lt : K -> K -> bool) (key : A -> K).

Fixpoint insort (x : A) (l : list A) : list A :=
  match l with
  | [] => [x]
  | y :: l' => if lt (key y) (key x) then y :: insort x l' else x :: l
  end.

Definition sorted (l : list A) : list A := fold_right insort [] l.

(** [x] may stand before [y]: [y]'s key is not below [x]'s. *)
Definition key_le (x y : A) : Prop := lt (key y) (key x) = false.

(** The keys [k1] and [k2] compare equal. *)
Definition key_eqv (k1 k2 : K) : bool :=
  (negb (lt k1 k2) && negb (lt k2 k1))%bool.
End Sorted.

End Py.

(** ** Domain models ([lintwise/core/models.py]) *)

Module Severity.
Inductive t : Type := CRITICAL | WARNING | SUGGESTION | NITPICK.

#[global] Instance eq_dec : EqDecision t.
Proof. solve_decision. Defined.

Definition value (s : t) : string :=
  match s with
  | CRITICAL => "critical"
  | WARNING => "warning"
  | SUGGESTION => "suggestion"
  | NITPICK => "nitpick"
  end.
End Severity.

Module ReviewCategory.
Inductive t : Type := LOGIC | READABILITY | PERFORMANCE | SECURITY.

Definition value (c : t) : string :=
  match c with
  | LOGIC => "logic"
  | READABILITY => "readability"
  | PERFORMANCE => "performance"
  | SECURITY => "security"
  end.
End ReviewCategory.

Module RiskScore.
Inductive t : Type := LOW | MEDIUM | HIGH | CRITICAL.

#[global] Instance eq_dec : EqDecision t.
Proof. solve_decision. Defined.

Definition value (r : t) : string :=
  match r with
  | LOW => "low"
  | MEDIUM => "medium"
  | HIGH => "high"
  | CRITICAL => "critical"
  end.

(** Position in the declaration order [low < medium < high < critical]. *)
Definition level (r : t) : Z :=
  match r with
  | LOW => 0
  | MEDIUM => 1
  | HIGH => 2
  | CRITICAL => 3
  end.
End RiskScore.

Module HunkRange.
Record t : Type := Make {
  start_line : Z;
  line_count : Z;
  content : string
}.
End HunkRange.

Module FileChange.
Record t : Type := Make {
  filename : string;
  status : string;
  patch : string;
  additions : Z;
  deletions : Z;
  language : option string;
  hunks : list HunkRange.t
}.
End FileChange.

Module PRDiff.
Record t : Type := Make {
  repo_owner : string;
  repo_name : string;
  pr_number : Z;
  title : string;
  description : string;
  base_branch : string;
  head_branch : string;
  files : list FileChange.t;
  raw_url : option string
}.
End PRDiff.

Module ReviewComment.
(** [confidence] is validated into [0, 1] by the model class, so it is
    never NaN and comparisons on it are those of the rationals. *)
Record t : Type := Make {
  file : string;
  line : option Z;
  end_line : option Z;
  severity : Severity.t;
  category : ReviewCategory.t;
  title : string;
  body : string;
  suggestion : option string;
  confidence : Q;
  agent_name : string
}.
End ReviewComment.

Module AgentMetrics.
Record t : Type := Make {
  agent_name : string;
  duration_ms : Z;
  prompt_tokens : Z;
  completion_tokens : Z;
  files_analyzed : Z;
  comments_produced : Z;
  error : option string
}.
End AgentMetrics.

Module ReviewResult.
(** The generated [id] and [created_at] fields are left out. *)
Record t : Type := Make {
  pr_diff : PRDiff.t;
  comments : list ReviewComment.t;
  summary : string;
  risk_score : RiskScore.t;
  agent_metrics : list AgentMetrics.t;
  total_duration_ms : Z
}.
End ReviewResult.

(** ** Constants ([lintwise/core/constants.py]) *)

Module constants.

Definition SEVERITY_WEIGHTS : gmap string Z :=
  list_to_map
    [("critical", 10); ("warning", 3); ("suggestion", 1); ("nitpick", 0)].

Definition RISK_THRESHOLDS : gmap string Z :=
  list_to_map [("low", 5); ("medium", 15); ("high", 30)].

End constants.

(** ** Aggregation ([lintwise/orchestrator/aggregator.py]) *)

Module aggregator.
Import constants.

(** The f-string [f"{file}:{line}:{title.lower().strip()}"]. *)
Definition dedup_key (comment : ReviewComment.t) : string :=
  ReviewComment.file comment +:+ ":" +:+
  Py.str_opt_int (ReviewComment.line comment) +:+ ":" +:+
  Py.strip (Py.lower (ReviewComment.title comment)).

(** One turn of the loop over [comments], on the dict [seen]. *)
Definition dedup_step (seen : Py.dict ReviewComment.t)
    (comment : ReviewComment.t) : Py.dict ReviewComment.t :=
  let key := dedup_key comment in
  match Py.dict_get key seen with
  | Some kept =>
      if Py.float_lt (ReviewComment.confidence kept)
                     (ReviewComment.confidence comment)
      then Py.dict_set key comment seen
      else seen
  | None => Py.dict_set key comment seen
  end.

Definition deduplicate_comments (comments : list ReviewComment.t)
  : list ReviewComment.t :=
  Py.dict_values (fold_left dedup_step comments []).

Definition severity_order : gmap string Z :=
  list_to_map
    [("critical", 0); ("warning", 1); ("suggestion", 2); ("nitpick", 3)].

(** The sort key [(severity_order.get(severity, 99), -confidence)]. *)
Definition rank_key (c : ReviewComment.t) : Z * Q :=
  (default 99 (severity_order !! Severity.value (ReviewComment.severity c)),
   Qopp (ReviewComment.confidence c)).

(** [a < b] on such pairs: the first component that differs decides. *)
Definition rank_key_lt (a b : Z * Q) : bool :=
  if negb (Z.eqb (fst a) (fst b)) then Z.ltb (fst a) (fst b)
  else if negb (Py.float_eq (snd a) (snd b)) then Py.float_lt (snd a) (snd b)
  else false.

Definition rank_comments (comments : list ReviewComment.t)
  : list ReviewComment.t :=
  Py.sorted rank_key_lt rank_key comments.

Definition severity_weight (c : ReviewComment.t) : Z :=
  default 0 (SEVERITY_WEIGHTS !! Severity.value (ReviewComment.severity c)).

Definition total_weight (comments : list ReviewComment.t) : Z :=
  Py.sum (map severity_weight comments).

Definition compute_risk_score (comments : list ReviewComment.t)
  : RiskScore.t :=
  let total_weight := total_weight comments in
  if Z.gtb total_weight (RISK_THRESHOLDS !!! "high") then RiskScore.CRITICAL
  else if Z.gtb total_weight (RISK_THRESHOLDS !!! "medium") then RiskScore.HIGH
  else if Z.gtb total_weight (RISK_THRESHOLDS !!! "low") then RiskScore.MEDIUM
  else RiskScore.LOW.

Definition aggregate_comments (comments : list ReviewComment.t)
  : list ReviewComment.t * RiskScore.t :=
  let deduped := deduplicate_comments comments in
  let ranked := rank_comments deduped in
  let risk := compute_risk_score ranked in
  (ranked, risk).

End aggregator.

(** ** Retry with exponential backoff ([lintwise/orchestrator/retry.py]) *)

Module retry.

(** What the executor does, in order: it awaits [func] or it sleeps. *)
Inductive event : Type :=
| Call (attempt : Z)
| Sleep (delay : Q).

Section Retry.
Context {T : Type}.
(** [func attempt]: what the invocation made in turn [attempt] of the
    loop does (the callable may answer differently each time). *)
Variable func : Z -> Py.outcome T.
(** What reading [func.__name__] for the log gives: the name, or the
    error of a callable that has none. *)
Variable func_name : Py.outcome string.
Variables (max_retries : Z) (base_delay max_delay : Q).
Variable retryable_exceptions : list Py.exn_class.

(** The value of [min(base_delay * (2 ** attempt), max_delay)]. *)
Definition backoff_delay (attempt : Z) : Q :=
  Qmin (base_delay * inject_Z (2 ^ attempt)) max_delay.

(** Its computation: the product converts the integer [2 ** attempt] to
    a float, which raises [OverflowError] from [2 ** 1024] on. *)
Definition delay_of (attempt : Z) : Py.outcome Q :=
  if Z.geb attempt 1024 then
    Py.Raise (Py.Exn Py.OverflowError "int too large to convert to float")
  else Py.Return (backoff_delay attempt).

(** The [for attempt in range(max_retries + 1)] loop over the turns
    still to run, then the code after the loop.  The [except] block
    reads [func.__name__] for its log entry, before it raises again in
    the last turn, and after it has computed the delay in the others. *)
Fixpoint retry_loop (attempts : list Z) (last_exception : option Py.exn)
  : Py.outcome T * list event :=
  match attempts with
  | [] =>
      match last_exception with
      | Some e => (Py.Raise e, [])
      | None =>
          (Py.Raise (Py.Exn Py.RuntimeError "Unexpected retry loop exit"), [])
      end
  | attempt :: rest =>
      match func attempt with
      | Py.Return v => (Py.Return v, [Call attempt])
      | Py.Raise e =>
          if Py.catches retryable_exceptions e then
            if Z.geb attempt max_retries then
              match func_name with
              | Py.Raise a => (Py.Raise a, [Call attempt])
              | Py.Return _ => (Py.Raise e, [Call attempt])
              end
            else
              match delay_of attempt with
              | Py.Raise o => (Py.Raise o, [Call attempt])
              | Py.Return delay =>
                  match func_name with
                  | Py.Raise a => (Py.Raise a, [Call attempt])
                  | Py.Return _ =>
                      let '(r, trace) := retry_loop rest (Some e) in
                      (r, Call attempt :: Sleep delay :: trace)
                  end
              end
          else (Py.Raise e, [Call attempt])
      end
  end.

Definition retry_with_backoff : Py.outcome T * list event :=
  retry_loop (Py.range (max_retries + 1)) None.

(** Turn [i] fails with an error the [except] clause catches. *)
Definition fails_retryably (i : Z) : Prop :=
  exists e, func i = Py.Raise e /\
            Py.catches retryable_exceptions e = true.
End Retry.

(** The default [retryable_exceptions]. *)
Definition default_retryable : list Py.exn_class := [Py.LLMRateLimitError].

Definition calls (trace : list event) : list Z :=
  flat_map (fun ev => match ev with Call a => [a] | Sleep _ => [] end) trace.

Definition sleeps (trace : list event) : list Q :=
  flat_map (fun ev => match ev with Call _ => [] | Sleep d => [d] end) trace.

(** The trace the specification describes for a run that ends in turn
    [j]: every earlier turn is a call followed by its backoff sleep. *)
Definition retried (base_delay max_delay : Q) (attempts : list Z)
  : list event :=
  flat_map (fun i => [Call i; Sleep (backoff_delay base_delay max_delay i)])
           attempts.

Definition schedule (base_delay max_delay : Q) (j : Z) : list event :=
  retried base_delay max_delay (Py.range j) ++ [Call j].

End retry.

(** ** Token-bucket rate limiter ([lintwise/llm/rate_limiter.py]) *)

Module rate_limiter.

Module TokenBucketRateLimiter.
(** [_semaphore] is the number of free concurrency slots. *)
Record t : Type := Make {
  _rpm : Z;
  _tpm : Z;
  _semaphore : Z;
  _request_tokens : Q;
  _token_tokens : Q;
  _last_refill : Q
}.
End TokenBucketRateLimiter.
Import TokenBucketRateLimiter.

(** [__init__], at the monotonic time [now], for a [max_concurrent]
    that is not negative (the semaphore refuses a negative size, and no
    limiter is made). *)
Definition __init__ (rpm tpm max_concurrent : Z) (now : Q)
  : TokenBucketRateLimiter.t :=
  {| _rpm := rpm; _tpm := tpm; _semaphore := max_concurrent;
     _request_tokens := inject_Z rpm; _token_tokens := inject_Z tpm;
     _last_refill := now |}.

Definition _refill (self : TokenBucketRateLimiter.t) (now : Q)
  : TokenBucketRateLimiter.t :=
  let elapsed := (now - _last_refill self)%Q in
  {| _rpm := _rpm self; _tpm := _tpm self; _semaphore := _semaphore self;
     _request_tokens :=
       Qmin (inject_Z (_rpm self))
            (_request_tokens self + elapsed * inject_Z (_rpm self) / 60)%Q;
     _token_tokens :=
       Qmin (inject_Z (_tpm self))
            (_token_tokens self + elapsed * inject_Z (_tpm self) / 60)%Q;
     _last_refill := now |}.

(** [max(0.1, min(5.0, estimated_tokens / (tpm / 60)))]; the division
    raises when [tpm / 60] is zero. *)
Definition wait_time (tpm estimated_tokens : Z) : Py.outcome Q :=
  if Z.eqb tpm 0 then Py.Raise (Py.Exn Py.ZeroDivisionError "float division by zero")
  else Py.Return
         (Qmax 0.1 (Qmin 5 (inject_Z estimated_tokens / (inject_Z tpm / 60))))%Q.

(** One turn of the [while True] loop of [acquire]. *)
Inductive poll : Type :=
| Granted (self : TokenBucketRateLimiter.t)
| Backoff (self : TokenBucketRateLimiter.t) (wait : Q)
| Failed (self : TokenBucketRateLimiter.t) (e : Py.exn).

Definition acquire_poll (self : TokenBucketRateLimiter.t) (now : Q)
    (estimated_tokens : Z) : poll :=
  let self := _refill self now in
  if (Qle_bool 1 (_request_tokens self) &&
      Qle_bool (inject_Z estimated_tokens) (_token_tokens self))%bool
  then
    Granted
      {| _rpm := _rpm self; _tpm := _tpm self; _semaphore := _semaphore self;
         _request_tokens := (_request_tokens self - 1)%Q;
         _token_tokens := (_token_tokens self - inject_Z estimated_tokens)%Q;
         _last_refill := _last_refill self |}
  else
    match wait_time (_tpm self) estimated_tokens with
    | Py.Return w => Backoff self w
    | Py.Raise e => Failed self e
    end.

(** Where [acquire] stands after at most [turns] turns of its loop:
    it returned holding a slot, it raised, it waits for a concurrency
    slot, or it is still polling.  The sleeps made so far come along. *)
Inductive progress : Type :=
| Acquired (self : TokenBucketRateLimiter.t)
| Raised (e : Py.exn)
| AwaitingSlot (self : TokenBucketRateLimiter.t)
| Polling (self : TokenBucketRateLimiter.t).

Definition semaphore_acquire (self : TokenBucketRateLimiter.t) : progress :=
  if Z.ltb 0 (_semaphore self) then
    Acquired
      {| _rpm := _rpm self; _tpm := _tpm self;
         _semaphore := _semaphore self - 1;
         _request_tokens := _request_tokens self;
         _token_tokens := _token_tokens self;
         _last_refill := _last_refill self |}
  else AwaitingSlot self.

(** [clock i] is [time.monotonic()] as read in turn [i]. *)
Fixpoint acquire (turns : nat) (clock : nat -> Q)
    (self : TokenBucketRateLimiter.t) (estimated_tokens : Z)
  : progress * list Q :=
  match turns with
  | O => (Polling self, [])
  | S turns' =>
      match acquire_poll self (clock O) estimated_tokens with
      | Granted self' => (semaphore_acquire self', [])
      | Failed _ e => (Raised e, [])
      | Backoff self' w =>
          let '(p, ws) :=
            acquire turns' (fun i => clock (S i)) self' estimated_tokens in
          (p, w :: ws)
      end
  end.

End rate_limiter.

(** ** The LLM interface ([lintwise/llm/base.py]) *)

Module LLMResponse.
Record t : Type := Make {
  content : string;
  prompt_tokens : Z;
  completion_tokens : Z;
  model : string
}.
End LLMResponse.

Module LLMProvider.
(** [complete] receives the chat messages as (role, content) pairs. *)
Record t : Type := Make {
  complete : list (string * string) -> Py.coro LLMResponse.t
}.
End LLMProvider.

(** ** Review agents ([lintwise/agents/base.py], [lintwise/agents/registry.py]) *)

Module agents.

(** An agent as the pipeline sees it.  [analyze] is the method the
    pipeline awaits; a subclass may override it. *)
Module ReviewAgent.
Record t : Type := Make {
  name : string;
  category : ReviewCategory.t;
  analyze : FileChange.t -> PRDiff.t
            -> Py.coro (list ReviewComment.t * AgentMetrics.t)
}.
End ReviewAgent.

Section Base.
(** The parts of an agent that [ReviewAgent.analyze] calls:
    [build_prompt] is the subclass's template, [_parse_response]
    decodes the JSON answer into comments for a file name; either
    may raise.  [elapsed_ms] is the time the two clock readings
    around the run are apart. *)
Variables (name : string) (category : ReviewCategory.t).
Variable build_prompt : FileChange.t -> PRDiff.t -> Py.outcome string.
Variable get_system_prompt : string.
Variable _parse_response : string -> string
                           -> Py.outcome (list ReviewComment.t).
Variable elapsed_ms : FileChange.t -> Z.
Variable llm : LLMProvider.t.

(** The body of the [try] block. *)
Definition analyze_try (file_change : FileChange.t) (context : PRDiff.t)
  : Py.coro (list ReviewComment.t * AgentMetrics.t) :=
  Py.bind (Py.lift (build_prompt file_change context)) (fun prompt =>
  Py.bind (LLMProvider.complete llm
             [("system", get_system_prompt); ("user", prompt)])
          (fun response =>
  Py.bind (Py.lift (_parse_response (LLMResponse.content response)
                      (FileChange.filename file_change)))
          (fun comments =>
  let duration_ms := elapsed_ms file_change in
  let metrics :=
    {| AgentMetrics.agent_name := name;
       AgentMetrics.duration_ms := duration_ms;
       AgentMetrics.prompt_tokens := LLMResponse.prompt_tokens response;
       AgentMetrics.completion_tokens :=
         LLMResponse.completion_tokens response;
       AgentMetrics.files_analyzed := 1;
       AgentMetrics.comments_produced := Z.of_nat (length comments);
       AgentMetrics.error := None |} in
  Py.Done (comments, metrics)))).

(** [ReviewAgent.analyze]: the [try] block under [except Exception]. *)
Definition analyze (file_change : FileChange.t) (context : PRDiff.t)
  : Py.coro (list ReviewComment.t * AgentMetrics.t) :=
  match analyze_try file_change context with
  | Py.Throw e =>
      if Py.isinstance e Py.Exception then
        let duration_ms := elapsed_ms file_change in
        let metrics :=
          {| AgentMetrics.agent_name := name;
             AgentMetrics.duration_ms := duration_ms;
             AgentMetrics.prompt_tokens := 0;
             AgentMetrics.completion_tokens := 0;
             AgentMetrics.files_analyzed := 1;
             AgentMetrics.comments_produced := 0;
             AgentMetrics.error := Some (Py.str e) |} in
        Py.Done ([], metrics)
      else Py.Throw e
  | r => r
  end.

(** An agent that inherits [analyze] from the base class. *)
Definition stock_agent : ReviewAgent.t :=
  {| ReviewAgent.name := name;
     ReviewAgent.category := category;
     ReviewAgent.analyze := analyze |}.
End Base.

(** The environment the registered agent classes share: their prompt
    templates by category, the system prompt by category, the response
    parser (given the agent's name and category) and the clock. *)
Module Env.
Record t : Type := Make {
  build_prompt : ReviewCategory.t -> FileChange.t -> PRDiff.t
                 -> Py.outcome string;
  get_system_prompt : ReviewCategory.t -> string;
  _parse_response : string -> ReviewCategory.t -> string -> string
                    -> Py.outcome (list ReviewComment.t);
  elapsed_ms : string -> FileChange.t -> Z
}.
End Env.

Definition make_agent (env : Env.t) (name : string)
    (category : ReviewCategory.t) (llm : LLMProvider.t) : ReviewAgent.t :=
  stock_agent name category
    (Env.build_prompt env category)
    (Env.get_system_prompt env category)
    (Env._parse_response env name category)
    (Env.elapsed_ms env name)
    llm.

(** [AGENT_CLASSES], each with its [name] and [category]. *)
Definition AGENT_CLASSES : list (string * ReviewCategory.t) :=
  [("logic_agent", ReviewCategory.LOGIC);
   ("readability_agent", ReviewCategory.READABILITY);
   ("performance_agent", ReviewCategory.PERFORMANCE);
   ("security_agent", ReviewCategory.SECURITY)].

Definition create_all_agents (env : Env.t) (llm : LLMProvider.t)
  : list ReviewAgent.t :=
  map (fun cls => make_agent env (fst cls) (snd cls) llm) AGENT_CLASSES.

End agents.

(** ** The pipeline ([lintwise/orchestrator/pipeline.py]) *)

Module pipeline.
Import agents.

(** [asyncio.wait_for]: with a timeout that is not positive the
    coroutine is cancelled before it runs; otherwise a coroutine still
    pending at the deadline is cancelled.  Either way [TimeoutError] is
    raised in its place. *)
Definition wait_for {A : Type} (c : Py.coro A) (timeout : Q) : Py.outcome A :=
  if Qle_bool timeout 0 then Py.Raise (Py.Exn Py.TimeoutError "")
  else
    match c with
    | Py.Done a => Py.Return a
    | Py.Throw e => Py.Raise e
    | Py.Stall => Py.Raise (Py.Exn Py.TimeoutError "")
    end.

Section Pipeline.
(** [float_repr] renders a float as an f-string does; [total_ms] is
    the time between the two clock readings of [run_review]. *)
Variable float_repr : Q -> string.
Variable env : Env.t.
Variable total_ms : Z.

Definition _run_agent_on_file (agent : ReviewAgent.t)
    (file_change : FileChange.t) (context : PRDiff.t) (timeout : Q)
  : Py.outcome (list ReviewComment.t * AgentMetrics.t) :=
  match wait_for (ReviewAgent.analyze agent file_change context) timeout with
  | Py.Raise e =>
      if Py.isinstance e Py.TimeoutError then
        Py.Return
          ([], {| AgentMetrics.agent_name := ReviewAgent.name agent;
                  AgentMetrics.duration_ms := 0;
                  AgentMetrics.prompt_tokens := 0;
                  AgentMetrics.completion_tokens := 0;
                  AgentMetrics.files_analyzed := 1;
                  AgentMetrics.comments_produced := 0;
                  AgentMetrics.error :=
                    Some ("Timeout after " +:+ float_repr timeout +:+ "s")
               |})
      else Py.Raise e
  | r => r
  end.

(** The task matrix: outer loop over files, inner loop over agents. *)
Definition build_tasks (pr_diff : PRDiff.t) (agents : list ReviewAgent.t)
  : list (ReviewAgent.t * FileChange.t) :=
  flat_map (fun file => map (fun agent => (agent, file)) agents)
           (PRDiff.files pr_diff).

(** A task of the matrix, run: [_bounded_analysis] takes the semaphore
    and runs the agent on the file under the timeout. *)
Definition run_task (pr_diff : PRDiff.t) (timeout_per_agent : Q)
    (task : ReviewAgent.t * FileChange.t)
  : Py.outcome (list ReviewComment.t * AgentMetrics.t) :=
  _run_agent_on_file (fst task) (snd task) pr_diff timeout_per_agent.

(** [asyncio.gather] with [return_exceptions=True]: one entry per
    task, in task order, an exception standing where its task raised. *)
Definition gather_return_exceptions {A : Type}
    (tasks : list (Py.outcome A)) : list (Py.outcome A) := tasks.

(** One turn of the loop over [results], on [(all_comments,
    all_metrics)]: a result that is an [Exception] is logged and
    skipped; any other result is unpacked as a pair, which raises
    [TypeError] when it is an exception of another kind. *)
Definition collect_step
    (acc : list ReviewComment.t * list AgentMetrics.t)
    (result : Py.outcome (list ReviewComment.t * AgentMetrics.t))
  : Py.outcome (list ReviewComment.t * list AgentMetrics.t) :=
  match result with
  | Py.Raise e =>
      if Py.isinstance e Py.Exception then Py.Return acc
      else
        Py.Raise
          (Py.Exn Py.TypeError
                  ("cannot unpack non-iterable " +:+
                   Py.class_name (Py.exn_type e) +:+ " object"))
  | Py.Return (comments, metrics) =>
      Py.Return (fst acc ++ comments, snd acc ++ [metrics])
  end.

(** The loop: it ends with the first turn that raises. *)
Fixpoint collect
    (results : list (Py.outcome (list ReviewComment.t * AgentMetrics.t)))
    (acc : list ReviewComment.t * list AgentMetrics.t)
  : Py.outcome (list ReviewComment.t * list AgentMetrics.t) :=
  match results with
  | [] => Py.Return acc
  | result :: results' =>
      match collect_step acc result with
      | Py.Raise e => Py.Raise e
      | Py.Return acc' => collect results' acc'
      end
  end.

(** [run_review].  The semaphore refuses a negative size; with size
    zero no task ever gets the semaphore, so the gather never ends when
    there is a task.  What the collection loop raises reaches the
    caller. *)
Definition run_review (pr_diff : PRDiff.t) (llm : LLMProvider.t)
    (agents : option (list ReviewAgent.t)) (max_concurrent : Z)
    (timeout_per_agent : Q) : Py.coro ReviewResult.t :=
  let agents :=
    match agents with
    | None => create_all_agents env llm
    | Some agents => agents
    end in
  if Z.ltb max_concurrent 0 then
    Py.Throw (Py.Exn Py.ValueError "Semaphore initial value must be >= 0")
  else
    let tasks := build_tasks pr_diff agents in
    match max_concurrent, tasks with
    | 0, _ :: _ => Py.Stall
    | _, _ =>
        let results :=
          gather_return_exceptions
            (map (run_task pr_diff timeout_per_agent) tasks) in
        match collect results ([], []) with
        | Py.Raise e => Py.Throw e
        | Py.Return (all_comments, all_metrics) =>
            let '(ranked_comments, risk_score) :=
              aggregator.aggregate_comments all_comments in
            Py.Done
              {| ReviewResult.pr_diff := pr_diff;
                 ReviewResult.comments := ranked_comments;
                 ReviewResult.summary := "";
                 ReviewResult.risk_score := risk_score;
                 ReviewResult.agent_metrics := all_metrics;
                 ReviewResult.total_duration_ms := total_ms |}
        end
    end.
End Pipeline.

End pipeline.

(** ** Reference notions the properties are stated with *)

Module reference.
Import aggregator.

(** Trimming and lowercasing as the documentation words them, on code
    points: the blank characters, taken off both ends of the title, and
    the capital letters, each replaced by its small form 32 places
    further on. *)
Definition blanks : list nat :=
  [9; 10; 11; 12; 13; 28; 29; 30; 31; 32; 133; 160]%nat.

Definition capitals : list nat := seq 65 26 ++ seq 192 23 ++ seq 216 7.

Definition is_blank (c : ascii) : bool :=
  existsb (Nat.eqb (nat_of_ascii c)) blanks.

Definition small (c : ascii) : ascii :=
  if existsb (Nat.eqb (nat_of_ascii c)) capitals
  then ascii_of_nat (nat_of_ascii c + 32) else c.

Fixpoint drop_blanks (l : list ascii) : list ascii :=
  match l with
  | [] => []
  | c :: l' => if is_blank c then drop_blanks l' else l
  end.

Definition trimmed (l : list ascii) : list ascii :=
  rev (drop_blanks (rev (drop_blanks l))).

(** The title, trimmed and then lowercased. *)
Definition normal_title (title : string) : string :=
  string_of_list_ascii (map small (trimmed (list_ascii_of_string title))).

(** The dedup key as the documentation gives it: same file, same line
    (absent included), same title once lowercased and trimmed. *)
Definition same_slot (a b : ReviewComment.t) : Prop :=
  ReviewComment.file a = ReviewComment.file b /\
  ReviewComment.line a = ReviewComment.line b /\
  normal_title (ReviewComment.title a) =
  normal_title (ReviewComment.title b).

(** Which finding is kept for the key [k] once [c] has been seen, when
    [kept] was kept before: a strictly more confident one replaces it. *)
Definition keep (k : string) (kept : option ReviewComment.t)
    (c : ReviewComment.t) : option ReviewComment.t :=
  if bool_decide (dedup_key c = k) then
    match kept with
    | None => Some c
    | Some old =>
        if Py.float_lt (ReviewComment.confidence old)
                       (ReviewComment.confidence c)
        then Some c else Some old
    end
  else kept.

(** A dict of kept findings is well formed: every value sits under its
    own key and no key occurs twice. *)
Fixpoint wf (d : Py.dict ReviewComment.t) : Prop :=
  match d with
  | [] => True
  | (k, v) :: d' => dedup_key v = k /\ Py.dict_get k d' = None /\ wf d'
  end.

(** The weights and cutoffs as the specification words them. *)
Definition weight (s : Severity.t) : Z :=
  match s with
  | Severity.CRITICAL => 10
  | Severity.WARNING => 3
  | Severity.SUGGESTION => 1
  | Severity.NITPICK => 0
  end.

Definition weighted_sum (l : list ReviewComment.t) : Z :=
  fold_right (fun c acc => weight (ReviewComment.severity c) + acc) 0 l.

Definition risk_of_sum (s : Z) : RiskScore.t :=
  if Z.leb s 5 then RiskScore.LOW
  else if Z.leb s 15 then RiskScore.MEDIUM
  else if Z.leb s 30 then RiskScore.HIGH
  else RiskScore.CRITICAL.

(** What the gathered results hold: the comments and the telemetry of
    the tasks that returned, and the tasks that raised. *)
Definition comments_of
    (results : list (Py.outcome (list ReviewComment.t * AgentMetrics.t)))
  : list ReviewComment.t :=
  flat_map (fun r => match r with
                     | Py.Return (comments, _) => comments
                     | Py.Raise _ => []
                     end) results.

Definition metrics_of
    (results : list (Py.outcome (list ReviewComment.t * AgentMetrics.t)))
  : list AgentMetrics.t :=
  flat_map (fun r => match r with
                     | Py.Return (_, metrics) => [metrics]
                     | Py.Raise _ => []
                     end) results.

Definition raised_in
    (results : list (Py.outcome (list ReviewComment.t * AgentMetrics.t)))
  : list Py.exn :=
  flat_map (fun r => match r with
                     | Py.Return _ => []
                     | Py.Raise e => [e]
                     end) results.

(** The agents [run_review] works with: those given, else all the
    registered ones. *)
Definition agents_or_all (env : agents.Env.t) (llm : LLMProvider.t)
    (agents : option (list agents.ReviewAgent.t))
  : list agents.ReviewAgent.t :=
  match agents with
  | None => agents.create_all_agents env llm
  | Some agents => agents
  end.

(** The telemetry [ReviewAgent.analyze] and [_run_agent_on_file] write
    for a task that failed with the error text [message]. *)
Definition failure_metrics (name : string) (duration_ms : Z)
    (message : string) : AgentMetrics.t :=
  {| AgentMetrics.agent_name := name;
     AgentMetrics.duration_ms := duration_ms;
     AgentMetrics.prompt_tokens := 0;
     AgentMetrics.completion_tokens := 0;
     AgentMetrics.files_analyzed := 1;
     AgentMetrics.comments_produced := 0;
     AgentMetrics.error := Some message |}.






End reference.

(** ** Sample data *)

Module samples.

Definition finding (file : string) (line : option Z) (s : Severity.t)
    (title : string) (confidence : Q) : ReviewComment.t :=
  {| ReviewComment.file := file;
     ReviewComment.line := line;
     ReviewComment.end_line := None;
     ReviewComment.severity := s;
     ReviewComment.category := ReviewCategory.LOGIC;
     ReviewComment.title := title;
     ReviewComment.body := "Description of the issue.";
     ReviewComment.suggestion := None;
     ReviewComment.confidence := confidence;
     ReviewComment.agent_name := "test_agent" |}.

(** The two findings of the deduplication scenario. *)
Definition null_check_1 : ReviewComment.t :=
  finding "a.py" (Some 10) Severity.WARNING "Null check" 0.6.
Definition null_check_2 : ReviewComment.t :=
  finding "a.py" (Some 10) Severity.WARNING "null check " 0.9.

(** Two findings whose titles differ in a capital letter of Latin-1
    (U+00C4, U+00E4) and a no-break space (U+00A0) at the end. *)
Definition umlaut_1 : ReviewComment.t :=
  finding "a.py" (Some 10) Severity.WARNING
          (String (ascii_of_nat 196) "nderung") 0.9.
Definition umlaut_2 : ReviewComment.t :=
  finding "a.py" (Some 10) Severity.WARNING
          (String (ascii_of_nat 228)
                  ("nderung" +:+ String (ascii_of_nat 160) EmptyString)) 0.6.

(** Two findings on different files and lines whose key strings agree. *)
Definition colon_1 : ReviewComment.t :=
  finding "a:1" (Some 2) Severity.WARNING "x" 0.8.
Definition colon_2 : ReviewComment.t :=
  finding "a" (Some 1) Severity.CRITICAL "2:x" 0.8.

(** A critical finding and a more confident nitpick at the same place. *)
Definition sure_critical : ReviewComment.t :=
  finding "a.py" (Some 10) Severity.CRITICAL "Issue" 0.5.
Definition surer_nitpick : ReviewComment.t :=
  finding "a.py" (Some 10) Severity.NITPICK "Issue" 0.9.

(** One finding of each severity. *)
Definition one_of_each : list ReviewComment.t :=
  [finding "test.py" (Some 10) Severity.CRITICAL "C" 0.8;
   finding "test.py" (Some 10) Severity.WARNING "W" 0.8;
   finding "test.py" (Some 10) Severity.SUGGESTION "S" 0.8;
   finding "test.py" (Some 10) Severity.NITPICK "N" 0.8].

(** Callables for the retry executor: one that fails twice with a
    rate-limit error and then succeeds, one that always fails so, and
    one that fails with an error that is not retried. *)
Definition flaky (attempt : Z) : Py.outcome string :=
  if Z.ltb attempt 2 then Py.Raise (Py.Exn Py.LLMRateLimitError "rate limit")
  else Py.Return "success".

Definition always_fails (attempt : Z) : Py.outcome string :=
  Py.Raise (Py.Exn Py.LLMRateLimitError "always fails").


(** The [__name__] of a function, and what reading it gives on a
    [functools.partial]. *)
Definition named : Py.outcome string := Py.Return "func".

Definition nameless : Py.outcome string :=
  Py.Raise (Py.Exn Py.AttributeError
              "'functools.partial' object has no attribute '__name__'").

(** A limiter for 60 requests and 60000 tokens per minute, last
    refilled at time 0, whose token bucket holds [tokens]. *)
Definition bucket (tokens : Q) : rate_limiter.TokenBucketRateLimiter.t :=
  {| rate_limiter.TokenBucketRateLimiter._rpm := 60;
     rate_limiter.TokenBucketRateLimiter._tpm := 60000;
     rate_limiter.TokenBucketRateLimiter._semaphore := 4;
     rate_limiter.TokenBucketRateLimiter._request_tokens := 60;
     rate_limiter.TokenBucketRateLimiter._token_tokens := tokens;
     rate_limiter.TokenBucketRateLimiter._last_refill := 0 |}.

(** A pull request of [n] modified files. *)
Definition file_change (i : nat) : FileChange.t :=
  {| FileChange.filename := "file_" +:+ pretty i +:+ ".py";
     FileChange.status := "modified";
     FileChange.patch := "+new_line";
     FileChange.additions := 1;
     FileChange.deletions := 0;
     FileChange.language := Some "python";
     FileChange.hunks := [] |}.

Definition pr_diff (n : nat) : PRDiff.t :=
  {| PRDiff.repo_owner := "org";
     PRDiff.repo_name := "repo";
     PRDiff.pr_number := 1;
     PRDiff.title := "Test PR";
     PRDiff.description := "";
     PRDiff.base_branch := "main";
     PRDiff.head_branch := "";
     PRDiff.files := map file_change (seq 0 n);
     PRDiff.raw_url := None |}.

(** An environment whose prompts are the patch and whose parser accepts
    the empty array and the array of one empty object, a finding with
    every field at its default. *)
Definition env : agents.Env.t :=
  {| agents.Env.build_prompt :=
       fun _ file _ => Py.Return (FileChange.patch file);
     agents.Env.get_system_prompt := ReviewCategory.value;
     agents.Env._parse_response :=
       fun name category content filename =>
         if bool_decide (content = "[]") then Py.Return []
         else if bool_decide (content = "[{}]") then
           Py.Return
             [{| ReviewComment.file := filename;
                 ReviewComment.line := None;
                 ReviewComment.end_line := None;
                 ReviewComment.severity := Severity.SUGGESTION;
                 ReviewComment.category := category;
                 ReviewComment.title := "Untitled finding";
                 ReviewComment.body := EmptyString;
                 ReviewComment.suggestion := None;
                 ReviewComment.confidence := 0.7;
                 ReviewComment.agent_name := name |}]
         else Py.Raise (Py.Exn Py.LLMResponseParseError
                          ("Invalid JSON from " +:+ name));
     agents.Env.elapsed_ms := fun _ _ => 5 |}.

(** The rendering of a float for the samples: its decimal expansion,
    which is what Python prints for the short decimals between 1e-4 and
    1e16 that the samples use (an expansion that does not end is cut
    after 17 places). *)
Fixpoint decimal_places (fuel : nat) (r d : Z) : string :=
  match fuel with
  | O => EmptyString
  | S fuel' =>
      pretty ((10 * r) / d) +:+
      (if Z.eqb ((10 * r) mod d) 0 then EmptyString
       else decimal_places fuel' ((10 * r) mod d) d)
  end.

Definition float_repr (q : Q) : string :=
  let d := Zpos (Qden q) in
  let a := Z.abs (Qnum q) in
  (if Z.ltb (Qnum q) 0 then "-" else EmptyString) +:+
  pretty (a / d) +:+ "." +:+ decimal_places 17 (a mod d) d.

(** Providers: one that answers with no findings, one that answers
    with one finding, one that never answers in time, one that fails
    with a message, one that fails with an exception that carries no
    message. *)
Definition quiet_llm : LLMProvider.t :=
  {| LLMProvider.complete :=
       fun _ => Py.Done (LLMResponse.Make "[]" 50 25 "") |}.

Definition plain_llm : LLMProvider.t :=
  {| LLMProvider.complete :=
       fun _ => Py.Done (LLMResponse.Make "[{}]" 50 25 "") |}.

Definition slow_llm : LLMProvider.t :=
  {| LLMProvider.complete := fun _ => Py.Stall |}.

Definition failing_llm : LLMProvider.t :=
  {| LLMProvider.complete :=
       fun _ => Py.Throw (Py.Exn Py.LLMError "OpenAI API error: 500") |}.


(** A provider whose call is cancelled. *)
Definition cancelled_llm : LLMProvider.t :=
  {| LLMProvider.complete :=
       fun _ => Py.Throw (Py.Exn Py.CancelledError "") |}.


(** A clock that advances one second per reading. *)
Definition ticking (i : nat) : Q := inject_Z (Z.of_nat i).

End samples.

(** ** Notions the further properties are stated with *)

Module notions.

(** The keys of a list in the order of their first occurrence. *)
Fixpoint first_occurrences (keys : list string) : list string :=
  match keys with
  | [] => []
  | k :: keys' =>
      k :: List.filter (fun k' => negb (bool_decide (k' = k)))
                       (first_occurrences keys')
  end.

Definition is_nitpick (c : ReviewComment.t) : bool :=
  bool_decide (ReviewComment.severity c = Severity.NITPICK).

End notions.

(** ** The rest of the rate limiter ([lintwise/llm/rate_limiter.py]) *)

Module limiter_scope.
Import rate_limiter rate_limiter.TokenBucketRateLimiter.

(** [release]: the semaphore of asyncio is not bounded, so the count
    just grows by one. *)
Definition release (self : TokenBucketRateLimiter.t)
  : TokenBucketRateLimiter.t :=
  {| _rpm := _rpm self; _tpm := _tpm self;
     _semaphore := _semaphore self + 1;
     _request_tokens := _request_tokens self;
     _token_tokens := _token_tokens self;
     _last_refill := _last_refill self |}.

(** [__aenter__] acquires with the default estimate; [__aexit__]
    releases. *)
Definition __aenter__ (turns : nat) (clock : nat -> Q)
    (self : TokenBucketRateLimiter.t) : progress * list Q :=
  acquire turns clock self 1000.

Definition __aexit__ (self : TokenBucketRateLimiter.t)
  : TokenBucketRateLimiter.t := release self.

(** Both buckets hold between nothing and their capacity. *)
Definition within_capacity (self : TokenBucketRateLimiter.t) : Prop :=
  (0 <= _request_tokens self <= inject_Z (_rpm self))%Q /\
  (0 <= _token_tokens self <= inject_Z (_tpm self))%Q.

(** The state a turn leaves behind. *)
Definition poll_state (p : poll) : TokenBucketRateLimiter.t :=
  match p with
  | Granted self | Backoff self _ | Failed self _ => self
  end.

End limiter_scope.

(** ** The rest of the registry ([lintwise/agents/registry.py]) *)

Module registry.
Import agents.

(** [create_agents_by_name]: the registered classes whose name is in
    the set of [names], in registry order; all of them without [names]. *)
Definition create_agents_by_name (env : Env.t) (llm : LLMProvider.t)
    (names : option (list string)) : list ReviewAgent.t :=
  match names with
  | None => create_all_agents env llm
  | Some names =>
      let name_set : gset string := list_to_set names in
      map (fun cls => make_agent env (fst cls) (snd cls) llm)
          (List.filter (fun cls => bool_decide (fst cls ∈ name_set))
                       AGENT_CLASSES)
  end.

Definition get_agent_names : list string := map fst AGENT_CLASSES.

End registry.

(** ** Statistics of a result ([ReviewResult.stats], [lintwise/core/models.py]) *)

#[global] Instance review_category_eq_dec : EqDecision ReviewCategory.t.
Proof. solve_decision. Defined.

Module stats.

(** The members of the two enumerations, in declaration order. *)
Definition severities : list Severity.t :=
  [Severity.CRITICAL; Severity.WARNING; Severity.SUGGESTION;
   Severity.NITPICK].

Definition categories : list ReviewCategory.t :=
  [ReviewCategory.LOGIC; ReviewCategory.READABILITY;
   ReviewCategory.PERFORMANCE; ReviewCategory.SECURITY].

(** [sum(1 for c in comments if p(c))]. *)
Definition count (p : ReviewComment.t -> bool)
    (comments : list ReviewComment.t) : Z :=
  Py.sum (map (fun _ => 1) (List.filter p comments)).

Record t : Type := Make {
  total_comments : Z;
  by_severity : Py.dict Z;
  by_category : Py.dict Z;
  risk_score : string
}.

Definition stats (self : ReviewResult.t) : t :=
  {| total_comments := Z.of_nat (length (ReviewResult.comments self));
     by_severity :=
       map (fun s =>
              (Severity.value s,
               count (fun c => bool_decide (ReviewComment.severity c = s))
                     (ReviewResult.comments self)))
           severities;
     by_category :=
       map (fun c =>
              (ReviewCategory.value c,
               count (fun cm => bool_decide (ReviewComment.category cm = c))
                     (ReviewResult.comments self)))
           categories;
     risk_score := RiskScore.value (ReviewResult.risk_score self) |}.

End stats.

(** ** Path functions of the standard library ([os.path], POSIX flavour) *)

Module ospath.

(** [s.rfind(c)]: the index of the last [c] in [s], or -1. *)
Fixpoint rfind_from (c : ascii) (s : string) (i : Z) : Z :=
  match s with
  | EmptyString => -1
  | String a s' =>
      let r := rfind_from c s' (i + 1) in
      if Z.geb r 0 then r else if Ascii.eqb a c then i else -1
  end.

Definition rfind (c : ascii) (s : string) : Z := rfind_from c s 0.

(** [s[n:]] and [s[:n]] for [n >= 0]. *)
Fixpoint str_drop (n : nat) (s : string) : string :=
  match n, s with
  | O, _ => s
  | S n', EmptyString => EmptyString
  | S n', String _ s' => str_drop n' s'
  end.

Fixpoint str_take (n : nat) (s : string) : string :=
  match n, s with
  | O, _ => EmptyString
  | S n', EmptyString => EmptyString
  | S n', String a s' => String a (str_take n' s')
  end.

Fixpoint str_any (f : ascii -> bool) (s : string) : bool :=
  match s with
  | EmptyString => false
  | String a s' => if f a then true else str_any f s'
  end.

(** [os.path.basename]: what follows the last slash. *)
Definition basename (p : string) : string :=
  str_drop (Z.to_nat (rfind "/" p + 1)) p.

(** [os.path.splitext]: the extension starts at the last dot of the last
    path component, unless only dots stand in front of it there. *)
Definition splitext (p : string) : string * string :=
  let sepIndex := rfind "/" p in
  let dotIndex := rfind "." p in
  if Z.gtb dotIndex sepIndex then
    let between :=
      str_take (Z.to_nat (dotIndex - (sepIndex + 1)))
               (str_drop (Z.to_nat (sepIndex + 1)) p) in
    if str_any (fun a => negb (Ascii.eqb a ".")) between then
      (str_take (Z.to_nat dotIndex) p, str_drop (Z.to_nat dotIndex) p)
    else (p, EmptyString)
  else (p, EmptyString).

End ospath.

(** ** The rest of the constants ([lintwise/core/constants.py]) *)

Module constants_scope.

Definition extension_language_items : list (string * string) :=
  [(".py", "python"); (".js", "javascript"); (".ts", "typescript");
   (".jsx", "javascript"); (".tsx", "typescript"); (".java", "java");
   (".kt", "kotlin"); (".go", "go"); (".rs", "rust"); (".rb", "ruby");
   (".php", "php"); (".c", "c"); (".cpp", "cpp"); (".h", "c");
   (".hpp", "cpp"); (".cs", "csharp"); (".swift", "swift");
   (".scala", "scala"); (".r", "r"); (".sql", "sql"); (".sh", "shell");
   (".bash", "shell"); (".yml", "yaml"); (".yaml", "yaml");
   (".json", "json"); (".toml", "toml"); (".xml", "xml");
   (".html", "html"); (".css", "css"); (".scss", "scss");
   (".md", "markdown"); (".dockerfile", "dockerfile")].

Definition EXTENSION_LANGUAGE_MAP : gmap string string :=
  list_to_map extension_language_items.

Definition SKIP_PATTERNS : gset string :=
  list_to_set
    ["package-lock.json"; "yarn.lock"; "poetry.lock"; "Pipfile.lock";
     "pnpm-lock.yaml"; ".gitignore"; ".gitattributes"; "LICENSE"].

Definition MAX_TOKENS_PER_ANALYSIS : Z := 4000.

Definition detect_language (filename : string) : option string :=
  let ext := snd (ospath.splitext (Py.lower filename)) in
  EXTENSION_LANGUAGE_MAP !! ext.

End constants_scope.

(** ** The diff parser ([lintwise/github/diff_parser.py]) *)

Module GitHubFileDict.
(** The keys of a file dict that the parser reads.  [None] stands for a
    key that is absent, and for [patch] also for a null value; values
    that are present are strings, as [GitHubFile.model_dump()] gives
    them. *)
Record t : Type := Make {
  filename : option string;
  status : option string;
  patch : option string
}.
End GitHubFileDict.

Module diff_parser.
Import constants_scope.

Definition LF : ascii := ascii_of_nat 10.
Definition CR : ascii := ascii_of_nat 13.

(** The line boundaries of [str.splitlines] among the code points below
    256: LF, VT, FF, CR (a CR LF pair counts once), FS, GS, RS and NEL. *)
Definition is_linebreak (c : ascii) : bool :=
  let n := nat_of_ascii c in
  ((Nat.leb 10 n && Nat.leb n 13) || (Nat.leb 28 n && Nat.leb n 30)
   || Nat.eqb n 133)%bool.

(** [splitlines], with the line under construction in [line]; a last
    line without terminator counts when it is not empty. *)
Fixpoint splitlines_from (s : string) (line : string) : list string :=
  match s with
  | EmptyString =>
      match line with
      | EmptyString => []
      | _ => [line]
      end
  | String c s' =>
      if Ascii.eqb c CR then
        match s' with
        | String c' s'' =>
            if Ascii.eqb c' LF then line :: splitlines_from s'' EmptyString
            else line :: splitlines_from s' EmptyString
        | EmptyString => line :: splitlines_from s' EmptyString
        end
      else if is_linebreak c then line :: splitlines_from s' EmptyString
      else splitlines_from s' (line +:+ String c EmptyString)
  end.

Definition splitlines (s : string) : list string :=
  splitlines_from s EmptyString.

Definition startswith (s pre : string) : bool := String.prefix pre s.

(** [s.count(c)] for a single character. *)
Fixpoint count_char (c : ascii) (s : string) : Z :=
  match s with
  | EmptyString => 0
  | String a s' => (if Ascii.eqb a c then 1 else 0) + count_char c s'
  end.

(** The members of [FileStatus]. *)
Definition FileStatus_values : list string :=
  ["added"; "modified"; "deleted"; "renamed"].

Definition should_skip_file (filename : string) : bool :=
  let basename := ospath.basename filename in
  bool_decide (basename ∈ SKIP_PATTERNS).

Section Parser.
(** [hunk_scan patch]: what the scan of a patch that is not empty for
    hunk headers gives (lines 37 to 52 of the source): the hunks, or the
    [ValueError] of [int] on a line number of more digits than the
    interpreter converts; the regular expression engine is not
    modelled.  [str_repr s] is [repr(s)], which the enumeration puts
    into its error message. *)
Variable hunk_scan : string -> Py.outcome (list HunkRange.t).
Variable str_repr : string -> string.

(** The loop that counts additions and deletions over the lines of the
    patch, on [(additions, deletions)]. *)
Fixpoint count_changes (lines : list string) (additions deletions : Z)
  : Z * Z :=
  match lines with
  | [] => (additions, deletions)
  | line :: lines' =>
      if (startswith line "+" && negb (startswith line "+++"))%bool then
        count_changes lines' (additions + 1) deletions
      else if (startswith line "-" && negb (startswith line "---"))%bool then
        count_changes lines' additions (deletions + 1)
      else count_changes lines' additions deletions
  end.

Definition parse_patch (filename patch status : string)
  : Py.outcome FileChange.t :=
  let normalised :=
    if bool_decide (status = "removed") then "deleted" else status in
  match
    (if bool_decide (patch = "") then Py.Return ([], (0, 0))
     else
       match hunk_scan patch with
       | Py.Raise e => Py.Raise e
       | Py.Return hunks =>
           Py.Return (hunks, count_changes (splitlines patch) 0 0)
       end)
  with
  | Py.Raise e => Py.Raise e
  | Py.Return (hunks, (additions, deletions)) =>
      if bool_decide (normalised ∈ FileStatus_values) then
        Py.Return
          {| FileChange.filename := filename;
             FileChange.status := normalised;
             FileChange.patch := patch;
             FileChange.additions := additions;
             FileChange.deletions := deletions;
             FileChange.language := detect_language filename;
             FileChange.hunks := hunks |}
      else
        Py.Raise
          (Py.Exn Py.ValueError
                  (str_repr normalised +:+ " is not a valid FileStatus"))
  end.

(** The loop of [parse_pr_files] over the files still to come, on
    [(parsed, skipped, total_lines)]. *)
Fixpoint parse_loop (max_files max_lines : Z) (files : list GitHubFileDict.t)
    (parsed : list FileChange.t) (skipped : list string) (total_lines : Z)
  : Py.outcome (list FileChange.t * list string) :=
  match files with
  | [] => Py.Return (parsed, skipped)
  | f :: files' =>
      let filename := default "" (GitHubFileDict.filename f) in
      if should_skip_file filename then
        parse_loop max_files max_lines files' parsed (skipped ++ [filename])
                   total_lines
      else
        let patch := default "" (GitHubFileDict.patch f) in
        if bool_decide (patch = "") then
          parse_loop max_files max_lines files' parsed (skipped ++ [filename])
                     total_lines
        else
          let patch_lines := count_char LF patch + 1 in
          if Z.gtb (total_lines + patch_lines) max_lines then
            parse_loop max_files max_lines files' parsed
                       (skipped ++ [filename]) total_lines
          else
            match parse_patch filename patch
                              (default "modified" (GitHubFileDict.status f))
            with
            | Py.Raise e => Py.Raise e
            | Py.Return file_change =>
                let parsed := parsed ++ [file_change] in
                if Z.geb (Z.of_nat (length parsed)) max_files
                then Py.Return (parsed, skipped)
                else parse_loop max_files max_lines files' parsed skipped
                                (total_lines + patch_lines)
            end
  end.

Definition parse_pr_files (files : list GitHubFileDict.t)
    (max_files max_lines : Z)
  : Py.outcome (list FileChange.t * list string) :=
  parse_loop max_files max_lines files [] [] 0.

End Parser.

End diff_parser.

(** Notions in which the properties of the parser are stated. *)
Module parser_notions.
Import diff_parser.

(** What [parse_pr_files] reads from a file dict. *)
Definition file_name (f : GitHubFileDict.t) : string :=
  default "" (GitHubFileDict.filename f).

Definition file_patch (f : GitHubFileDict.t) : string :=
  default "" (GitHubFileDict.patch f).

Definition file_status (f : GitHubFileDict.t) : string :=
  default "modified" (GitHubFileDict.status f).

(** The files that are skipped whatever the limits are: those on the
    skip list and those without patch text. *)
Definition passed_over (f : GitHubFileDict.t) : bool :=
  (should_skip_file (file_name f) || bool_decide (file_patch f = ""))%bool.

(** The lines that a patch counts for against [max_lines]. *)
Definition patch_lines (patch : string) : Z := count_char LF patch + 1.

Fixpoint total_patch_lines (parsed : list FileChange.t) : Z :=
  match parsed with
  | [] => 0
  | fc :: parsed' =>
      patch_lines (FileChange.patch fc) + total_patch_lines parsed'
  end.

(** What the scan for hunk headers gives on a patch; an empty patch is
    not scanned. *)
Definition scanned (hunk_scan : string -> Py.outcome (list HunkRange.t))
    (patch : string) : Py.outcome (list HunkRange.t) :=
  if bool_decide (patch = "") then Py.Return [] else hunk_scan patch.

(** The statuses that [parse_patch] takes: GitHub's [removed] and the
    values of [FileStatus]. *)
Definition accepted_statuses : list string := "removed" :: FileStatus_values.

(** The error of the enumeration for a value that is none of its
    members, given [repr]. *)
Definition not_a_status (str_repr : string -> string) (status : string)
  : Py.exn :=
  Py.Exn Py.ValueError (str_repr status +:+ " is not a valid FileStatus").

(** A character other than the dot occurs in [s]. *)
Definition more_than_dots (s : string) : bool :=
  ospath.str_any (fun a => negb (Ascii.eqb a ".")) s.

End parser_notions.

(** Sample inputs of the parser. *)
Module parser_samples.

Definition gh_file (name status patch : string) : GitHubFileDict.t :=
  GitHubFileDict.Make (Some name) (Some status) (Some patch).

(** A binary file: GitHub sends no patch for it. *)
Definition gh_binary (name : string) : GitHubFileDict.t :=
  GitHubFileDict.Make (Some name) (Some "modified") None.

(** A scan that finds no hunk header. *)
Definition no_hunks (patch : string) : Py.outcome (list HunkRange.t) :=
  Py.Return [].

(** [repr] of a string of printable ASCII characters without quote or
    backslash: the string in single quotes. *)
Definition plain_repr (s : string) : string := "'" +:+ s +:+ "'".

Definition pull_files : list GitHubFileDict.t :=
  [gh_file "frontend/yarn.lock" "modified" "+lock";
   gh_binary "logo.png";
   gh_file "src/app.py" "modified" "+import os";
   gh_file "src/old.py" "removed" "-import sys";
   gh_file "docs/guide.md" "added" "+# Guide"].

(** A pull request with a file that GitHub reports as copied. *)
Definition pull_with_copy : list GitHubFileDict.t :=
  [gh_file "poetry.lock" "modified" "+lock";
   gh_file "src/copy.py" "copied" "+import os";
   gh_file "src/app.py" "modified" "+import os"].

End parser_samples.

(** * Properties *)

(** ** Python primitives *)

Section PyFacts.

(** A [TimeoutError] is an [Exception]. *)
Lemma timeout_is_Exception (e : Py.exn) :
  Py.isinstance e Py.TimeoutError = true ->
  Py.isinstance e Py.Exception = true.
Proof.
  destruct e as [c s]; destruct c; intros H;
    try reflexivity; discriminate H.
Qed.

Lemma float_lt_spec (a b : Q) : Py.float_lt a b = true <-> (a < b)%Q.
Proof.
  unfold Py.float_lt. rewrite Qlt_alt.
  destruct (a ?= b)%Q; split; intros H; congruence.
Qed.

Lemma float_lt_false (a b : Q) : Py.float_lt a b = false <-> (b <= a)%Q.
Proof.
  rewrite <- not_true_iff_false, float_lt_spec. split.
  - apply Qnot_lt_le.
  - apply Qle_not_lt.
Qed.

Lemma float_eq_spec (a b : Q) : Py.float_eq a b = true <-> (a == b)%Q.
Proof. apply Qeq_bool_iff. Qed.

Lemma sum_fold_right (l : list Z) : Py.sum l = fold_right Z.add 0 l.
Proof.
  unfold Py.sum. rewrite <- fold_left_rev_right.
  assert (G : forall (l1 : list Z) (a : Z),
             fold_right (fun y x => x + y) a l1 = fold_right Z.add a l1).
  { induction l1 as [|x l1 IH]; intros a; simpl; [reflexivity|].
    rewrite IH. lia. }
  rewrite G. clear G.
  induction l as [|x l IH]; simpl; [reflexivity|].
  rewrite fold_right_app. simpl. rewrite <- IH.
  generalize (rev l). intros r. replace (x + 0) with x by lia.
  induction r as [|y r IHr]; simpl; lia.
Qed.

Lemma sum_cons (x : Z) (l : list Z) : Py.sum (x :: l) = x + Py.sum l.
Proof. rewrite !sum_fold_right. reflexivity. Qed.

Lemma sum_app (l1 l2 : list Z) : Py.sum (l1 ++ l2) = Py.sum l1 + Py.sum l2.
Proof.
  induction l1 as [|x l1 IH]; simpl.
  - unfold Py.sum at 2. simpl. lia.
  - rewrite !sum_cons, IH. lia.
Qed.

Lemma sum_Permutation (l1 l2 : list Z) :
  Permutation l1 l2 -> Py.sum l1 = Py.sum l2.
Proof.
  induction 1; rewrite ?sum_cons in *; lia.
Qed.

Lemma range_length (n : Z) : 0 <= n -> Z.of_nat (length (Py.range n)) = n.
Proof. intros H. unfold Py.range. rewrite length_map, length_seq. lia. Qed.

End PyFacts.

(** ** [sorted]: a stable sort, for any strict weak order on the keys *)

Section SortedFacts.
Context {A K : Type} (lt : K -> K -> bool) (key : A -> K).

Hypothesis lt_irrefl : forall a, lt a a = false.
Hypothesis lt_trans :
  forall a b c, lt a b = true -> lt b c = true -> lt a c = true.
Hypothesis lt_negtrans :
  forall a b c, lt a b = false -> lt b c = false -> lt a c = false.

Local Abbreviation key_le := (Py.key_le lt key).
Local Abbreviation key_eqv := (Py.key_eqv lt).

Lemma lt_asym (a b : K) : lt a b = true -> lt b a = false.
Proof.
  intros H. destruct (lt b a) eqn:E; [|reflexivity].
  rewrite <- (lt_irrefl a). symmetry. eapply lt_trans; eassumption.
Qed.

Lemma insort_Permutation (x : A) (l : list A) :
  Permutation (Py.insort lt key x l) (x :: l).
Proof.
  induction l as [|y l IH]; simpl; [reflexivity|].
  destruct (lt (key y) (key x)); [|reflexivity].
  rewrite IH. apply perm_swap.
Qed.

Lemma sorted_Permutation (l : list A) : Permutation (Py.sorted lt key l) l.
Proof.
  induction l as [|x l IH]; simpl; [reflexivity|].
  unfold Py.sorted in *. simpl. rewrite insort_Permutation.
  apply perm_skip, IH.
Qed.

Lemma insort_In (x y : A) (l : list A) :
  In y (Py.insort lt key x l) -> y = x \/ In y l.
Proof.
  intros H. apply (Permutation_in _ (insort_Permutation x l)) in H.
  destruct H; auto.
Qed.

Lemma insort_sorted (x : A) (l : list A) :
  StronglySorted key_le l -> StronglySorted key_le (Py.insort lt key x l).
Proof.
  induction 1 as [|y l Hs IH Hy]; simpl.
  - constructor; constructor.
  - destruct (lt (key y) (key x)) eqn:E.
    + constructor; [exact IH|].
      rewrite List.Forall_forall. intros z Hz.
      apply insort_In in Hz. destruct Hz as [->|Hz].
      * unfold key_le. apply lt_asym, E.
      * rewrite List.Forall_forall in Hy. apply Hy, Hz.
    + constructor; [constructor; assumption|].
      constructor; [exact E|].
      rewrite List.Forall_forall in *. intros z Hz.
      unfold key_le in *. eapply lt_negtrans; [apply Hy, Hz|exact E].
Qed.

Lemma sorted_StronglySorted (l : list A) :
  StronglySorted key_le (Py.sorted lt key l).
Proof.
  induction l as [|x l IH]; [constructor|].
  unfold Py.sorted in *. simpl. apply insort_sorted, IH.
Qed.

(** Stability: among the elements whose keys compare equal to [k],
    the order of the input is kept. *)
Lemma insort_filter (k : K) (x : A) (l : list A) :
  List.filter (fun y => key_eqv k (key y)) (Py.insort lt key x l) =
  List.filter (fun y => key_eqv k (key y)) (x :: l).
Proof.
  induction l as [|y l IH]; [reflexivity|].
  cbn [Py.insort]. destruct (lt (key y) (key x)) eqn:E; [|reflexivity].
  cbn [List.filter] in *. rewrite IH.
  destruct (key_eqv k (key x)) eqn:Ex; [|reflexivity].
  destruct (key_eqv k (key y)) eqn:Ey; [|reflexivity].
  exfalso. unfold key_eqv in *.
  apply andb_prop in Ex, Ey. destruct Ex as [Ex1 Ex2], Ey as [Ey1 Ey2].
  apply negb_true_iff in Ex1, Ex2, Ey1, Ey2.
  rewrite (lt_negtrans _ _ _ Ey2 Ex1) in E. discriminate.
Qed.

Lemma sorted_stable (k : K) (l : list A) :
  List.filter (fun y => key_eqv k (key y)) (Py.sorted lt key l) =
  List.filter (fun y => key_eqv k (key y)) l.
Proof.
  induction l as [|x l IH]; [reflexivity|].
  unfold Py.sorted in *. cbn [fold_right]. rewrite insort_filter.
  cbn [List.filter]. rewrite IH. reflexivity.
Qed.

End SortedFacts.

(** ** Ranking *)

Section RankFacts.
Import aggregator.

Local Abbreviation conf := ReviewComment.confidence.
Local Abbreviation sev := ReviewComment.severity.

Lemma rank_key_lt_spec (a b : Z * Q) :
  rank_key_lt a b = true <->
  fst a < fst b \/ (fst a = fst b /\ (snd a < snd b)%Q).
Proof.
  unfold rank_key_lt. destruct (Z.eqb_spec (fst a) (fst b)) as [E|E]; simpl.
  - destruct (Py.float_eq (snd a) (snd b)) eqn:Eq; simpl.
    + apply float_eq_spec in Eq. split; [discriminate|].
      intros [H|[_ H]]; [lia|]. rewrite Eq in H.
      exfalso. exact (Qlt_irrefl _ H).
    + rewrite float_lt_spec. split; [auto|]. intros [H|[_ H]]; [lia|exact H].
  - rewrite Z.ltb_lt. split; [auto|]. intros [H|[H _]]; [exact H|contradiction].
Qed.

Lemma rank_key_lt_false (a b : Z * Q) :
  rank_key_lt a b = false <->
  fst b <= fst a /\ (fst a = fst b -> (snd b <= snd a)%Q).
Proof.
  rewrite <- not_true_iff_false, rank_key_lt_spec. split.
  - intros H. split.
    + destruct (Z_lt_le_dec (fst a) (fst b)); [exfalso; auto|assumption].
    + intros E. apply Qnot_lt_le. intros L. apply H. auto.
  - intros [H1 H2] [L|[E L]]; [lia|].
    apply (Qlt_not_le _ _ L). auto.
Qed.

Lemma rank_key_lt_irrefl (a : Z * Q) : rank_key_lt a a = false.
Proof.
  apply rank_key_lt_false. split; [lia|]. intros _. apply Qle_refl.
Qed.

Lemma rank_key_lt_trans (a b c : Z * Q) :
  rank_key_lt a b = true -> rank_key_lt b c = true -> rank_key_lt a c = true.
Proof.
  rewrite !rank_key_lt_spec.
  intros [H1|[E1 L1]] [H2|[E2 L2]]; try (left; lia).
  right. split; [lia|]. eapply Qlt_trans; eassumption.
Qed.

Lemma rank_key_lt_negtrans (a b c : Z * Q) :
  rank_key_lt a b = false -> rank_key_lt b c = false ->
  rank_key_lt a c = false.
Proof.
  rewrite !rank_key_lt_false. intros [H1 L1] [H2 L2]. split; [lia|].
  intros E. eapply Qle_trans; [apply L2|apply L1]; lia.
Qed.

Lemma rank_key_eqv_spec (a b : Z * Q) :
  Py.key_eqv rank_key_lt a b = true <-> fst a = fst b /\ (snd a == snd b)%Q.
Proof.
  unfold Py.key_eqv. rewrite andb_true_iff, !negb_true_iff, !rank_key_lt_false.
  split.
  - intros [[H1 L1] [H2 L2]].
    assert (E : fst a = fst b) by lia. split; [exact E|].
    apply Qle_antisym; auto.
  - intros [E Eq]. rewrite Eq.
    repeat split; try lia; intros _; apply Qle_refl.
Qed.

(** The ranks of the lookup table, severity by severity. *)
Lemma severity_rank_values (c : ReviewComment.t) :
  fst (rank_key c) =
  match sev c with
  | Severity.CRITICAL => 0
  | Severity.WARNING => 1
  | Severity.SUGGESTION => 2
  | Severity.NITPICK => 3
  end.
Proof. unfold rank_key. simpl. destruct (sev c); reflexivity. Qed.

Lemma severity_rank_inj (c1 c2 : ReviewComment.t) :
  fst (rank_key c1) = fst (rank_key c2) -> sev c1 = sev c2.
Proof.
  rewrite !severity_rank_values.
  destruct (sev c1), (sev c2); intros H; try reflexivity; discriminate.
Qed.

Lemma rank_comments_Permutation (l : list ReviewComment.t) :
  Permutation (rank_comments l) l.
Proof. apply sorted_Permutation. Qed.

Lemma rank_comments_sorted (l : list ReviewComment.t) :
  StronglySorted
    (fun a b =>
       fst (rank_key a) <= fst (rank_key b) /\
       (fst (rank_key a) = fst (rank_key b) -> (conf b <= conf a)%Q))
    (rank_comments l).
Proof.
  pose proof (sorted_StronglySorted rank_key_lt rank_key
                rank_key_lt_irrefl rank_key_lt_trans rank_key_lt_negtrans l)
    as H.
  fold (rank_comments l) in H.
  induction H as [|x r Hs IH Hx]; constructor; [exact IH|].
  eapply List.Forall_impl; [|exact Hx].
  intros y Hy. unfold Py.key_le in Hy. apply rank_key_lt_false in Hy.
  destruct Hy as [H1 H2]. split; [exact H1|].
  intros E. specialize (H2 (eq_sym E)). simpl in H2.
  apply Qopp_le_compat in H2. rewrite !Qopp_involutive in H2. exact H2.
Qed.

Lemma rank_comments_stable (l : list ReviewComment.t)
    (s : Severity.t) (q : Q) :
  List.filter (fun c => bool_decide (sev c = s) && Qeq_bool (conf c) q)
              (rank_comments l) =
  List.filter (fun c => bool_decide (sev c = s) && Qeq_bool (conf c) q) l.
Proof.
  set (probe := ReviewComment.Make "" None None s ReviewCategory.LOGIC
                  "" "" None q "").
  pose proof (sorted_stable rank_key_lt rank_key rank_key_lt_negtrans
                (rank_key probe) l) as H.
  fold (rank_comments l) in H.
  assert (E : forall c,
    Py.key_eqv rank_key_lt (rank_key probe) (rank_key c) =
    (bool_decide (sev c = s) && Qeq_bool (conf c) q)).
  { intros c. apply eq_true_iff_eq.
    rewrite rank_key_eqv_spec, andb_true_iff, bool_decide_eq_true,
      Qeq_bool_iff.
    split.
    - intros [E1 E2]. apply severity_rank_inj in E1. simpl in E1, E2.
      split; [congruence|].
      apply Qopp_comp in E2. rewrite !Qopp_involutive in E2.
      symmetry. exact E2.
    - intros [E1 E2]. split.
      + rewrite !severity_rank_values. simpl. rewrite E1. reflexivity.
      + simpl. rewrite E2. reflexivity. }
  rewrite (List.filter_ext _ _ (fun c => eq_sym (E c)) (rank_comments l)).
  rewrite (List.filter_ext _ _ (fun c => eq_sym (E c)) l).
  exact H.
Qed.

(** C6: [rank_comments] is the stable sort by severity rank ascending
    (critical 0, warning 1, suggestion 2, nitpick 3), confidence
    descending within a severity: its output is a rearrangement of its
    input, non-decreasing in rank, non-increasing in confidence within
    equal rank, and findings equal in severity and confidence keep their
    input order; the aggregation ranks the deduplicated findings so. *)
Theorem rank_comments_stable_sort :
  (forall c,
      fst (rank_key c) =
      match sev c with
      | Severity.CRITICAL => 0
      | Severity.WARNING => 1
      | Severity.SUGGESTION => 2
      | Severity.NITPICK => 3
      end) /\
  (forall l, Permutation (rank_comments l) l) /\
  (forall l,
      StronglySorted
        (fun a b =>
           fst (rank_key a) <= fst (rank_key b) /\
           (fst (rank_key a) = fst (rank_key b) -> (conf b <= conf a)%Q))
        (rank_comments l)) /\
  (forall l s q,
      List.filter (fun c => bool_decide (sev c = s) && Qeq_bool (conf c) q)
                  (rank_comments l) =
      List.filter (fun c => bool_decide (sev c = s) && Qeq_bool (conf c) q)
                  l) /\
  (forall comments,
      fst (aggregate_comments comments) =
      rank_comments (deduplicate_comments comments)).
Proof.
  split; [exact severity_rank_values|].
  split; [exact rank_comments_Permutation|].
  split; [exact rank_comments_sorted|].
  split; [exact rank_comments_stable|].
  reflexivity.
Qed.

End RankFacts.

(** ** Deduplication *)

Section DedupFacts.
Import aggregator reference.

Local Abbreviation conf := ReviewComment.confidence.

Lemma dict_get_set_eq {V : Type} (k : string) (v : V) (d : Py.dict V) :
  Py.dict_get k (Py.dict_set k v d) = Some v.
Proof.
  induction d as [|[k' v'] d IH]; simpl.
  - rewrite bool_decide_eq_true_2; reflexivity.
  - destruct (bool_decide (k' = k)) eqn:E; simpl; rewrite E; auto.
Qed.

Lemma dict_get_set_ne {V : Type} (k k' : string) (v : V) (d : Py.dict V) :
  k <> k' -> Py.dict_get k' (Py.dict_set k v d) = Py.dict_get k' d.
Proof.
  intros Hne. induction d as [|[k0 v0] d IH]; simpl.
  - rewrite bool_decide_eq_false_2; auto.
  - destruct (bool_decide (k0 = k)) eqn:E; simpl.
    + apply bool_decide_eq_true in E. subst k0.
      rewrite !bool_decide_eq_false_2; auto.
    + destruct (bool_decide (k0 = k')); auto.
Qed.

Lemma dict_set_absent {V : Type} (k : string) (v : V) (d : Py.dict V) :
  Py.dict_get k d = None -> Py.dict_set k v d = d ++ [(k, v)].
Proof.
  induction d as [|[k' v'] d IH]; simpl; [reflexivity|].
  destruct (bool_decide (k' = k)); [discriminate|].
  intros H. rewrite IH; auto.
Qed.

Lemma dict_set_present {V : Type} (k : string) (v old : V) (d : Py.dict V) :
  Py.dict_get k d = Some old ->
  exists d1 d2, d = d1 ++ (k, old) :: d2 /\
                Py.dict_set k v d = d1 ++ (k, v) :: d2.
Proof.
  induction d as [|[k' v'] d IH]; simpl; [discriminate|].
  destruct (bool_decide (k' = k)) eqn:E.
  - apply bool_decide_eq_true in E. subst k'.
    intros [= ->]. exists [], d. split; reflexivity.
  - intros H. destruct (IH H) as (d1 & d2 & -> & ->).
    exists ((k', v') :: d1), d2. split; reflexivity.
Qed.

Lemma dict_get_In {V : Type} (k : string) (v : V) (d : Py.dict V) :
  Py.dict_get k d = Some v -> In (k, v) d.
Proof.
  induction d as [|[k' v'] d IH]; simpl; [discriminate|].
  destruct (bool_decide (k' = k)) eqn:E.
  - apply bool_decide_eq_true in E. subst k'. intros [= ->]. left; reflexivity.
  - intros H. right. auto.
Qed.

Lemma wf_dict_set (c : ReviewComment.t) (d : Py.dict ReviewComment.t) :
  wf d -> wf (Py.dict_set (dedup_key c) c d).
Proof.
  induction d as [|[k v] d IH]; simpl.
  - intros _. repeat split; reflexivity.
  - intros (Hk & Hn & Hw).
    destruct (bool_decide (k = dedup_key c)) eqn:E; simpl.
    + apply bool_decide_eq_true in E. repeat split; auto.
    + apply bool_decide_eq_false in E. repeat split; auto.
      rewrite dict_get_set_ne; auto.
Qed.

Lemma wf_dedup_step (c : ReviewComment.t) (d : Py.dict ReviewComment.t) :
  wf d -> wf (dedup_step d c).
Proof.
  intros H. unfold dedup_step.
  destruct (Py.dict_get (dedup_key c) d) as [kept|].
  - destruct (Py.float_lt _ _); [apply wf_dict_set|]; assumption.
  - apply wf_dict_set; assumption.
Qed.

Lemma wf_fold (cs : list ReviewComment.t) (d : Py.dict ReviewComment.t) :
  wf d -> wf (fold_left dedup_step cs d).
Proof.
  revert d. induction cs as [|c cs IH]; simpl; intros d H; [exact H|].
  apply IH, wf_dedup_step, H.
Qed.

Lemma wf_get_key (k : string) (v : ReviewComment.t)
    (d : Py.dict ReviewComment.t) :
  wf d -> Py.dict_get k d = Some v -> dedup_key v = k.
Proof.
  induction d as [|[k' v'] d IH]; simpl; [discriminate|].
  intros (Hk & Hn & Hw). destruct (bool_decide (k' = k)) eqn:E.
  - apply bool_decide_eq_true in E. intros [= ->]. congruence.
  - auto.
Qed.

(** In a well-formed dict the values filed under [k] are the single
    value found by looking [k] up. *)
Lemma wf_filter_values (k : string) (d : Py.dict ReviewComment.t) :
  wf d ->
  List.filter (fun x => bool_decide (dedup_key x = k)) (Py.dict_values d) =
  match Py.dict_get k d with Some v => [v] | None => [] end.
Proof.
  induction d as [|[k' v'] d IH]; [reflexivity|].
  intros (Hk & Hn & Hw). specialize (IH Hw).
  unfold Py.dict_values in *.
  cbn [List.filter map snd Py.dict_get]. rewrite Hk.
  destruct (bool_decide (k' = k)) eqn:E.
  - apply bool_decide_eq_true in E. rewrite E in Hn.
    rewrite IH, Hn. reflexivity.
  - exact IH.
Qed.

Lemma dedup_step_get (k : string) (c : ReviewComment.t)
    (d : Py.dict ReviewComment.t) :
  Py.dict_get k (dedup_step d c) = keep k (Py.dict_get k d) c.
Proof.
  unfold dedup_step, keep.
  destruct (bool_decide (dedup_key c = k)) eqn:E.
  - apply bool_decide_eq_true in E. subst k.
    destruct (Py.dict_get (dedup_key c) d) as [old|] eqn:G.
    + destruct (Py.float_lt (conf old) (conf c));
        [apply dict_get_set_eq|exact G].
    + apply dict_get_set_eq.
  - apply bool_decide_eq_false in E.
    destruct (Py.dict_get (dedup_key c) d) as [old|].
    + destruct (Py.float_lt (conf old) (conf c));
        [apply dict_get_set_ne; exact E|reflexivity].
    + apply dict_get_set_ne; exact E.
Qed.

Lemma fold_get (k : string) (cs : list ReviewComment.t)
    (d : Py.dict ReviewComment.t) :
  Py.dict_get k (fold_left dedup_step cs d) =
  fold_left (keep k) cs (Py.dict_get k d).
Proof.
  revert d. induction cs as [|c cs IH]; simpl; intros d; [reflexivity|].
  rewrite IH, dedup_step_get. reflexivity.
Qed.

End DedupFacts.

(** ** Titles, trimmed and lowercased *)

Section TitleFacts.
Import reference.

Lemma isspace_is_blank (c : ascii) : Py.isspace c = is_blank c.
Proof. destruct c as [[] [] [] [] [] [] [] []]; reflexivity. Qed.

Lemma lower_char_small (c : ascii) : Py.lower_char c = small c.
Proof. destruct c as [[] [] [] [] [] [] [] []]; reflexivity. Qed.

Lemma small_blank (c : ascii) : is_blank (small c) = is_blank c.
Proof. destruct c as [[] [] [] [] [] [] [] []]; reflexivity. Qed.

Lemma lower_map (s : string) :
  Py.lower s = string_of_list_ascii (map small (list_ascii_of_string s)).
Proof.
  induction s as [|c s IH]; [reflexivity|].
  cbn [Py.lower list_ascii_of_string map string_of_list_ascii].
  rewrite lower_char_small, IH. reflexivity.
Qed.

Lemma lstrip_drop (s : string) :
  Py.lstrip s = string_of_list_ascii (drop_blanks (list_ascii_of_string s)).
Proof.
  induction s as [|c s IH]; [reflexivity|].
  cbn [Py.lstrip list_ascii_of_string drop_blanks].
  rewrite isspace_is_blank. destruct (is_blank c); [exact IH|].
  cbn [string_of_list_ascii]. rewrite string_of_list_ascii_of_string.
  reflexivity.
Qed.

Lemma drop_blanks_snoc (l : list ascii) (c : ascii) :
  drop_blanks (l ++ [c]) =
  match drop_blanks l with
  | [] => if is_blank c then [] else [c]
  | d => d ++ [c]
  end.
Proof.
  induction l as [|x l IH]; cbn [app drop_blanks]; [reflexivity|].
  destruct (is_blank x); [exact IH|reflexivity].
Qed.

Lemma rstrip_rev (s : string) :
  Py.rstrip s =
  string_of_list_ascii (rev (drop_blanks (rev (list_ascii_of_string s)))).
Proof.
  induction s as [|c s IH]; [reflexivity|].
  cbn [Py.rstrip list_ascii_of_string rev]. rewrite drop_blanks_snoc, IH.
  rewrite isspace_is_blank.
  destruct (drop_blanks (rev (list_ascii_of_string s))) as [|d ds].
  - cbn [rev string_of_list_ascii]. destruct (is_blank c); reflexivity.
  - rewrite rev_app_distr. cbn [rev app string_of_list_ascii].
    destruct (string_of_list_ascii (rev ds ++ [d])) eqn:E; [|reflexivity].
    exfalso. apply (f_equal String.length) in E.
    rewrite <- (list_ascii_of_string_of_list_ascii (rev ds ++ [d])) in E.
    destruct (rev ds); discriminate E.
Qed.

Lemma drop_blanks_map_small (l : list ascii) :
  drop_blanks (map small l) = map small (drop_blanks l).
Proof.
  induction l as [|c l IH]; [reflexivity|].
  cbn [map drop_blanks]. rewrite small_blank.
  destruct (is_blank c); [exact IH|reflexivity].
Qed.

(** The title as the key has it is the title trimmed and lowercased. *)
Lemma strip_lower_normal_title (title : string) :
  Py.strip (Py.lower title) = normal_title title.
Proof.
  unfold Py.strip, normal_title, trimmed.
  rewrite rstrip_rev, lstrip_drop, lower_map.
  rewrite !list_ascii_of_string_of_list_ascii.
  rewrite drop_blanks_map_small, <- map_rev, drop_blanks_map_small, map_rev.
  reflexivity.
Qed.

End TitleFacts.

Section KeepFacts.
Import aggregator reference.

Local Abbreviation conf := ReviewComment.confidence.

Lemma keep_Some (k : string) (old c : ReviewComment.t) :
  exists d, keep k (Some old) c = Some d.
Proof.
  unfold keep. destruct (bool_decide _); [|eauto].
  destruct (Py.float_lt _ _); eauto.
Qed.

Lemma keep_fold_Some (k : string) (cs : list ReviewComment.t)
    (old : ReviewComment.t) :
  exists d, fold_left (keep k) cs (Some old) = Some d.
Proof.
  revert old. induction cs as [|c cs IH]; simpl; intros old; [eauto|].
  destruct (keep_Some k old c) as [d ->]. apply IH.
Qed.

Lemma keep_fold_In (k : string) (cs : list ReviewComment.t)
    (o : option ReviewComment.t) (c : ReviewComment.t) :
  In c cs -> dedup_key c = k -> exists d, fold_left (keep k) cs o = Some d.
Proof.
  revert o. induction cs as [|c' cs IH]; simpl; intros o; [tauto|].
  intros [->|Hin] Hk.
  - assert (exists old, keep k o c = Some old) as [old ->].
    { destruct o as [old|]; [apply keep_Some|].
      unfold keep. rewrite bool_decide_eq_true_2; eauto. }
    apply keep_fold_Some.
  - apply IH; assumption.
Qed.

(** What the fold keeps for [k]: either what was kept before, no later
    finding of the key being strictly more confident, or a finding [d] of
    the list that is strictly more confident than everything of the key
    before it and at least as confident as everything of the key after. *)
Lemma keep_fold_spec (k : string) (cs : list ReviewComment.t)
    (o : option ReviewComment.t) (d : ReviewComment.t) :
  fold_left (keep k) cs o = Some d ->
  (o = Some d /\
   forall c, In c cs -> dedup_key c = k -> (conf c <= conf d)%Q) \/
  (exists l1 l2,
      cs = l1 ++ d :: l2 /\ dedup_key d = k /\
      (forall x, In x l1 -> dedup_key x = k -> (conf x < conf d)%Q) /\
      (forall o0, o = Some o0 -> (conf o0 < conf d)%Q) /\
      (forall x, In x l2 -> dedup_key x = k -> (conf x <= conf d)%Q)).
Proof.
  revert o. induction cs as [|c cs IH]; simpl; intros o H.
  - left. split; [exact H|]. intros c [].
  - destruct (IH _ H) as [[Ho Hle]|(l1 & l2 & -> & Hk & Hlt & Ho & Hle)];
      clear IH.
    + (* [d] was already kept after [c] *)
      unfold keep in Ho.
      destruct (bool_decide (dedup_key c = k)) eqn:E.
      * apply bool_decide_eq_true in E.
        destruct o as [old|].
        -- destruct (Py.float_lt (conf old) (conf c)) eqn:L.
           ++ injection Ho as ->. right. exists [], cs.
              repeat split; auto.
              ** intros x [].
              ** intros o0 [= <-]. apply float_lt_spec, L.
           ++ injection Ho as ->. left. split; [reflexivity|].
              intros x [<-|Hx] Hxk; [apply float_lt_false, L|auto].
        -- injection Ho as ->. right. exists [], cs.
           repeat split; auto.
           ++ intros x [].
           ++ intros o0 [=].
      * apply bool_decide_eq_false in E. subst o. left.
        split; [reflexivity|].
        intros x [<-|Hx] Hxk; [contradiction|auto].
    + (* [d] comes later in the list *)
      right. exists (c :: l1), l2. repeat split; auto.
      * intros x [<-|Hx] Hxk; [|auto].
        unfold keep in Ho. rewrite bool_decide_eq_true_2 in Ho by exact Hxk.
        destruct o as [old|]; [|apply Ho; reflexivity].
        destruct (Py.float_lt (conf old) (conf c)) eqn:L;
          [apply Ho; reflexivity|].
        apply float_lt_false in L.
        eapply Qle_lt_trans; [exact L|]. apply Ho; reflexivity.
      * intros o0 ->. unfold keep in Ho.
        destruct (bool_decide (dedup_key c = k)); [|apply Ho; reflexivity].
        destruct (Py.float_lt (conf o0) (conf c)) eqn:L;
          [|apply Ho; reflexivity].
        apply float_lt_spec in L.
        eapply Qlt_trans; [exact L|]. apply Ho; reflexivity.
Qed.

(** The findings the deduplication keeps under a key. *)
Lemma dedup_filter (k : string) (cs : list ReviewComment.t) :
  List.filter (fun x => bool_decide (dedup_key x = k))
              (deduplicate_comments cs) =
  match fold_left (keep k) cs None with Some d => [d] | None => [] end.
Proof.
  unfold deduplicate_comments.
  rewrite wf_filter_values by (apply wf_fold; exact I).
  rewrite fold_get. reflexivity.
Qed.

Lemma same_slot_key (a b : ReviewComment.t) :
  same_slot a b -> dedup_key a = dedup_key b.
Proof.
  intros (Hf & Hl & Ht). unfold dedup_key.
  rewrite Hf, Hl, !strip_lower_normal_title, Ht. reflexivity.
Qed.

(** Findings whose key strings differ are never merged: every key of
    the input has its survivor in the output. *)
Lemma dedup_key_survives (cs : list ReviewComment.t) (c : ReviewComment.t) :
  In c cs ->
  exists d, In d (deduplicate_comments cs) /\ dedup_key d = dedup_key c.
Proof.
  intros Hin.
  destruct (keep_fold_In (dedup_key c) cs None c Hin eq_refl) as [d Hd].
  exists d.
  pose proof (dedup_filter (dedup_key c) cs) as F. rewrite Hd in F.
  assert (G : In d (List.filter
                      (fun x => bool_decide (dedup_key x = dedup_key c))
                      (deduplicate_comments cs)))
    by (rewrite F; left; reflexivity).
  apply List.filter_In in G. destruct G as [G1 G2].
  apply bool_decide_eq_true in G2. auto.
Qed.

End KeepFacts.

Section DedupClaims.
Import aggregator reference.

Local Abbreviation conf := ReviewComment.confidence.

Lemma dedup_pair (a b : ReviewComment.t) :
  dedup_key a = dedup_key b ->
  deduplicate_comments [a; b] =
  [if Py.float_lt (conf a) (conf b) then b else a].
Proof.
  intros E. unfold deduplicate_comments. cbn [fold_left].
  unfold dedup_step at 2. cbn [Py.dict_get Py.dict_set].
  unfold dedup_step. cbn [Py.dict_get]. rewrite E.
  rewrite bool_decide_eq_true_2 by reflexivity.
  destruct (Py.float_lt (conf a) (conf b)); [|reflexivity].
  cbn [Py.dict_set]. rewrite bool_decide_eq_true_2 by reflexivity.
  reflexivity.
Qed.

Lemma dedup_group (cs : list ReviewComment.t) (a : ReviewComment.t) :
  In a cs ->
  exists d l1 l2,
    List.filter (fun x => bool_decide (dedup_key x = dedup_key a))
                (deduplicate_comments cs) = [d] /\
    cs = l1 ++ d :: l2 /\ dedup_key d = dedup_key a /\
    (forall x, In x l1 -> dedup_key x = dedup_key a ->
               (conf x < conf d)%Q) /\
    (forall x, In x l2 -> dedup_key x = dedup_key a ->
               (conf x <= conf d)%Q).
Proof.
  intros Hin.
  destruct (keep_fold_In (dedup_key a) cs None a Hin eq_refl) as [d Hd].
  destruct (keep_fold_spec _ _ _ _ Hd)
    as [[Ho _]|(l1 & l2 & Hcs & Hk & Hlt & _ & Hle)]; [discriminate|].
  exists d, l1, l2. rewrite dedup_filter, Hd. auto.
Qed.

(** C4: of the findings that share a dedup key (same file, same line,
    absent included, same lowercased and trimmed title) the
    deduplication keeps exactly one: the most confident, and among
    equally confident ones the first met.  Of two such findings alone
    the second wins only when strictly more confident; the "Null check"
    0.6 / "null check " 0.9 pair on a.py:10 leaves the 0.9 finding. *)
Theorem dedup_keeps_highest_confidence :
  (forall a b,
      same_slot a b ->
      deduplicate_comments [a; b] =
      [if Py.float_lt (conf a) (conf b) then b else a]) /\
  (forall cs a b,
      In a cs -> In b cs -> same_slot a b ->
      exists d l1 l2,
        List.filter (fun x => bool_decide (dedup_key x = dedup_key a))
                    (deduplicate_comments cs) = [d] /\
        cs = l1 ++ d :: l2 /\ dedup_key d = dedup_key a /\
        (conf a <= conf d)%Q /\ (conf b <= conf d)%Q /\
        (forall x, In x l1 -> dedup_key x = dedup_key a ->
                   (conf x < conf d)%Q) /\
        (forall x, In x l2 -> dedup_key x = dedup_key a ->
                   (conf x <= conf d)%Q)) /\
  (forall a b,
      ReviewComment.file a = "a.py" -> ReviewComment.line a = Some 10 ->
      ReviewComment.title a = "Null check" -> (conf a == 0.6)%Q ->
      ReviewComment.file b = "a.py" -> ReviewComment.line b = Some 10 ->
      ReviewComment.title b = "null check " -> (conf b == 0.9)%Q ->
      deduplicate_comments [a; b] = [b]).
Proof.
  split; [|split].
  - intros a b H. apply dedup_pair, same_slot_key, H.
  - intros cs a b Ha Hb Hs.
    destruct (dedup_group cs a Ha) as (d & l1 & l2 & Hf & Hcs & Hk & Hlt & Hle).
    exists d, l1, l2. repeat split; auto.
    + assert (G : forall x, In x cs -> dedup_key x = dedup_key a ->
                            (conf x <= conf d)%Q).
      { intros x Hx Hxk. rewrite Hcs in Hx.
        apply in_app_or in Hx. destruct Hx as [Hx|[<-|Hx]].
        - apply Qlt_le_weak. auto.
        - apply Qle_refl.
        - auto. }
      apply G; auto.
    + assert (Hin : In b (l1 ++ d :: l2)) by (rewrite <- Hcs; exact Hb).
      pose proof (same_slot_key a b Hs) as Hab.
      apply in_app_or in Hin. destruct Hin as [Hx|[<-|Hx]].
      * apply Qlt_le_weak. auto.
      * apply Qle_refl.
      * auto.
  - intros a b Fa La Ta Ca Fb Lb Tb Cb.
    rewrite dedup_pair.
    + assert (L : Py.float_lt (conf a) (conf b) = true).
      { apply float_lt_spec. rewrite Ca, Cb. reflexivity. }
      rewrite L. reflexivity.
    + unfold dedup_key. rewrite Fa, La, Ta, Fb, Lb, Tb. reflexivity.
Qed.

Lemma dedup_keeps_highest_confidence_witness :
  let a := samples.null_check_1 in
  let b := samples.null_check_2 in
  deduplicate_comments [a; b] =
  [if Py.float_lt (conf a) (conf b) then b else a] /\
  (exists d l1 l2,
      List.filter (fun x => bool_decide (dedup_key x = dedup_key a))
                  (deduplicate_comments [a; b]) = [d] /\
      [a; b] = l1 ++ d :: l2 /\ dedup_key d = dedup_key a /\
      (conf a <= conf d)%Q /\ (conf b <= conf d)%Q /\
      (forall x, In x l1 -> dedup_key x = dedup_key a ->
                 (conf x < conf d)%Q) /\
      (forall x, In x l2 -> dedup_key x = dedup_key a ->
                 (conf x <= conf d)%Q)) /\
  deduplicate_comments [a; b] = [b] /\
  same_slot samples.umlaut_1 samples.umlaut_2 /\
  deduplicate_comments [samples.umlaut_1; samples.umlaut_2] =
  [samples.umlaut_1].
Proof.
  intros a b.
  destruct dedup_keeps_highest_confidence as (P1 & P2 & P3).
  split; [|split; [|split; [|split]]].
  - apply P1. repeat split; reflexivity.
  - apply (P2 [a; b] a b).
    + left; reflexivity.
    + right; left; reflexivity.
    + repeat split; reflexivity.
  - apply P3; reflexivity.
  - repeat split; reflexivity.
  - apply (P1 samples.umlaut_1 samples.umlaut_2).
    repeat split; reflexivity.
Defined.

(** C5, at a colliding pair: the findings [colon_1] (file a:1, line 2,
    title x) and [colon_2] (file a, line 1, title 2:x) differ in file,
    in line and in normalised title, yet both render the key string
    a:1:2:x, and the deduplication keeps only the first. *)
Theorem dedup_merges_colliding_keys :
  ReviewComment.file samples.colon_1 <> ReviewComment.file samples.colon_2 /\
  ReviewComment.line samples.colon_1 <> ReviewComment.line samples.colon_2 /\
  Py.strip (Py.lower (ReviewComment.title samples.colon_1)) <>
  Py.strip (Py.lower (ReviewComment.title samples.colon_2)) /\
  dedup_key samples.colon_1 = "a:1:2:x" /\
  dedup_key samples.colon_2 = "a:1:2:x" /\
  deduplicate_comments [samples.colon_1; samples.colon_2] =
  [samples.colon_1].
Proof.
  repeat split; try discriminate; reflexivity.
Qed.

End DedupClaims.

(** ** Risk scoring *)

Section RiskFacts.
Import aggregator reference constants.

Local Abbreviation conf := ReviewComment.confidence.

Lemma severity_weight_values (c : ReviewComment.t) :
  severity_weight c = weight (ReviewComment.severity c).
Proof. unfold severity_weight. destruct (ReviewComment.severity c); reflexivity. Qed.

Lemma severity_weight_nonneg (c : ReviewComment.t) : 0 <= severity_weight c.
Proof.
  rewrite severity_weight_values.
  destruct (ReviewComment.severity c); simpl; lia.
Qed.

Lemma total_weight_cons (c : ReviewComment.t) (l : list ReviewComment.t) :
  total_weight (c :: l) = severity_weight c + total_weight l.
Proof. unfold total_weight. simpl. apply sum_cons. Qed.

Lemma total_weight_app (l1 l2 : list ReviewComment.t) :
  total_weight (l1 ++ l2) = total_weight l1 + total_weight l2.
Proof. unfold total_weight. rewrite map_app. apply sum_app. Qed.

Lemma total_weight_weighted_sum (l : list ReviewComment.t) :
  total_weight l = weighted_sum l.
Proof.
  induction l as [|c l IH]; [reflexivity|].
  rewrite total_weight_cons, IH, severity_weight_values. reflexivity.
Qed.

Lemma total_weight_Permutation (l1 l2 : list ReviewComment.t) :
  Permutation l1 l2 -> total_weight l1 = total_weight l2.
Proof.
  intros H. unfold total_weight. apply sum_Permutation.
  apply Permutation_map, H.
Qed.

Lemma compute_risk_score_cutoffs (l : list ReviewComment.t) :
  compute_risk_score l = risk_of_sum (total_weight l).
Proof.
  unfold compute_risk_score, risk_of_sum.
  change (RISK_THRESHOLDS !!! "high") with 30.
  change (RISK_THRESHOLDS !!! "medium") with 15.
  change (RISK_THRESHOLDS !!! "low") with 5.
  generalize (total_weight l). intros s.
  destruct (Z.gtb_spec s 30), (Z.gtb_spec s 15), (Z.gtb_spec s 5),
    (Z.leb_spec s 5), (Z.leb_spec s 15), (Z.leb_spec s 30);
    try reflexivity; lia.
Qed.

Lemma aggregate_risk (comments : list ReviewComment.t) :
  snd (aggregate_comments comments) =
  risk_of_sum (total_weight (deduplicate_comments comments)).
Proof.
  unfold aggregate_comments. cbn [snd].
  rewrite compute_risk_score_cutoffs.
  rewrite (total_weight_Permutation _ _ (rank_comments_Permutation _)).
  reflexivity.
Qed.

Lemma risk_of_sum_mono (s1 s2 : Z) :
  s1 <= s2 ->
  RiskScore.level (risk_of_sum s1) <= RiskScore.level (risk_of_sum s2).
Proof.
  intros H. unfold risk_of_sum.
  destruct (Z.leb_spec s1 5), (Z.leb_spec s1 15), (Z.leb_spec s1 30),
    (Z.leb_spec s2 5), (Z.leb_spec s2 15), (Z.leb_spec s2 30);
    simpl; lia.
Qed.

(** C3: the risk level is read off the sum of the severity weights
    (critical 10, warning 3, suggestion 1, nitpick 0) of the
    deduplicated findings: at most 5 is low, at most 15 medium, at most
    30 high, above 30 critical; one finding of each severity sums to 14,
    which is medium. *)
Theorem risk_score_by_weight_sum :
  (forall c, severity_weight c = weight (ReviewComment.severity c)) /\
  (forall l, compute_risk_score l = risk_of_sum (weighted_sum l)) /\
  (forall comments,
      snd (aggregate_comments comments) =
      risk_of_sum (weighted_sum (deduplicate_comments comments))) /\
  (forall l,
      map ReviewComment.severity l =
      [Severity.CRITICAL; Severity.WARNING; Severity.SUGGESTION;
       Severity.NITPICK] ->
      weighted_sum l = 14 /\ compute_risk_score l = RiskScore.MEDIUM).
Proof.
  split; [exact severity_weight_values|].
  split; [intros l; rewrite <- total_weight_weighted_sum;
          apply compute_risk_score_cutoffs|].
  split; [intros l; rewrite <- total_weight_weighted_sum;
          apply aggregate_risk|].
  intros l H.
  assert (S : weighted_sum l = 14).
  { destruct l as [|c1 [|c2 [|c3 [|c4 [|c5 l]]]]]; try discriminate.
    injection H as H1 H2 H3 H4.
    unfold weighted_sum. simpl. rewrite H1, H2, H3, H4. reflexivity. }
  split; [exact S|].
  rewrite compute_risk_score_cutoffs, total_weight_weighted_sum, S.
  reflexivity.
Qed.

Lemma risk_score_by_weight_sum_witness :
  weighted_sum samples.one_of_each = 14 /\
  compute_risk_score samples.one_of_each = RiskScore.MEDIUM.
Proof.
  apply (proj2 (proj2 (proj2 risk_score_by_weight_sum))).
  reflexivity.
Defined.

End RiskFacts.

Section RiskMonotone.
Import aggregator reference.

Local Abbreviation conf := ReviewComment.confidence.
Local Abbreviation risk := (fun l => snd (aggregate_comments l)).

Lemma total_weight_dict_set (k : string) (v : ReviewComment.t)
    (d : Py.dict ReviewComment.t) :
  total_weight (Py.dict_values (Py.dict_set k v d)) =
  total_weight (Py.dict_values d) + severity_weight v -
  match Py.dict_get k d with
  | Some old => severity_weight old
  | None => 0
  end.
Proof.
  destruct (Py.dict_get k d) as [old|] eqn:G.
  - destruct (dict_set_present k v old d G) as (d1 & d2 & Hd & Hs).
    rewrite Hs, Hd. unfold Py.dict_values. rewrite !map_app. simpl.
    rewrite !total_weight_app, !total_weight_cons. lia.
  - rewrite (dict_set_absent k v d G). unfold Py.dict_values.
    rewrite map_app. simpl.
    rewrite total_weight_app, total_weight_cons.
    change (total_weight []) with 0. lia.
Qed.

Lemma dedup_snoc (l : list ReviewComment.t) (f : ReviewComment.t) :
  deduplicate_comments (l ++ [f]) =
  Py.dict_values (dedup_step (fold_left dedup_step l []) f).
Proof. unfold deduplicate_comments. rewrite fold_left_app. reflexivity. Qed.

Lemma dedup_get_In (l : list ReviewComment.t) (k : string)
    (d : ReviewComment.t) :
  Py.dict_get k (fold_left dedup_step l []) = Some d ->
  In d (deduplicate_comments l) /\ dedup_key d = k.
Proof.
  intros G. split.
  - unfold deduplicate_comments, Py.dict_values.
    apply (in_map snd _ (k, d)), dict_get_In, G.
  - eapply wf_get_key; [|exact G]. apply wf_fold. exact I.
Qed.

(** C8, as the code has it: the score of a list never drops when a
    finding is added to it, and through the aggregation (deduplication,
    then scoring) adding [f] at the end never lowers the risk level
    unless [f] displaces a kept finding of its key, being strictly more
    confident, whose severity weighs strictly more. *)
Theorem risk_monotone_unless_displaced :
  (forall l f,
      RiskScore.level (compute_risk_score l) <=
      RiskScore.level (compute_risk_score (l ++ [f]))) /\
  (forall l f,
      (forall d,
          In d (deduplicate_comments l) -> dedup_key d = dedup_key f ->
          (conf d < conf f)%Q ->
          weight (ReviewComment.severity d) <=
          weight (ReviewComment.severity f)) ->
      RiskScore.level (risk l) <= RiskScore.level (risk (l ++ [f]))).
Proof.
  split.
  - intros l f. rewrite !compute_risk_score_cutoffs.
    apply risk_of_sum_mono. rewrite total_weight_app, total_weight_cons.
    pose proof (severity_weight_nonneg f). change (total_weight []) with 0.
    lia.
  - intros l f H. cbn beta. rewrite !aggregate_risk.
    apply risk_of_sum_mono. rewrite dedup_snoc.
    unfold deduplicate_comments at 1.
    set (seen := fold_left dedup_step l []) in *.
    pose proof (severity_weight_nonneg f) as Hf.
    unfold dedup_step.
    destruct (Py.dict_get (dedup_key f) seen) as [kept|] eqn:G.
    + destruct (Py.float_lt (conf kept) (conf f)) eqn:L; [|lia].
      rewrite total_weight_dict_set, G.
      destruct (dedup_get_In l _ _ G) as [Hin Hk].
      apply float_lt_spec in L.
      specialize (H kept Hin Hk L).
      rewrite <- !severity_weight_values in H. lia.
    + rewrite total_weight_dict_set, G. lia.
Qed.

Lemma risk_monotone_unless_displaced_witness :
  RiskScore.level (risk [samples.null_check_1]) <=
  RiskScore.level (risk ([samples.null_check_1] ++ [samples.sure_critical])).
Proof.
  apply (proj2 risk_monotone_unless_displaced).
  intros d [<-|[]] Hk. discriminate Hk.
Defined.

(** C8 fails as stated: after [sure_critical] (weight 10, medium) the
    more confident [surer_nitpick] at the same place takes its slot, and
    the risk drops to low. *)
Lemma risk_not_monotone :
  ~ (forall l f,
        RiskScore.level (risk l) <= RiskScore.level (risk (l ++ [f]))).
Proof.
  intros H.
  specialize (H [samples.sure_critical] samples.surer_nitpick).
  vm_compute in H. apply H. reflexivity.
Qed.

End RiskMonotone.

(** ** Retry with backoff *)

Section RetryFacts.
Import retry.
Context {T : Type}.
Variable func : Z -> Py.outcome T.
Variable func_name : Py.outcome string.
Variables (max_retries : Z) (base_delay max_delay : Q).
Variable retryable_exceptions : list Py.exn_class.

Local Abbreviation loop :=
  (retry_loop func func_name max_retries base_delay max_delay
              retryable_exceptions).
Local Abbreviation turns := (fun s n => map Z.of_nat (seq s n)).

Local Abbreviation fails_retryably :=
  (retry.fails_retryably func retryable_exceptions).

Lemma delay_of_small (attempt : Z) :
  attempt < 1024 ->
  delay_of base_delay max_delay attempt =
  Py.Return (backoff_delay base_delay max_delay attempt).
Proof.
  intros H. unfold delay_of.
  destruct (Z.geb_spec attempt 1024); [lia|reflexivity].
Qed.

(** One turn that fails retryably before the last one, of a callable
    with a name, below attempt 1024: a call, a sleep, the next turn. *)
Lemma retry_loop_turn (name : string) (attempt : Z) (rest : list Z)
    (last : option Py.exn) (e : Py.exn) :
  func_name = Py.Return name ->
  func attempt = Py.Raise e ->
  Py.catches retryable_exceptions e = true ->
  attempt < max_retries -> attempt < 1024 ->
  loop (attempt :: rest) last =
  (fst (loop rest (Some e)),
   Call attempt :: Sleep (backoff_delay base_delay max_delay attempt)
   :: snd (loop rest (Some e))).
Proof.
  intros Hn He Hc Hm Ho. cbn [retry_loop]. rewrite He, Hc.
  destruct (Z.geb_spec attempt max_retries); [lia|].
  rewrite delay_of_small by exact Ho. rewrite Hn.
  destruct (retry_loop _ _ _ _ _ _ rest (Some e)). reflexivity.
Qed.

Lemma retry_loop_prefix (name : string) (n s extra : nat)
    (last : option Py.exn) :
  func_name = Py.Return name ->
  (forall i, (s <= i < s + n)%nat ->
             fails_retryably (Z.of_nat i) /\ Z.of_nat i < max_retries /\
             Z.of_nat i < 1024) ->
  exists last',
    loop (turns s (n + extra)%nat) last =
    (fst (loop (turns (s + n)%nat extra) last'),
     retried base_delay max_delay (turns s n) ++
     snd (loop (turns (s + n)%nat extra) last')).
Proof.
  intros Hname. revert s last. induction n as [|n IH]; intros s last H.
  - exists last. rewrite Nat.add_0_r. simpl.
    destruct (loop _ last); reflexivity.
  - destruct (H s ltac:(lia)) as ((e & He & Hc) & Hlt & Ho).
    destruct (IH (S s) (Some e)) as [last' IHe].
    { intros i Hi. apply H. lia. }
    exists last'. replace (s + S n)%nat with (S (s + n)) by lia.
    replace (turns s (S n + extra)%nat)
      with (Z.of_nat s :: turns (S s) (n + extra)%nat) by reflexivity.
    rewrite (retry_loop_turn name _ _ _ e Hname He Hc Hlt Ho).
    cbn [Nat.add] in IHe. rewrite IHe. reflexivity.
Qed.

Lemma range_split (j : nat) (extra : nat) :
  Py.range (Z.of_nat (j + extra)) = turns 0%nat (j + extra)%nat.
Proof. unfold Py.range. rewrite Nat2Z.id. reflexivity. Qed.

(** The run up to the turn [j] that ends it. *)
Lemma retry_reaches (name : string) (j : Z) :
  func_name = Py.Return name ->
  0 <= j <= max_retries -> j <= 1024 ->
  (forall i, 0 <= i < j -> fails_retryably i) ->
  exists last rest,
    retry_with_backoff func func_name max_retries base_delay max_delay
                       retryable_exceptions =
    (fst (loop (j :: rest) last),
     retried base_delay max_delay (Py.range j) ++
     snd (loop (j :: rest) last)).
Proof.
  intros Hname Hj Ho H. unfold retry_with_backoff.
  set (n := Z.to_nat j).
  set (extra := Z.to_nat (max_retries - j)).
  replace (max_retries + 1) with (Z.of_nat (n + S extra)) by lia.
  rewrite range_split.
  destruct (retry_loop_prefix name n 0 (S extra) None Hname) as [last' E].
  { intros i Hi. split; [apply H|]; lia. }
  exists last', (turns (S n) extra). rewrite E.
  cbn [Nat.add seq map]. unfold Py.range. fold n.
  replace (Z.of_nat n) with j by lia. reflexivity.
Qed.

Lemma schedule_calls (j : Z) :
  0 <= j -> calls (schedule base_delay max_delay j) = Py.range (j + 1).
Proof.
  intros Hj. unfold schedule, calls. rewrite flat_map_app. simpl.
  unfold Py.range. replace (Z.to_nat (j + 1)) with (Z.to_nat j + 1)%nat by lia.
  rewrite seq_app, map_app. simpl. rewrite Z2Nat.id by lia.
  f_equal. unfold retried.
  generalize (map Z.of_nat (seq 0 (Z.to_nat j))). intros l.
  induction l as [|x l IH]; simpl; [reflexivity|]. rewrite IH. reflexivity.
Qed.

Lemma schedule_sleeps (j : Z) :
  sleeps (schedule base_delay max_delay j) =
  map (backoff_delay base_delay max_delay) (Py.range j).
Proof.
  unfold schedule, sleeps. rewrite flat_map_app. simpl.
  rewrite app_nil_r. unfold retried.
  generalize (Py.range j). intros l.
  induction l as [|x l IH]; simpl; [reflexivity|]. rewrite IH. reflexivity.
Qed.

(** Whatever the callable, every sleep of the loop is the backoff delay
    of one of its turns. *)
Lemma retry_loop_sleeps (attempts : list Z) (last : option Py.exn) :
  List.Forall
    (fun d => exists attempt,
         In attempt attempts /\
         d = backoff_delay base_delay max_delay attempt)
    (sleeps (snd (loop attempts last))).
Proof.
  revert last. induction attempts as [|attempt rest IH]; intros last.
  - cbn [retry_loop]. destruct last; constructor.
  - cbn [retry_loop].
    destruct (func attempt) as [v|e]; [constructor|].
    destruct (Py.catches retryable_exceptions e); [|constructor].
    destruct (Z.geb attempt max_retries);
      [destruct func_name; constructor|].
    unfold delay_of. destruct (Z.geb attempt 1024); [constructor|].
    specialize (IH (Some e)).
    destruct func_name as [name|a]; [|constructor].
    destruct (retry_loop _ _ _ _ _ _ rest (Some e)) as [r trace].
    cbn [snd sleeps flat_map app] in *.
    constructor.
    + exists attempt. split; [left; reflexivity|reflexivity].
    + eapply List.Forall_impl; [|exact IH].
      intros d (a & Ha & Hd). exists a. split; [right; exact Ha|exact Hd].
Qed.

End RetryFacts.

Section RetryClaims.
Import retry.
Context {T : Type}.
Variable func : Z -> Py.outcome T.
Variable func_name : Py.outcome string.
Variables (max_retries : Z) (base_delay max_delay : Q).
Variable retryable_exceptions : list Py.exn_class.

Local Abbreviation run :=
  (retry_with_backoff func func_name max_retries base_delay max_delay
                      retryable_exceptions).
Local Abbreviation fails_retryably :=
  (retry.fails_retryably func retryable_exceptions).
Local Abbreviation schedule := (retry.schedule base_delay max_delay).



End RetryClaims.

Section RetryWitness.
Import retry samples.



End RetryWitness.

(** ** Rate limiter *)

(** Closes an equation between closed rationals by evaluating it. *)
Ltac qeq_by_evaluation := apply Qeq_bool_eq; vm_compute; reflexivity.

Section RateLimiterFacts.
Import rate_limiter rate_limiter.TokenBucketRateLimiter.

Lemma refill_tpm (self : TokenBucketRateLimiter.t) (now : Q) :
  _tpm (_refill self now) = _tpm self.
Proof. reflexivity. Qed.

Lemma refill_caps_tokens (self : TokenBucketRateLimiter.t) (now : Q) :
  (_token_tokens (_refill self now) <= inject_Z (_tpm self))%Q.
Proof. simpl. apply Q.le_min_l. Qed.

Lemma wait_time_bounds (tpm estimated_tokens : Z) (w : Q) :
  wait_time tpm estimated_tokens = Py.Return w ->
  (0.1 <= w <= 5)%Q.
Proof.
  unfold wait_time. destruct (Z.eqb tpm 0); [discriminate|].
  intros [= <-]. split.
  - apply Q.le_max_l.
  - apply Q.max_lub; [discriminate|apply Q.le_min_l].
Qed.

Lemma wait_time_nonzero (tpm estimated_tokens : Z) :
  tpm <> 0 ->
  wait_time tpm estimated_tokens =
  Py.Return
    (Qmax 0.1 (Qmin 5 (inject_Z estimated_tokens / (inject_Z tpm / 60))))%Q.
Proof.
  intros H. unfold wait_time.
  destruct (Z.eqb_spec tpm 0); [contradiction|reflexivity].
Qed.

(** The budget check of a turn, after the refill. *)
Lemma acquire_poll_insufficient (self : TokenBucketRateLimiter.t)
    (now : Q) (estimated_tokens : Z) :
  (_request_tokens (_refill self now) < 1 \/
   _token_tokens (_refill self now) < inject_Z estimated_tokens)%Q ->
  acquire_poll self now estimated_tokens =
  match wait_time (_tpm self) estimated_tokens with
  | Py.Return w => Backoff (_refill self now) w
  | Py.Raise e => Failed (_refill self now) e
  end.
Proof.
  intros H. unfold acquire_poll.
  assert (C : (Qle_bool 1 (_request_tokens (_refill self now)) &&
               Qle_bool (inject_Z estimated_tokens)
                        (_token_tokens (_refill self now)))%bool = false).
  { apply andb_false_iff.
    destruct H as [H|H]; [left|right];
      apply not_true_iff_false; rewrite Qle_bool_iff;
      apply Qlt_not_le, H. }
  rewrite C. reflexivity.
Qed.

Lemma over_capacity_insufficient (self : TokenBucketRateLimiter.t)
    (now : Q) (estimated_tokens : Z) :
  _tpm self < estimated_tokens ->
  (_token_tokens (_refill self now) < inject_Z estimated_tokens)%Q.
Proof.
  intros H. eapply Qle_lt_trans; [apply refill_caps_tokens|].
  rewrite <- Zlt_Qlt. exact H.
Qed.

(** A request for more than the capacity never finds budget, whatever
    the bucket holds and whatever the clock reads. *)
Lemma over_capacity_never_granted (turns : nat) (clock : nat -> Q)
    (self : TokenBucketRateLimiter.t) (estimated_tokens : Z) :
  _tpm self < estimated_tokens ->
  forall self', fst (acquire turns clock self estimated_tokens)
                <> Acquired self'.
Proof.
  intros H. revert clock self H.
  induction turns as [|turns IH]; intros clock self H self'; simpl.
  - discriminate.
  - rewrite acquire_poll_insufficient
      by (right; apply over_capacity_insufficient, H).
    destruct (wait_time _ _) as [w|e]; simpl; [|discriminate].
    specialize (IH (fun i => clock (S i)) (_refill self (clock O)) H self').
    destruct (acquire turns _ _ _). exact IH.
Qed.

(** With a capacity that is not zero such a request is still polling
    after any number of turns, one bounded sleep behind each turn. *)
Lemma over_capacity_never_exits (turns : nat) (clock : nat -> Q)
    (self : TokenBucketRateLimiter.t) (estimated_tokens : Z) :
  _tpm self <> 0 -> _tpm self < estimated_tokens ->
  exists self' waits,
    acquire turns clock self estimated_tokens = (Polling self', waits) /\
    length waits = turns /\
    Forall (fun w => (0.1 <= w <= 5)%Q) waits.
Proof.
  intros Hz H. revert clock self Hz H.
  induction turns as [|turns IH]; intros clock self Hz H; simpl.
  - exists self, []. repeat split. constructor.
  - rewrite acquire_poll_insufficient
      by (right; apply over_capacity_insufficient, H).
    destruct (wait_time (_tpm self) estimated_tokens) as [w|e] eqn:W.
    + destruct (IH (fun i => clock (S i)) (_refill self (clock O)) Hz H)
        as (self' & waits & E & L & F).
      rewrite E. exists self', (w :: waits). repeat split.
      * simpl. rewrite L. reflexivity.
      * constructor; [eapply wait_time_bounds; exact W|exact F].
    + rewrite wait_time_nonzero in W by exact Hz. discriminate.
Qed.

(** With capacity zero the first turn that finds no budget divides by
    zero. *)
Lemma zero_capacity_raises (turns : nat) (clock : nat -> Q)
    (self : TokenBucketRateLimiter.t) (estimated_tokens : Z) :
  _tpm self = 0 -> 0 < estimated_tokens ->
  acquire (S turns) clock self estimated_tokens =
  (Raised (Py.Exn Py.ZeroDivisionError "float division by zero"), []).
Proof.
  intros Hz H. simpl.
  rewrite acquire_poll_insufficient
    by (right; apply over_capacity_insufficient; lia).
  unfold wait_time. rewrite Hz. reflexivity.
Qed.

End RateLimiterFacts.

Section RateLimiterClaims.
Import rate_limiter rate_limiter.TokenBucketRateLimiter.

(** C9, as the code has it: when a turn of [acquire] finds the request
    or the token budget insufficient (and the capacity is not zero), it
    sleeps for the time the refill needs to produce [estimated_tokens]
    tokens, estimated_tokens / (tpm / 60) seconds, clamped to at least
    0.1 s and at most 5 s; the sleep depends on the request and the
    capacity only, not on what the bucket holds. *)
Theorem acquire_backoff_interval
    (self : TokenBucketRateLimiter.t) (now : Q) (estimated_tokens : Z) :
  _tpm self <> 0 ->
  (_request_tokens (_refill self now) < 1 \/
   _token_tokens (_refill self now) < inject_Z estimated_tokens)%Q ->
  exists w,
    acquire_poll self now estimated_tokens = Backoff (_refill self now) w /\
    w = (Qmax 0.1
           (Qmin 5 (inject_Z estimated_tokens / (inject_Z (_tpm self) / 60))))%Q /\
    (0.1 <= w <= 5)%Q /\
    (forall other now',
        _tpm other = _tpm self ->
        (_request_tokens (_refill other now') < 1 \/
         _token_tokens (_refill other now') < inject_Z estimated_tokens)%Q ->
        acquire_poll other now' estimated_tokens =
        Backoff (_refill other now') w).
Proof.
  intros Hz H.
  pose proof (wait_time_nonzero (_tpm self) estimated_tokens Hz) as W.
  eexists. split; [|split; [reflexivity|split]].
  - rewrite acquire_poll_insufficient by exact H. rewrite W. reflexivity.
  - eapply wait_time_bounds. exact W.
  - intros other now' Ht H'.
    rewrite acquire_poll_insufficient by exact H'. rewrite Ht, W.
    reflexivity.
Qed.

Lemma acquire_backoff_interval_witness :
  exists w,
    acquire_poll (samples.bucket 500) 0 1000 =
    Backoff (_refill (samples.bucket 500) 0) w /\
    w = (Qmax 0.1 (Qmin 5 (inject_Z 1000 / (inject_Z 60000 / 60))))%Q /\
    (0.1 <= w <= 5)%Q /\
    (forall other now',
        _tpm other = 60000 ->
        (_request_tokens (_refill other now') < 1 \/
         _token_tokens (_refill other now') < inject_Z 1000)%Q ->
        acquire_poll other now' 1000 = Backoff (_refill other now') w).
Proof.
  apply (acquire_backoff_interval (samples.bucket 500) 0 1000).
  - discriminate.
  - right. reflexivity.
Defined.

(** C9 fails as stated: no factor makes the sleep the clamped multiple
    of the tokens still missing.  For a request of 1000 tokens the
    limiter sleeps one second both when the bucket is empty (1000
    missing) and when it holds 500 (500 missing). *)
Lemma wait_not_proportional_to_deficit :
  ~ exists c : Q,
      forall (tokens : Q) (self' : TokenBucketRateLimiter.t) (w : Q),
        acquire_poll (samples.bucket tokens) 0 1000 = Backoff self' w ->
        (w == Qmax 0.1 (Qmin 5 (c * (1000 - _token_tokens self'))))%Q.
Proof.
  intros [c H].
  assert (U : forall x : Q, (1 == Qmax 0.1 (Qmin 5 x))%Q -> (x == 1)%Q).
  { intros x Hx.
    destruct (Q.max_spec 0.1 (Qmin 5 x)) as [[_ M]|[_ M]];
      rewrite M in Hx; [|discriminate Hx].
    destruct (Q.min_spec 5 x) as [[_ N]|[_ N]];
      rewrite N in Hx; [discriminate Hx|].
    symmetry. exact Hx. }
  pose proof (H 0%Q (_refill (samples.bucket 0) 0) _ eq_refl) as H0.
  pose proof (H 500%Q (_refill (samples.bucket 500) 0) _ eq_refl) as H5.
  assert (W : (Qmax 0.1 (Qmin 5 (inject_Z 1000 / (inject_Z 60000 / 60)))
               == 1)%Q)
    by qeq_by_evaluation.
  assert (T0 : (_token_tokens (_refill (samples.bucket 0) 0) == 0)%Q)
    by qeq_by_evaluation.
  assert (T5 : (_token_tokens (_refill (samples.bucket 500) 0) == 500)%Q)
    by qeq_by_evaluation.
  rewrite T0 in H0. rewrite T5 in H5.
  change (_tpm (samples.bucket 0)) with 60000 in H0.
  change (_tpm (samples.bucket 500)) with 60000 in H5.
  rewrite W in H0, H5.
  apply U in H0, H5. lra.
Qed.

(** C10, at a limiter of capacity zero: a request for one token finds
    no budget in the first turn and the computation of the sleep raises
    [ZeroDivisionError], so the loop is left without any wait. *)
Theorem acquire_zero_capacity_raises :
  acquire 1 samples.ticking (__init__ 60 0 4 0) 1 =
  (Raised (Py.Exn Py.ZeroDivisionError "float division by zero"), []).
Proof. apply zero_capacity_raises; reflexivity. Qed.

End RateLimiterClaims.

(** ** The pipeline *)

Section PipelineFacts.
Import agents pipeline reference.
Variable float_repr : Q -> string.
Variable env : Env.t.
Variable total_ms : Z.

Local Abbreviation run_review := (pipeline.run_review float_repr env total_ms).
Local Abbreviation run_task := (pipeline.run_task float_repr).
Local Abbreviation agents_or_all := (reference.agents_or_all env).

(** When the loop returns, it has gathered the comments and the
    telemetry of the results that are no exceptions. *)
Lemma collect_returned
    (results : list (Py.outcome (list ReviewComment.t * AgentMetrics.t)))
    (acc acc' : list ReviewComment.t * list AgentMetrics.t) :
  collect results acc = Py.Return acc' ->
  acc' = (fst acc ++ comments_of results, snd acc ++ metrics_of results).
Proof.
  revert acc. induction results as [|r results IH]; intros [cs ms] E.
  - cbn [collect] in E. injection E as <-. cbn. rewrite !app_nil_r.
    reflexivity.
  - cbn [collect] in E. destruct r as [[comments metrics]|e].
    + cbn [collect_step fst snd] in E. apply IH in E. subst acc'.
      cbn [fst snd comments_of metrics_of flat_map].
      rewrite <- !app_assoc. reflexivity.
    + cbn [collect_step] in E.
      destruct (Py.isinstance e Py.Exception); [|discriminate E].
      apply IH in E. subst acc'. reflexivity.
Qed.




(** What [run_review] has returned, when it has: the same aggregation. *)
Lemma run_review_returned (pr_diff : PRDiff.t) (llm : LLMProvider.t)
    (agents : option (list ReviewAgent.t)) (max_concurrent : Z)
    (timeout_per_agent : Q) (r : ReviewResult.t) :
  run_review pr_diff llm agents max_concurrent timeout_per_agent = Py.Done r ->
  let results :=
    map (run_task pr_diff timeout_per_agent)
        (build_tasks pr_diff (agents_or_all llm agents)) in
  r =
  {| ReviewResult.pr_diff := pr_diff;
     ReviewResult.comments :=
       fst (aggregator.aggregate_comments (comments_of results));
     ReviewResult.summary := "";
     ReviewResult.risk_score :=
       snd (aggregator.aggregate_comments (comments_of results));
     ReviewResult.agent_metrics := metrics_of results;
     ReviewResult.total_duration_ms := total_ms |}.
Proof.
  intros E results. unfold pipeline.run_review in E.
  destruct (Z.ltb max_concurrent 0); [discriminate E|].
  fold (agents_or_all llm agents) in E.
  unfold gather_return_exceptions in E. fold results in E.
  assert (K : match collect results ([], []) with
              | Py.Raise e => Py.Throw e
              | Py.Return (all_comments, all_metrics) =>
                  let '(ranked_comments, risk_score) :=
                    aggregator.aggregate_comments all_comments in
                  Py.Done
                    {| ReviewResult.pr_diff := pr_diff;
                       ReviewResult.comments := ranked_comments;
                       ReviewResult.summary := "";
                       ReviewResult.risk_score := risk_score;
                       ReviewResult.agent_metrics := all_metrics;
                       ReviewResult.total_duration_ms := total_ms |}
              end = Py.Done r).
  { destruct max_concurrent as [|p|p]; [|exact E|exact E].
    destruct (build_tasks pr_diff (agents_or_all llm agents)) eqn:T;
      [|discriminate E].
    unfold results in *. cbn [map] in *. exact E. }
  clear E.
  destruct (collect results ([], [])) as [[cs ms]|e] eqn:C; [|discriminate K].
  apply collect_returned in C. cbn [fst snd app] in C.
  injection C as -> ->.
  destruct (aggregator.aggregate_comments (comments_of results)).
  injection K as <-. reflexivity.
Qed.





Lemma build_tasks_In (pr_diff : PRDiff.t) (agents : list ReviewAgent.t)
    (task : ReviewAgent.t * FileChange.t) :
  In task (build_tasks pr_diff agents) ->
  In (fst task) agents /\ In (snd task) (PRDiff.files pr_diff).
Proof.
  unfold build_tasks. rewrite in_flat_map. intros (file & Hf & Ht).
  apply in_map_iff in Ht. destruct Ht as (agent & <- & Ha). auto.
Qed.


Lemma raised_in_In
    (results : list (Py.outcome (list ReviewComment.t * AgentMetrics.t)))
    (e : Py.exn) :
  In e (raised_in results) <-> In (Py.Raise e) results.
Proof.
  induction results as [|r results IH]; simpl; [tauto|].
  destruct r as [x|e']; simpl; rewrite IH; split.
  - auto.
  - intros [H|H]; [discriminate H|exact H].
  - intros [->|H]; auto.
  - intros [[= ->]|H]; auto.
Qed.

End PipelineFacts.

Section StockAgents.
Import agents pipeline reference.
Variable float_repr : Q -> string.
Variable env : Env.t.

Local Abbreviation run_task := (pipeline.run_task float_repr).







End StockAgents.

Section TelemetryCount.
Import agents pipeline reference.
Variable float_repr : Q -> string.
Variable env : Env.t.
Variable total_ms : Z.

Local Abbreviation run_review := (pipeline.run_review float_repr env total_ms).
Local Abbreviation run_task := (pipeline.run_task float_repr).
Local Abbreviation agents_or_all := (reference.agents_or_all env).


End TelemetryCount.

Section TelemetryCountSamples.
Import agents pipeline reference samples.



(** A review by the registered agents whose upstream call is cancelled
    returns nothing: each agent lets the [CancelledError] through, and
    the collection loop raises [TypeError] on the first result. *)
Lemma cancelled_task_raises_TypeError :
  pipeline.run_review float_repr env 7 (pr_diff 1) cancelled_llm None 4 60 =
  Py.Throw
    (Py.Exn Py.TypeError "cannot unpack non-iterable CancelledError object").
Proof. reflexivity. Qed.

End TelemetryCountSamples.

Section FailureContainment.
Import agents pipeline reference.
Variable float_repr : Q -> string.
Variable env : Env.t.
Variable total_ms : Z.

Local Abbreviation run_review := (pipeline.run_review float_repr env total_ms).
Local Abbreviation run_task := (pipeline.run_task float_repr).
Local Abbreviation agents_or_all := (reference.agents_or_all env).





End FailureContainment.

Section FailureContainmentSamples.
Import agents pipeline reference samples.



End FailureContainmentSamples.


(** ** Where the key string tells findings apart *)

Section KeyInjectivity.
Import aggregator reference.

Lemma pretty_N_char_isdigit (x : N) : Py.isdigit (pretty_N_char x) = true.
Proof. unfold pretty_N_char. repeat case_match; reflexivity. Qed.

Lemma has_char_digit (c d : ascii) (s : string) :
  Py.isdigit c = false -> Py.isdigit d = true ->
  Py.has_char c (String d s) = Py.has_char c s.
Proof.
  intros Hc Hd. cbn [Py.has_char].
  destruct (Ascii.eqb_spec d c) as [->|_]; [congruence|reflexivity].
Qed.

Lemma pretty_N_go_has_char (c : ascii) (x : N) (s : string) :
  Py.isdigit c = false ->
  Py.has_char c (pretty_N_go x s) = Py.has_char c s.
Proof.
  intros Hc. revert s.
  induction (N.lt_wf_0 x) as [x _ IH]; intros s.
  destruct (N.eq_dec x 0%N) as [->|Hx]; [reflexivity|].
  rewrite pretty_N_go_step by lia.
  rewrite IH by (apply N.div_lt; lia).
  apply has_char_digit; [exact Hc|apply pretty_N_char_isdigit].
Qed.

Lemma pretty_N_has_char (c : ascii) (x : N) :
  Py.isdigit c = false -> Py.has_char c (pretty x) = false.
Proof.
  intros Hc. unfold pretty, pretty_N. case_decide.
  - exact (has_char_digit c "0" "" Hc eq_refl).
  - rewrite pretty_N_go_has_char by exact Hc. reflexivity.
Qed.

Lemma pretty_Z_has_char (c : ascii) (x : Z) :
  Py.isdigit c = false -> c <> "-"%char ->
  Py.has_char c (pretty x) = false.
Proof.
  intros Hc Hd. destruct x as [|p|p].
  - exact (has_char_digit c "0" "" Hc eq_refl).
  - apply (pretty_N_has_char c (Npos p) Hc).
  - change (pretty (Zneg p)) with (String "-" (pretty (Npos p))).
    cbn [Py.has_char]. destruct (Ascii.eqb_spec "-" c) as [E|_];
      [congruence|].
    apply (pretty_N_has_char c (Npos p) Hc).
Qed.

Lemma str_opt_int_no_colon (x : option Z) :
  Py.has_char ":" (Py.str_opt_int x) = false.
Proof.
  destruct x as [n|]; [|reflexivity].
  apply pretty_Z_has_char; [reflexivity|discriminate].
Qed.

Lemma str_opt_int_inj (x y : option Z) :
  Py.str_opt_int x = Py.str_opt_int y -> x = y.
Proof.
  assert (N : forall n : Z, Py.str_opt_int None <> pretty n).
  { intros n E.
    assert (H : Py.has_char "N" (pretty n) = false)
      by (apply pretty_Z_has_char; [reflexivity|discriminate]).
    rewrite <- E in H. discriminate H. }
  destruct x as [n|], y as [m|]; cbn [Py.str_opt_int]; intros E.
  - f_equal. apply (inj pretty). exact E.
  - exfalso. apply (N n). symmetry. exact E.
  - exfalso. apply (N m). exact E.
  - reflexivity.
Qed.

(** A string without colon in front of a colon is read back uniquely. *)
Lemma colon_split (a b x y : string) :
  Py.has_char ":" a = false -> Py.has_char ":" b = false ->
  a +:+ ":" +:+ x = b +:+ ":" +:+ y -> a = b /\ x = y.
Proof.
  revert b. induction a as [|c a IH]; intros [|d b];
    cbn [Py.has_char String.append]; intros Ha Hb E.
  - injection E as E. auto.
  - injection E as E1 E2. subst d. rewrite Ascii.eqb_refl in Hb.
    discriminate Hb.
  - injection E as E1 E2. subst c. rewrite Ascii.eqb_refl in Ha.
    discriminate Ha.
  - injection E as E1 E2. subst d.
    destruct (Ascii.eqb c ":"); [discriminate|].
    destruct (IH b Ha Hb E2) as [-> ->]. auto.
Qed.

(** For file paths without colon the key string determines the file,
    the line and the normalised title. *)
Lemma dedup_key_inj (a b : ReviewComment.t) :
  Py.has_char ":" (ReviewComment.file a) = false ->
  Py.has_char ":" (ReviewComment.file b) = false ->
  dedup_key a = dedup_key b -> same_slot a b.
Proof.
  intros Ha Hb E. unfold dedup_key in E.
  apply colon_split in E; [|assumption..]. destruct E as [Ef E].
  apply colon_split in E; [|apply str_opt_int_no_colon..].
  destruct E as [El Et]. apply str_opt_int_inj in El.
  rewrite !strip_lower_normal_title in Et.
  repeat split; assumption.
Qed.

(** Findings on colon-free paths that differ in file, line or
    normalised title are never merged: each has a survivor of its own
    key in the output, and the two survivors differ. *)
Lemma dedup_distinct_slots_survive (cs : list ReviewComment.t)
    (a b : ReviewComment.t) :
  In a cs -> In b cs ->
  Py.has_char ":" (ReviewComment.file a) = false ->
  Py.has_char ":" (ReviewComment.file b) = false ->
  ~ same_slot a b ->
  exists da db,
    In da (deduplicate_comments cs) /\ In db (deduplicate_comments cs) /\
    dedup_key da = dedup_key a /\ dedup_key db = dedup_key b /\
    da <> db.
Proof.
  intros Ia Ib Ha Hb Hn.
  destruct (dedup_key_survives cs a Ia) as (da & Ida & Ka).
  destruct (dedup_key_survives cs b Ib) as (db & Idb & Kb).
  exists da, db. repeat split; auto.
  intros ->. apply Hn, dedup_key_inj; congruence.
Qed.

End KeyInjectivity.

(** * Further properties of the code *)

(** ** Deduplication and ranking as operations on lists *)

Section DedupAlgebra.
Import aggregator reference.

Lemma dict_get_None_notin {V : Type} (k : string) (d : Py.dict V) :
  Py.dict_get k d = None <-> ~ In k (map fst d).
Proof.
  induction d as [|[k' v] d IH]; simpl.
  - tauto.
  - destruct (bool_decide (k' = k)) eqn:E.
    + apply bool_decide_eq_true in E. split; [discriminate|].
      intros H. exfalso. apply H. left. exact E.
    + apply bool_decide_eq_false in E. rewrite IH. tauto.
Qed.

Lemma wf_keys (d : Py.dict ReviewComment.t) :
  wf d ->
  List.NoDup (map fst d) /\ map dedup_key (Py.dict_values d) = map fst d.
Proof.
  induction d as [|[k v] d IH]; simpl.
  - intros _. split; [constructor|reflexivity].
  - intros (Hk & Hn & Hw). destruct (IH Hw) as [N E]. split.
    + constructor; [apply dict_get_None_notin, Hn|exact N].
    + unfold Py.dict_values in *. rewrite Hk, E. reflexivity.
Qed.

Lemma wf_In_get (k : string) (v : ReviewComment.t)
    (d : Py.dict ReviewComment.t) :
  wf d -> In (k, v) d -> Py.dict_get k d = Some v.
Proof.
  induction d as [|[k' v'] d IH]; simpl; [tauto|].
  intros (Hk & Hn & Hw) [E|Hin].
  - injection E as -> ->. rewrite bool_decide_eq_true_2; reflexivity.
  - destruct (bool_decide (k' = k)) eqn:E; [|auto].
    apply bool_decide_eq_true in E. rewrite E in Hn.
    apply dict_get_None_notin in Hn. exfalso. apply Hn.
    apply (in_map fst _ (k, v)), Hin.
Qed.

(** Comments whose keys are new and pairwise distinct are appended to
    the dict one by one. *)
Lemma fold_fresh (l : list ReviewComment.t) (d : Py.dict ReviewComment.t) :
  List.NoDup (map fst d ++ map dedup_key l) ->
  fold_left dedup_step l d = d ++ map (fun c => (dedup_key c, c)) l.
Proof.
  revert d. induction l as [|c l IH]; intros d H; simpl.
  - rewrite app_nil_r. reflexivity.
  - assert (G : Py.dict_get (dedup_key c) d = None).
    { apply dict_get_None_notin. intros Hin.
      apply List.NoDup_remove_2 in H. apply H.
      apply in_or_app. left. exact Hin. }
    unfold dedup_step at 2. rewrite G, (dict_set_absent _ _ _ G).
    rewrite IH.
    + rewrite <- app_assoc. reflexivity.
    + rewrite map_app, <- app_assoc. exact H.
Qed.

Lemma dedup_distinct_keys (l : list ReviewComment.t) :
  List.NoDup (map dedup_key l) -> deduplicate_comments l = l.
Proof.
  intros H. unfold deduplicate_comments.
  rewrite (fold_fresh l []) by exact H.
  unfold Py.dict_values. simpl. rewrite map_map. simpl. apply map_id.
Qed.

Lemma dedup_keys_NoDup (l : list ReviewComment.t) :
  List.NoDup (map dedup_key (deduplicate_comments l)).
Proof.
  unfold deduplicate_comments.
  destruct (wf_keys (fold_left dedup_step l [])) as [N E].
  - apply wf_fold. exact I.
  - rewrite E. exact N.
Qed.

Lemma dedup_In (l : list ReviewComment.t) (c : ReviewComment.t) :
  In c (deduplicate_comments l) -> In c l.
Proof.
  unfold deduplicate_comments, Py.dict_values. intros H.
  apply in_map_iff in H. destruct H as ([k v] & Hv & Hin). simpl in Hv.
  subst v.
  pose proof (wf_fold l [] I) as W.
  pose proof (wf_In_get k c _ W Hin) as G.
  rewrite fold_get in G. simpl in G.
  destruct (keep_fold_spec _ _ _ _ G)
    as [[Ho _]|(l1 & l2 & -> & _)]; [discriminate|].
  apply in_or_app. right. left. reflexivity.
Qed.

Lemma dict_set_length {V : Type} (k : string) (v : V) (d : Py.dict V) :
  (length (Py.dict_set k v d) <= S (length d))%nat.
Proof.
  induction d as [|[k' v'] d IH]; simpl; [lia|].
  destruct (bool_decide (k' = k)); simpl; lia.
Qed.

Lemma fold_length (l : list ReviewComment.t) (d : Py.dict ReviewComment.t) :
  (length (fold_left dedup_step l d) <= length d + length l)%nat.
Proof.
  revert d. induction l as [|c l IH]; intros d; simpl; [lia|].
  specialize (IH (dedup_step d c)).
  assert (length (dedup_step d c) <= S (length d))%nat.
  { unfold dedup_step. destruct (Py.dict_get _ _) as [kept|].
    - destruct (Py.float_lt _ _); [apply dict_set_length|lia].
    - apply dict_set_length. }
  lia.
Qed.

(** X1: deduplicating twice is deduplicating once. *)
Theorem deduplicate_comments_idempotent (l : list ReviewComment.t) :
  deduplicate_comments (deduplicate_comments l) = deduplicate_comments l.
Proof. apply dedup_distinct_keys, dedup_keys_NoDup. Qed.

(** X2: the deduplicated list holds findings of the input only, no two
    of them under the same key, is no longer than the input, and has a
    finding for exactly the keys of the input. *)
Theorem deduplicate_comments_selects (l : list ReviewComment.t) :
  (forall c, In c (deduplicate_comments l) -> In c l) /\
  List.NoDup (map dedup_key (deduplicate_comments l)) /\
  (length (deduplicate_comments l) <= length l)%nat /\
  (forall k, In k (map dedup_key (deduplicate_comments l)) <->
             In k (map dedup_key l)).
Proof.
  split; [apply dedup_In|]. split; [apply dedup_keys_NoDup|]. split.
  - unfold deduplicate_comments, Py.dict_values. rewrite length_map.
    apply (fold_length l []).
  - intros k. rewrite !in_map_iff. split.
    + intros (c & Hk & Hc). exists c. split; [exact Hk|apply dedup_In, Hc].
    + intros (c & Hk & Hc).
      destruct (dedup_key_survives l c Hc) as (d & Hd & Hkd).
      exists d. split; [congruence|exact Hd].
Qed.

(** X3: a list whose findings have pairwise distinct keys is left as it
    is, order included. *)
Theorem deduplicate_comments_distinct (l : list ReviewComment.t) :
  List.NoDup (map dedup_key l) -> deduplicate_comments l = l.
Proof. apply dedup_distinct_keys. Qed.

Lemma deduplicate_comments_distinct_witness :
  deduplicate_comments samples.one_of_each = samples.one_of_each.
Proof.
  apply deduplicate_comments_distinct.
  repeat constructor; simpl; intuition discriminate.
Defined.

End DedupAlgebra.


Section DedupOrder.
Import aggregator reference notions.

#[local] Instance In_string_dec (k : string) (l : list string) :
  Decision (In k l).
Proof. apply in_dec. intros x y. apply (decide (x = y)). Defined.

Lemma dict_set_keys {V : Type} (k : string) (v : V) (d : Py.dict V) :
  map fst (Py.dict_set k v d) =
  match Py.dict_get k d with
  | Some _ => map fst d
  | None => map fst d ++ [k]
  end.
Proof.
  induction d as [|[k' v'] d IH]; simpl; [reflexivity|].
  destruct (bool_decide (k' = k)) eqn:E; simpl; [reflexivity|].
  rewrite IH. destruct (Py.dict_get k d); reflexivity.
Qed.

Lemma dedup_step_keys (c : ReviewComment.t) (d : Py.dict ReviewComment.t) :
  map fst (dedup_step d c) =
  match Py.dict_get (dedup_key c) d with
  | Some _ => map fst d
  | None => map fst d ++ [dedup_key c]
  end.
Proof.
  unfold dedup_step.
  destruct (Py.dict_get (dedup_key c) d) as [kept|] eqn:G.
  - destruct (Py.float_lt _ _); [|reflexivity].
    rewrite dict_set_keys, G. reflexivity.
  - rewrite dict_set_keys, G. reflexivity.
Qed.

Lemma fold_keys (l : list ReviewComment.t) (d : Py.dict ReviewComment.t) :
  map fst (fold_left dedup_step l d) =
  map fst d ++
  List.filter (fun k => negb (bool_decide (In k (map fst d))))
              (first_occurrences (map dedup_key l)).
Proof.
  revert d. induction l as [|c l IH]; intros d; simpl.
  - rewrite app_nil_r. reflexivity.
  - rewrite IH, dedup_step_keys. clear IH.
    set (k := dedup_key c). set (fk := first_occurrences (map dedup_key l)).
    destruct (Py.dict_get k d) as [kept|] eqn:G.
    + assert (Hin : In k (map fst d)).
      { destruct (decide (In k (map fst d))) as [H|H]; [exact H|].
        apply dict_get_None_notin in H. congruence. }
      rewrite (bool_decide_eq_true_2 _ Hin). simpl. f_equal.
      induction fk as [|x fk IHf]; simpl; [reflexivity|].
      destruct (bool_decide (x = k)) eqn:E; simpl.
      * apply bool_decide_eq_true in E. subst x.
        rewrite (bool_decide_eq_true_2 _ Hin). simpl. exact IHf.
      * rewrite IHf. reflexivity.
    + assert (Hin : ~ In k (map fst d)) by (apply dict_get_None_notin, G).
      rewrite (bool_decide_eq_false_2 _ Hin). simpl.
      rewrite <- app_assoc. simpl. do 2 f_equal.
      induction fk as [|x fk IHf]; simpl; [reflexivity|].
      destruct (bool_decide (x = k)) eqn:E; simpl.
      * apply bool_decide_eq_true in E. subst x.
        rewrite bool_decide_eq_true_2
          by (apply in_or_app; right; left; reflexivity).
        simpl. exact IHf.
      * apply bool_decide_eq_false in E. rewrite IHf.
        destruct (decide (In x (map fst d))) as [H|H].
        -- rewrite !bool_decide_eq_true_2;
             [reflexivity|exact H|apply in_or_app; left; exact H].
        -- rewrite !bool_decide_eq_false_2; [reflexivity|exact H|].
           intros H'. apply in_app_or in H'. destruct H' as [H'|[H'|[]]];
             [contradiction|congruence].
Qed.

(** X4: the deduplicated findings stand in the order in which their
    keys first occur in the input. *)
Theorem deduplicate_comments_order (l : list ReviewComment.t) :
  map dedup_key (deduplicate_comments l) =
  first_occurrences (map dedup_key l).
Proof.
  unfold deduplicate_comments.
  destruct (wf_keys (fold_left dedup_step l [])) as [_ E].
  { apply wf_fold. exact I. }
  rewrite E, fold_keys. cbn [map app].
  generalize (first_occurrences (map dedup_key l)). intros fk.
  induction fk as [|x fk IH]; [reflexivity|]. cbn [List.filter].
  rewrite bool_decide_eq_false_2 by (intros []). cbn [negb].
  rewrite IH. reflexivity.
Qed.

End DedupOrder.

Section RankAlgebra.
Import aggregator reference notions.

Lemma sorted_of_sorted {A K : Type} (lt : K -> K -> bool) (key : A -> K)
    (l : list A) :
  StronglySorted (Py.key_le lt key) l -> Py.sorted lt key l = l.
Proof.
  induction 1 as [|x l Hs IH Hx]; [reflexivity|].
  unfold Py.sorted in *. cbn [fold_right]. rewrite IH.
  destruct l as [|y l']; [reflexivity|].
  cbn [Py.insort]. apply List.Forall_inv in Hx.
  unfold Py.key_le in Hx. rewrite Hx. reflexivity.
Qed.

Lemma rank_comments_ranked (l : list ReviewComment.t) :
  rank_comments (rank_comments l) = rank_comments l.
Proof.
  apply sorted_of_sorted.
  apply (sorted_StronglySorted rank_key_lt rank_key rank_key_lt_irrefl
           rank_key_lt_trans rank_key_lt_negtrans).
Qed.

Lemma dedup_of_ranked (l : list ReviewComment.t) :
  deduplicate_comments (rank_comments (deduplicate_comments l)) =
  rank_comments (deduplicate_comments l).
Proof.
  apply dedup_distinct_keys.
  eapply Permutation_NoDup; [|apply dedup_keys_NoDup].
  apply Permutation_map. symmetry. apply rank_comments_Permutation.
Qed.

(** X5: ranking a ranked list changes nothing. *)
Theorem rank_comments_idempotent (l : list ReviewComment.t) :
  rank_comments (rank_comments l) = rank_comments l.
Proof. apply rank_comments_ranked. Qed.

(** X6: the aggregation is idempotent: aggregating the comments it
    returned gives the same comments and the same risk again. *)
Theorem aggregate_comments_idempotent (l : list ReviewComment.t) :
  aggregate_comments (fst (aggregate_comments l)) = aggregate_comments l.
Proof.
  unfold aggregate_comments. cbn [fst].
  rewrite dedup_of_ranked, rank_comments_ranked. reflexivity.
Qed.

(** X7: the score of a list depends on which findings it holds, not on
    their order, and leaving the nitpicks out does not change it. *)
Theorem compute_risk_score_multiset :
  (forall l l', Permutation l l' ->
                compute_risk_score l = compute_risk_score l') /\
  (forall l,
      compute_risk_score (List.filter (fun c => negb (is_nitpick c)) l) =
      compute_risk_score l).
Proof.
  split.
  - intros l l' H. rewrite !compute_risk_score_cutoffs.
    rewrite (total_weight_Permutation _ _ H). reflexivity.
  - intros l. rewrite !compute_risk_score_cutoffs. f_equal.
    induction l as [|c l IH]; [reflexivity|]. cbn [List.filter].
    unfold is_nitpick at 1.
    destruct (bool_decide (ReviewComment.severity c = Severity.NITPICK))
      eqn:E; cbn [negb].
    + apply bool_decide_eq_true in E.
      rewrite total_weight_cons, IH, severity_weight_values, E. reflexivity.
    + rewrite !total_weight_cons, IH. reflexivity.
Qed.

Lemma compute_risk_score_multiset_witness :
  compute_risk_score (rev samples.one_of_each) =
  compute_risk_score samples.one_of_each.
Proof.
  apply (proj1 compute_risk_score_multiset).
  symmetry. apply Permutation_rev.
Defined.

End RankAlgebra.

(** ** The retry executor on any callable *)

Section RetryAnyCallable.
Import retry.
Context {T : Type}.
Variable func : Z -> Py.outcome T.
Variable func_name : Py.outcome string.
Variables (max_retries : Z) (base_delay max_delay : Q).
Variable retryable_exceptions : list Py.exn_class.

Local Abbreviation loop :=
  (retry_loop func func_name max_retries base_delay max_delay
              retryable_exceptions).
Local Abbreviation run :=
  (retry_with_backoff func func_name max_retries base_delay max_delay
                      retryable_exceptions).
Local Abbreviation fails_retryably :=
  (retry.fails_retryably func retryable_exceptions).
Local Abbreviation schedule := (retry.schedule base_delay max_delay).
Local Abbreviation turns := (fun s n => map Z.of_nat (seq s n)).

(** For a callable with a name and at most 1024 retries the loop stops
    in the first turn that returns, fails with an error that is not
    retried, or is the last one. *)
Lemma retry_loop_stops (name : string) (len s : nat)
    (last : option Py.exn) :
  func_name = Py.Return name ->
  Z.of_nat (s + len) = max_retries -> max_retries <= 1024 ->
  exists n : nat,
    (s <= n <= s + len)%nat /\
    loop (turns s (S len)) last =
    (func (Z.of_nat n),
     retried base_delay max_delay (turns s (n - s)%nat) ++
     [Call (Z.of_nat n)]) /\
    (forall i, (s <= i < n)%nat -> fails_retryably (Z.of_nat i)) /\
    (Z.of_nat n < max_retries -> ~ fails_retryably (Z.of_nat n)).
Proof.
  intros Hname. revert s last.
  induction len as [|len IH]; intros s last Hm Ho.
  - exists s. split; [lia|]. rewrite Nat.sub_diag. cbn [seq map retry_loop].
    split; [|split; [intros i Hi; lia|intros Hlt; lia]].
    destruct (func (Z.of_nat s)) as [v|e]; [reflexivity|].
    destruct (Py.catches retryable_exceptions e); [|reflexivity].
    destruct (Z.geb_spec (Z.of_nat s) max_retries); [|lia].
    rewrite Hname. reflexivity.
  - replace (map Z.of_nat (seq s (S (S len))))
      with (Z.of_nat s :: map Z.of_nat (seq (S s) (S len))) by reflexivity.
    destruct (func (Z.of_nat s)) as [v|e] eqn:F.
    + exists s. split; [lia|]. cbn [retry_loop]. rewrite Nat.sub_diag, F.
      split; [reflexivity|]. split; [intros i Hi; lia|].
      intros _ (e & He & _). congruence.
    + destruct (Py.catches retryable_exceptions e) eqn:C.
      * rewrite (retry_loop_turn func func_name max_retries base_delay
                   max_delay retryable_exceptions name _ _ _ e Hname F C)
          by lia.
        destruct (IH (S s) (Some e)) as (n & Hn & E & Hf & Hl); [lia|lia|].
        exists n. split; [lia|].
        rewrite E. cbn [fst snd].
        replace (n - s)%nat with (S (n - S s)) by lia.
        split; [reflexivity|]. split; [|exact Hl].
        intros i Hi. destruct (Nat.eq_dec i s) as [->|Hne].
        -- exists e. auto.
        -- apply Hf. lia.
      * exists s. split; [lia|]. cbn [retry_loop]. rewrite Nat.sub_diag, F, C.
        split; [reflexivity|]. split; [intros i Hi; lia|].
        intros _ (e' & He & Hc). congruence.
Qed.

Lemma retry_stops (name : string) :
  func_name = Py.Return name ->
  0 <= max_retries <= 1024 ->
  exists n,
    0 <= n <= max_retries /\
    run = (func n, schedule n) /\
    (forall i, 0 <= i < n -> fails_retryably i) /\
    (n < max_retries -> ~ fails_retryably n).
Proof.
  intros Hname Hm. unfold retry_with_backoff, Py.range.
  replace (Z.to_nat (max_retries + 1)) with (S (Z.to_nat max_retries)) by lia.
  destruct (retry_loop_stops name (Z.to_nat max_retries) 0 None Hname)
    as (n & Hn & E & Hf & Hl); [lia|lia|].
  exists (Z.of_nat n). split; [lia|]. split; [|split].
  - rewrite E. unfold retry.schedule, Py.range.
    rewrite Nat.sub_0_r, Nat2Z.id. reflexivity.
  - intros i Hi. replace i with (Z.of_nat (Z.to_nat i)) by lia.
    apply Hf. lia.
  - exact Hl.
Qed.

Lemma backoff_delay_capped (attempt : Z) :
  (backoff_delay base_delay max_delay attempt <= max_delay)%Q.
Proof. apply Q.le_min_r. Qed.

Lemma backoff_delay_mono (i j : Z) :
  (0 <= base_delay)%Q -> 0 <= i <= j ->
  (backoff_delay base_delay max_delay i <=
   backoff_delay base_delay max_delay j)%Q.
Proof.
  intros Hb Hij. unfold backoff_delay.
  apply Q.min_le_compat_r.
  rewrite !(Qmult_comm base_delay). apply Qmult_le_compat_r; [|exact Hb].
  rewrite <- Zle_Qle. apply Z.pow_le_mono_r; lia.
Qed.

(** X8: for [max_retries] m >= 0 the executor behaves in one of three
    ways.  For a callable with a [__name__] and m <= 1024 it stops in
    the first turn n <= m that does not fail retryably (or in turn m)
    and hands on what that call did, be it a value or an error; it has
    made the calls 0..n, at most m + 1, with a backoff sleep after each
    of the first n.  For a callable without [__name__] it makes one
    call: what is not a retryable failure is handed on, and a retryable
    failure ends in the error of the name lookup, without sleep.  For a
    callable with a name that fails retryably in the turns 0..1024, with
    m > 1024, it raises [OverflowError] after call 1024, having slept
    after each of the calls before. *)
Theorem retry_with_backoff_stops :
  0 <= max_retries ->
  (forall name,
      func_name = Py.Return name -> max_retries <= 1024 ->
      exists n,
        0 <= n <= max_retries /\
        run = (func n, schedule n) /\
        (forall i, 0 <= i < n -> fails_retryably i) /\
        (n < max_retries -> ~ fails_retryably n) /\
        calls (snd run) = Py.range (n + 1) /\
        Z.of_nat (length (calls (snd run))) <= max_retries + 1 /\
        sleeps (snd run) =
        map (backoff_delay base_delay max_delay) (Py.range n)) /\
  (forall a,
      func_name = Py.Raise a ->
      run =
      (match func 0 with
       | Py.Return v => Py.Return v
       | Py.Raise e =>
           if Py.catches retryable_exceptions e then Py.Raise a
           else Py.Raise e
       end, [Call 0])) /\
  (forall name,
      func_name = Py.Return name -> 1024 < max_retries ->
      (forall i, 0 <= i <= 1024 -> fails_retryably i) ->
      run =
      (Py.Raise (Py.Exn Py.OverflowError "int too large to convert to float"),
       schedule 1024)).
Proof.
  intros Hm. split; [|split].
  - intros name Hname Ho.
    destruct (retry_stops name Hname ltac:(lia)) as (n & Hn & E & Hf & Hl).
    exists n. rewrite E. cbn [snd].
    pose proof (schedule_calls base_delay max_delay n ltac:(lia)) as Hc.
    repeat split; auto; try lia.
    + rewrite Hc, range_length; lia.
    + apply schedule_sleeps.
  - intros a Hname. unfold retry_with_backoff, Py.range.
    replace (Z.to_nat (max_retries + 1)) with (S (Z.to_nat max_retries))
      by lia.
    cbn [seq map retry_loop]. change (Z.of_nat 0) with 0.
    destruct (func 0) as [v|e]; [reflexivity|].
    destruct (Py.catches retryable_exceptions e); [|reflexivity].
    destruct (Z.geb 0 max_retries); rewrite Hname; reflexivity.
  - intros name Hname Ho H.
    destruct (retry_reaches func func_name max_retries base_delay max_delay
                retryable_exceptions name 1024 Hname ltac:(lia) ltac:(lia))
      as (last & rest & E).
    { intros i Hi. apply H. lia. }
    rewrite E. destruct (H 1024 ltac:(lia)) as (e & He & Hc).
    cbn [retry_loop]. rewrite He, Hc.
    destruct (Z.geb_spec 1024 max_retries); [lia|].
    reflexivity.
Qed.

(** X9: with a negative [max_retries] the callable is never invoked and
    the executor raises [RuntimeError]. *)
Theorem retry_with_backoff_negative :
  max_retries < 0 ->
  retry_with_backoff func func_name max_retries base_delay max_delay
                     retryable_exceptions
  = (Py.Raise (Py.Exn Py.RuntimeError "Unexpected retry loop exit"), []).
Proof.
  intros Hm. unfold retry_with_backoff, Py.range.
  replace (Z.to_nat (max_retries + 1)) with 0%nat by lia. reflexivity.
Qed.

(** X10: no sleep of a run is longer than [max_delay]; with a base delay
    that is not negative the delay never shrinks from one attempt to a
    later one. *)
Theorem retry_sleeps_bounded :
  0 <= max_retries ->
  Forall (fun d => (d <= max_delay)%Q) (sleeps (snd run)) /\
  ((0 <= base_delay)%Q ->
   forall i j, 0 <= i <= j ->
               (backoff_delay base_delay max_delay i <=
                backoff_delay base_delay max_delay j)%Q).
Proof.
  intros Hm. split.
  - unfold retry_with_backoff.
    eapply List.Forall_impl; [|apply retry_loop_sleeps].
    intros d (a & _ & ->). apply backoff_delay_capped.
  - intros Hb i j Hij. apply backoff_delay_mono; assumption.
Qed.

End RetryAnyCallable.

Section RetryAnyCallableSamples.
Import retry samples.

Lemma retry_with_backoff_stops_witness :
  (exists n,
      0 <= n <= 3 /\
      retry_with_backoff flaky named 3 0.01 30 default_retryable =
      (flaky n, schedule 0.01 30 n)) /\
  retry_with_backoff flaky nameless 3 0.01 30 default_retryable =
  (Py.Raise (Py.Exn Py.AttributeError
               "'functools.partial' object has no attribute '__name__'"),
   [Call 0]).
Proof.
  split.
  - destruct (retry_with_backoff_stops flaky named 3 0.01 30
                                       default_retryable)
      as (A & _); [lia|].
    destruct (A "func" eq_refl ltac:(lia)) as (n & Hn & E & _).
    exists n. auto.
  - destruct (retry_with_backoff_stops flaky nameless 3 0.01 30
                                       default_retryable)
      as (_ & B & _); [lia|].
    apply (B _ eq_refl).
Defined.

Lemma retry_with_backoff_negative_witness :
  retry_with_backoff flaky named (-1) 0.01 30 default_retryable =
  (Py.Raise (Py.Exn Py.RuntimeError "Unexpected retry loop exit"), []).
Proof. apply retry_with_backoff_negative. reflexivity. Defined.

Lemma retry_sleeps_bounded_witness :
  Forall (fun d => (d <= 30)%Q)
         (sleeps (snd (retry_with_backoff always_fails named 6 1 30
                                          default_retryable))) /\
  (backoff_delay 1 30 2 <= backoff_delay 1 30 5)%Q.
Proof.
  destruct (retry_sleeps_bounded always_fails named 6 1 30 default_retryable)
    as [F M]; [lia|].
  split; [exact F|]. apply M; [discriminate|lia].
Defined.

End RetryAnyCallableSamples.


(** ** The rate limiter over time *)

Section LimiterOverTime.
Import rate_limiter rate_limiter.TokenBucketRateLimiter limiter_scope.

Lemma refill_amount_nonneg (elapsed : Q) (cap : Z) :
  (0 <= elapsed)%Q -> 0 <= cap -> (0 <= elapsed * inject_Z cap / 60)%Q.
Proof.
  intros He Hc. unfold Qdiv. apply Qmult_le_0_compat; [|discriminate].
  apply Qmult_le_0_compat; [exact He|].
  change 0%Q with (inject_Z 0). rewrite <- Zle_Qle. exact Hc.
Qed.

Lemma refill_within_capacity (self : TokenBucketRateLimiter.t) (now : Q) :
  0 <= _rpm self -> 0 <= _tpm self ->
  (_last_refill self <= now)%Q ->
  within_capacity self -> within_capacity (_refill self now).
Proof.
  intros Hr Ht Hnow [[R0 R1] [T0 T1]].
  assert (He : (0 <= now - _last_refill self)%Q) by lra.
  pose proof (refill_amount_nonneg _ _ He Hr) as Ar.
  pose proof (refill_amount_nonneg _ _ He Ht) as At.
  unfold within_capacity. cbn [_refill _request_tokens _token_tokens _rpm _tpm].
  repeat split.
  - apply Q.min_glb; lra.
  - apply Q.le_min_l.
  - apply Q.min_glb; lra.
  - apply Q.le_min_l.
Qed.

(** X11: if the capacities and the estimate are not negative and the
    clock does not run backwards, a turn of [acquire] leaves both buckets
    between zero and their capacity, whether it grants, backs off or
    fails, and stamps the state with the time of the turn. *)
Theorem acquire_poll_within_capacity (self : TokenBucketRateLimiter.t)
    (now : Q) (estimated_tokens : Z) :
  0 <= _rpm self -> 0 <= _tpm self -> 0 <= estimated_tokens ->
  (_last_refill self <= now)%Q ->
  within_capacity self ->
  within_capacity (poll_state (acquire_poll self now estimated_tokens)) /\
  _last_refill (poll_state (acquire_poll self now estimated_tokens)) = now.
Proof.
  intros Hr Ht He Hnow W.
  pose proof (refill_within_capacity self now Hr Ht Hnow W) as [[R0 R1] [T0 T1]].
  unfold acquire_poll.
  destruct (Qle_bool 1 (_request_tokens (_refill self now))) eqn:C1;
    cbn [andb].
  - destruct (Qle_bool (inject_Z estimated_tokens)
                       (_token_tokens (_refill self now))) eqn:C2.
    + apply Qle_bool_iff in C1, C2. cbn [poll_state]. split; [|reflexivity].
      unfold within_capacity.
      cbn [_request_tokens _token_tokens _rpm _tpm].
      assert (0 <= inject_Z estimated_tokens)%Q
        by (change 0%Q with (inject_Z 0); rewrite <- Zle_Qle; exact He).
      cbn [_refill _rpm _tpm] in *. repeat split; lra.
    + destruct (wait_time _ _); cbn [poll_state];
        (split; [repeat split; assumption|reflexivity]).
  - destruct (wait_time _ _); cbn [poll_state];
      (split; [repeat split; assumption|reflexivity]).
Qed.

Lemma acquire_poll_within_capacity_witness :
  within_capacity
    (poll_state (acquire_poll (__init__ 60 60000 4 0) 3 1000)) /\
  _last_refill (poll_state (acquire_poll (__init__ 60 60000 4 0) 3 1000)) = 3%Q.
Proof.
  apply acquire_poll_within_capacity; try (simpl; lia).
  - discriminate.
  - repeat split; discriminate.
Defined.

End LimiterOverTime.

Section LimiterTurns.
Import rate_limiter rate_limiter.TokenBucketRateLimiter limiter_scope.

Lemma acquire_S (turns : nat) (clock : nat -> Q)
    (self : TokenBucketRateLimiter.t) (estimated_tokens : Z) :
  acquire (S turns) clock self estimated_tokens =
  match acquire_poll self (clock O) estimated_tokens with
  | Granted self' => (semaphore_acquire self', [])
  | Failed _ e => (Raised e, [])
  | Backoff self' w =>
      let '(p, ws) :=
        acquire turns (fun i => clock (S i)) self' estimated_tokens in
      (p, w :: ws)
  end.
Proof. reflexivity. Qed.

End LimiterTurns.


Section LimiterSlots.
Import rate_limiter rate_limiter.TokenBucketRateLimiter limiter_scope.

Lemma acquire_poll_config (self : TokenBucketRateLimiter.t) (now : Q)
    (estimated_tokens : Z) :
  let self' := poll_state (acquire_poll self now estimated_tokens) in
  _rpm self' = _rpm self /\ _tpm self' = _tpm self /\
  _semaphore self' = _semaphore self.
Proof.
  unfold acquire_poll. destruct (_ && _)%bool.
  - repeat split.
  - destruct (wait_time _ _); repeat split.
Qed.

Lemma acquire_slot (turns : nat) (clock : nat -> Q)
    (self self' : TokenBucketRateLimiter.t) (estimated_tokens : Z)
    (waits : list Q) :
  acquire turns clock self estimated_tokens = (Acquired self', waits) ->
  0 < _semaphore self /\
  _semaphore self' = _semaphore self - 1 /\
  _rpm self' = _rpm self /\ _tpm self' = _tpm self.
Proof.
  revert clock self waits.
  induction turns as [|turns IH]; intros clock self waits; [discriminate|].
  rewrite acquire_S.
  pose proof (acquire_poll_config self (clock O) estimated_tokens) as C.
  destruct (acquire_poll self (clock O) estimated_tokens)
    as [s|s w|s e]; cbn [poll_state] in C; cbn zeta in C;
    destruct C as (Cr & Ct & Cs).
  - unfold semaphore_acquire.
    destruct (Z.ltb_spec 0 (_semaphore s)); [|discriminate].
    intros [= <- _]. cbn [_semaphore _rpm _tpm]. repeat split; lia.
  - destruct (acquire turns _ s estimated_tokens) as [p ws] eqn:E.
    intros [= -> _]. apply IH in E. rewrite <- Cr, <- Ct, <- Cs. exact E.
  - discriminate.
Qed.

(** X13: when [acquire] returns, a slot was free and is now taken, and
    [release] gives exactly that slot back: the count of free slots is
    what it was before, the configured rates are untouched, and the
    budget spent stays spent.  With no free slot [acquire] does not
    return, however many turns it takes. *)
Theorem acquire_release_slot (turns : nat) (clock : nat -> Q)
    (self : TokenBucketRateLimiter.t) (estimated_tokens : Z) :
  (forall self' waits,
      acquire turns clock self estimated_tokens = (Acquired self', waits) ->
      0 < _semaphore self /\
      _semaphore self' = _semaphore self - 1 /\
      _semaphore (release self') = _semaphore self /\
      _rpm (release self') = _rpm self /\
      _tpm (release self') = _tpm self /\
      _request_tokens (release self') = _request_tokens self' /\
      _token_tokens (release self') = _token_tokens self') /\
  (_semaphore self <= 0 ->
   forall self', fst (acquire turns clock self estimated_tokens)
                 <> Acquired self').
Proof.
  split.
  - intros self' waits E. apply acquire_slot in E.
    destruct E as (H0 & Hs & Hr & Ht).
    cbn [release _semaphore _rpm _tpm _request_tokens _token_tokens].
    repeat split; try assumption; lia.
  - intros H self' E.
    destruct (acquire turns clock self estimated_tokens) as [p ws] eqn:A.
    cbn [fst] in E. subst p. apply acquire_slot in A. lia.
Qed.

Lemma acquire_release_slot_witness :
  exists self',
    fst (acquire 1 samples.ticking (__init__ 60 60000 4 0) 1000) =
    Acquired self' /\
    _semaphore (release self') = 4 /\
    (forall s, fst (acquire 1 samples.ticking (__init__ 60 60000 0 0) 1000)
               <> Acquired s).
Proof.
  eexists. split; [reflexivity|].
  destruct (acquire_release_slot 1 samples.ticking (__init__ 60 60000 4 0)
              1000) as [A _].
  destruct (acquire_release_slot 1 samples.ticking (__init__ 60 60000 0 0)
              1000) as [_ B].
  split.
  - eapply A. reflexivity.
  - apply B. reflexivity.
Defined.

(** X14: a limiter that has just been created grants a first request
    within its capacity at once: no sleep, one request and the estimated
    tokens deducted from full buckets, one slot taken. *)
Theorem fresh_limiter_grants_at_once (rpm tpm max_concurrent : Z)
    (created : Q) (turns : nat) (clock : nat -> Q) (estimated_tokens : Z) :
  1 <= rpm -> 0 <= tpm -> estimated_tokens <= tpm -> 0 < max_concurrent ->
  (created <= clock O)%Q ->
  exists self',
    acquire (S turns) clock (__init__ rpm tpm max_concurrent created)
            estimated_tokens = (Acquired self', []) /\
    _semaphore self' = max_concurrent - 1 /\
    (_request_tokens self' == inject_Z rpm - 1)%Q /\
    (_token_tokens self' == inject_Z tpm - inject_Z estimated_tokens)%Q.
Proof.
  intros Hr Ht He Hm Hc. rewrite acquire_S. unfold acquire_poll.
  pose proof (refill_amount_nonneg (clock O - created) rpm
                ltac:(lra) ltac:(lia)) as Gr.
  pose proof (refill_amount_nonneg (clock O - created) tpm
                ltac:(lra) ltac:(lia)) as Gt.
  assert (Fr : (_request_tokens
                  (_refill (__init__ rpm tpm max_concurrent created)
                           (clock O)) == inject_Z rpm)%Q).
  { cbn [_refill __init__ _request_tokens _rpm _last_refill].
    apply Q.min_l. lra. }
  assert (Ft : (_token_tokens
                  (_refill (__init__ rpm tpm max_concurrent created)
                           (clock O)) == inject_Z tpm)%Q).
  { cbn [_refill __init__ _token_tokens _tpm _last_refill].
    apply Q.min_l. lra. }
  assert (C1 : Qle_bool 1 (_request_tokens
                 (_refill (__init__ rpm tpm max_concurrent created)
                          (clock O))) = true).
  { apply Qle_bool_iff. rewrite Fr.
    change 1%Q with (inject_Z 1). rewrite <- Zle_Qle. exact Hr. }
  assert (C2 : Qle_bool (inject_Z estimated_tokens)
                 (_token_tokens
                    (_refill (__init__ rpm tpm max_concurrent created)
                             (clock O))) = true).
  { apply Qle_bool_iff. rewrite Ft. rewrite <- Zle_Qle. exact He. }
  rewrite C1, C2. cbn [andb]. unfold semaphore_acquire.
  cbn [_semaphore _refill __init__].
  destruct (Z.ltb_spec 0 max_concurrent); [|lia].
  eexists. split; [reflexivity|].
  cbn [_semaphore _request_tokens _token_tokens].
  split; [reflexivity|]. split.
  - cbn [_refill __init__ _request_tokens _rpm _last_refill] in Fr.
    rewrite Fr. reflexivity.
  - cbn [_refill __init__ _token_tokens _tpm _last_refill] in Ft.
    rewrite Ft. reflexivity.
Qed.

Lemma fresh_limiter_grants_at_once_witness :
  exists self',
    acquire 1 samples.ticking (__init__ 100 100000 2 0) 100 =
    (Acquired self', []) /\
    _semaphore self' = 2 - 1 /\
    (_request_tokens self' == inject_Z 100 - 1)%Q /\
    (_token_tokens self' == inject_Z 100000 - inject_Z 100)%Q.
Proof.
  apply (fresh_limiter_grants_at_once 100 100000 2 0 0 samples.ticking 100);
    try lia.
  discriminate.
Defined.

End LimiterSlots.

(** ** The pipeline beyond the telemetry count *)

Section PipelineScope.
Import agents pipeline reference aggregator.
Variable float_repr : Q -> string.
Variable env : Env.t.
Variable total_ms : Z.

Local Abbreviation run_review := (pipeline.run_review float_repr env total_ms).
Local Abbreviation run_task := (pipeline.run_task float_repr).
Local Abbreviation agents_or_all := (reference.agents_or_all env).

Lemma build_tasks_no_agents (pr_diff : PRDiff.t) :
  build_tasks pr_diff [] = [].
Proof.
  unfold build_tasks. induction (PRDiff.files pr_diff); simpl; auto.
Qed.

Lemma run_review_no_tasks (pr_diff : PRDiff.t) (llm : LLMProvider.t)
    (agents : option (list ReviewAgent.t)) (max_concurrent : Z)
    (timeout_per_agent : Q) :
  0 <= max_concurrent ->
  PRDiff.files pr_diff = [] \/ agents = Some [] ->
  run_review pr_diff llm agents max_concurrent timeout_per_agent =
  Py.Done
    {| ReviewResult.pr_diff := pr_diff;
       ReviewResult.comments := [];
       ReviewResult.summary := "";
       ReviewResult.risk_score := RiskScore.LOW;
       ReviewResult.agent_metrics := [];
       ReviewResult.total_duration_ms := total_ms |}.
Proof.
  intros Hm H. unfold pipeline.run_review.
  destruct (Z.ltb_spec max_concurrent 0); [lia|].
  assert (T : build_tasks pr_diff
                (match agents with
                 | Some a => a
                 | None => create_all_agents env llm
                 end) = []).
  { destruct H as [H| ->].
    - unfold build_tasks. rewrite H. reflexivity.
    - apply build_tasks_no_agents. }
  rewrite T. destruct max_concurrent; reflexivity.
Qed.

(** X15: a review with no file to look at, or with an empty list of
    agents, returns at once an empty report: no comments, risk low, no
    telemetry; this holds for every semaphore size that is not negative,
    zero included. *)
Theorem run_review_empty_matrix (pr_diff : PRDiff.t) (llm : LLMProvider.t)
    (agents : option (list ReviewAgent.t)) (max_concurrent : Z)
    (timeout_per_agent : Q) :
  0 <= max_concurrent ->
  PRDiff.files pr_diff = [] \/ agents = Some [] ->
  run_review pr_diff llm agents max_concurrent timeout_per_agent =
  Py.Done
    {| ReviewResult.pr_diff := pr_diff;
       ReviewResult.comments := [];
       ReviewResult.summary := "";
       ReviewResult.risk_score := RiskScore.LOW;
       ReviewResult.agent_metrics := [];
       ReviewResult.total_duration_ms := total_ms |}.
Proof. apply run_review_no_tasks. Qed.

(** X16: every comment of a review was produced by a task that
    returned, for an agent and a file of the review; no two comments of
    the result have the same dedup key, and they stand in ranking
    order. *)
Theorem run_review_comments_provenance (pr_diff : PRDiff.t)
    (llm : LLMProvider.t) (agents : option (list ReviewAgent.t))
    (max_concurrent : Z) (timeout_per_agent : Q) (r : ReviewResult.t) :
  run_review pr_diff llm agents max_concurrent timeout_per_agent = Py.Done r ->
  (forall c,
      In c (ReviewResult.comments r) ->
      exists agent file comments metrics,
        In agent (agents_or_all llm agents) /\
        In file (PRDiff.files pr_diff) /\
        _run_agent_on_file float_repr agent file pr_diff timeout_per_agent =
        Py.Return (comments, metrics) /\
        In c comments) /\
  List.NoDup (map dedup_key (ReviewResult.comments r)) /\
  rank_comments (ReviewResult.comments r) = ReviewResult.comments r /\
  ReviewResult.risk_score r = compute_risk_score (ReviewResult.comments r) /\
  ReviewResult.pr_diff r = pr_diff.
Proof.
  intros E.
  apply run_review_returned in E. cbn zeta in E. subst r.
  - cbn [ReviewResult.comments ReviewResult.risk_score ReviewResult.pr_diff].
    set (results := map _ (build_tasks _ _)).
    unfold aggregate_comments. cbn [fst snd]. repeat split.
    + intros c Hc.
      apply (Permutation_in _ (rank_comments_Permutation _)) in Hc.
      apply dedup_In in Hc. unfold comments_of in Hc.
      apply in_flat_map in Hc. destruct Hc as (res & Hres & Hc).
      destruct res as [[comments metrics]|e]; [|destruct Hc].
      unfold results in Hres. apply in_map_iff in Hres.
      destruct Hres as ([agent file] & Hrun & Ht).
      apply build_tasks_In in Ht. destruct Ht as [Ha Hf].
      exists agent, file, comments, metrics. auto.
    + eapply Permutation_NoDup; [|apply dedup_keys_NoDup].
      apply Permutation_map. symmetry. apply rank_comments_Permutation.
    + apply rank_comments_ranked.
Qed.

(** X17: a task never raises a timeout.  With a timeout that is not
    positive the analysis is cancelled before it runs, and the task
    returns no comments and a telemetry record for one file whose error
    reads "Timeout after <timeout>s", whatever the agent would do.  With
    a positive timeout it returns that record when the agent's analysis
    is still running at the deadline or itself raises [TimeoutError],
    returns what the analysis returns, and raises any other error of the
    agent's own [analyze] unchanged. *)
Theorem task_contains_timeouts (agent : ReviewAgent.t)
    (file : FileChange.t) (pr_diff : PRDiff.t) (timeout : Q) :
  let task := _run_agent_on_file float_repr agent file pr_diff timeout in
  let timed_out :=
    Py.Return ([], failure_metrics (ReviewAgent.name agent) 0
                     ("Timeout after " +:+ float_repr timeout +:+ "s")) in
  ((timeout <= 0)%Q -> task = timed_out) /\
  ((0 < timeout)%Q ->
   (ReviewAgent.analyze agent file pr_diff = Py.Stall -> task = timed_out) /\
   (forall e, ReviewAgent.analyze agent file pr_diff = Py.Throw e ->
              task = if Py.isinstance e Py.TimeoutError then timed_out
                     else Py.Raise e) /\
   (forall x, ReviewAgent.analyze agent file pr_diff = Py.Done x ->
              task = Py.Return x)) /\
  (forall e, task = Py.Raise e ->
             Py.isinstance e Py.TimeoutError = false /\
             (0 < timeout)%Q /\
             ReviewAgent.analyze agent file pr_diff = Py.Throw e).
Proof.
  cbn zeta. unfold _run_agent_on_file, wait_for, failure_metrics.
  split; [|split].
  - intros L. apply Qle_bool_iff in L. rewrite L. reflexivity.
  - intros P.
    assert (L : Qle_bool timeout 0 = false).
    { destruct (Qle_bool timeout 0) eqn:L; [|reflexivity].
      apply Qle_bool_iff in L. apply Qle_not_lt in L. contradiction. }
    rewrite L. repeat split.
    + intros ->. reflexivity.
    + intros e ->. cbv beta iota.
      destruct (Py.isinstance e Py.TimeoutError); reflexivity.
    + intros x ->. reflexivity.
  - intros e.
    destruct (Qle_bool timeout 0) eqn:L; [discriminate|].
    assert (P : (0 < timeout)%Q).
    { apply Qnot_le_lt. intros L'. apply Qle_bool_iff in L'. congruence. }
    destruct (ReviewAgent.analyze agent file pr_diff) as [x|e'|];
      cbv beta iota.
    + discriminate.
    + destruct (Py.isinstance e' Py.TimeoutError) eqn:I;
        [discriminate|]. intros [= <-]. auto.
    + discriminate.
Qed.

End PipelineScope.

Section PipelineScopeSamples.
Import agents pipeline reference samples.

Lemma run_review_empty_matrix_witness :
  pipeline.run_review float_repr env 7 (pr_diff 0) quiet_llm None 0 60 =
  Py.Done
    {| ReviewResult.pr_diff := pr_diff 0;
       ReviewResult.comments := [];
       ReviewResult.summary := "";
       ReviewResult.risk_score := RiskScore.LOW;
       ReviewResult.agent_metrics := [];
       ReviewResult.total_duration_ms := 7 |}.
Proof.
  apply run_review_empty_matrix; [lia|left; reflexivity].
Defined.

Lemma run_review_comments_provenance_witness :
  exists r,
    pipeline.run_review float_repr env 7 (pr_diff 2) plain_llm None 4 60 =
    Py.Done r /\
    length (ReviewResult.comments r) = 2%nat /\
    List.NoDup (map aggregator.dedup_key (ReviewResult.comments r)) /\
    ReviewResult.pr_diff r = pr_diff 2.
Proof.
  eexists. split; [reflexivity|]. split; [reflexivity|].
  destruct (run_review_comments_provenance float_repr env 7 (pr_diff 2)
              plain_llm None 4 60 _ eq_refl) as (_ & N & _ & _ & P).
  split; [exact N|exact P].
Defined.

End PipelineScopeSamples.


Section TaskTimeoutSamples.
Import agents pipeline reference samples.

Lemma task_contains_timeouts_witness :
  _run_agent_on_file float_repr
    (make_agent env "logic_agent" ReviewCategory.LOGIC slow_llm)
    (file_change 0) (pr_diff 1) 60 =
  Py.Return ([], failure_metrics "logic_agent" 0 "Timeout after 60.0s") /\
  _run_agent_on_file float_repr
    (make_agent env "logic_agent" ReviewCategory.LOGIC quiet_llm)
    (file_change 0) (pr_diff 1) 0 =
  Py.Return ([], failure_metrics "logic_agent" 0 "Timeout after 0.0s").
Proof.
  split.
  - destruct (proj1 (proj2 (task_contains_timeouts float_repr
                    (make_agent env "logic_agent" ReviewCategory.LOGIC
                                slow_llm)
                    (file_change 0) (pr_diff 1) 60))) as (A & _).
    + reflexivity.
    + apply A. reflexivity.
  - apply (proj1 (task_contains_timeouts float_repr
                    (make_agent env "logic_agent" ReviewCategory.LOGIC
                                quiet_llm)
                    (file_change 0) (pr_diff 1) 0)).
    discriminate.
Defined.

End TaskTimeoutSamples.

(** ** Choosing agents by name *)

Section RegistryFacts.
Import agents registry pipeline.

#[local] Existing Instance In_string_dec.

Lemma created_names (env : Env.t) (llm : LLMProvider.t) (names : list string) :
  map ReviewAgent.name (create_agents_by_name env llm (Some names)) =
  List.filter (fun n => bool_decide (In n names)) get_agent_names.
Proof.
  unfold create_agents_by_name, get_agent_names.
  induction AGENT_CLASSES as [|cls classes IH]; [reflexivity|].
  cbn [List.filter map].
  assert (E : bool_decide (fst cls ∈ (list_to_set names : gset string)) =
              bool_decide (In (fst cls) names)).
  { apply bool_decide_ext. rewrite elem_of_list_to_set.
    apply list_elem_of_In. }
  rewrite E. destruct (bool_decide (In (fst cls) names)); cbn [map].
  - rewrite IH. reflexivity.
  - exact IH.
Qed.

(** X18: [create_agents_by_name] with a list of names creates the
    registered agents whose names occur in it, once each and in registry
    order, whatever the order and the repetitions in the list; names
    that are not registered are ignored; the list of all names gives all
    agents, and the empty list gives none (where no list gives all). *)
Theorem create_agents_by_name_selects (env : Env.t) (llm : LLMProvider.t) :
  (forall names,
      map ReviewAgent.name (create_agents_by_name env llm (Some names)) =
      List.filter (fun n => bool_decide (In n names)) get_agent_names) /\
  (forall names names',
      (forall n, In n get_agent_names -> In n names <-> In n names') ->
      create_agents_by_name env llm (Some names) =
      create_agents_by_name env llm (Some names')) /\
  create_agents_by_name env llm (Some get_agent_names) =
  create_all_agents env llm /\
  create_agents_by_name env llm (Some []) = [] /\
  create_agents_by_name env llm None = create_all_agents env llm /\
  get_agent_names = map ReviewAgent.name (create_all_agents env llm).
Proof.
  split; [apply created_names|]. split; [|repeat split].
  intros names names' H. unfold create_agents_by_name. f_equal.
  unfold AGENT_CLASSES. cbn [List.filter fst].
  assert (D : forall n, In n get_agent_names ->
                bool_decide (n ∈ (list_to_set names : gset string)) =
                bool_decide (n ∈ (list_to_set names' : gset string))).
  { intros n Hn. apply bool_decide_ext.
    rewrite !elem_of_list_to_set, !list_elem_of_In. apply H, Hn. }
  rewrite !D by (cbn; tauto). reflexivity.
Qed.

Lemma create_agents_by_name_selects_witness :
  create_agents_by_name samples.env samples.quiet_llm
    (Some ["security_agent"; "logic_agent"; "security_agent"; "typo_agent"]) =
  create_agents_by_name samples.env samples.quiet_llm
    (Some ["logic_agent"; "security_agent"]).
Proof.
  apply (proj1 (proj2 (create_agents_by_name_selects
                         samples.env samples.quiet_llm))).
  intros n Hn. cbn in Hn. cbn.
  intuition (subst; try discriminate; auto).
Defined.

(** X19: a review run with agents chosen by names of which none is
    registered has no agent at all: it returns an empty report with risk
    low and no telemetry, whatever the pull request holds. *)
Theorem unknown_agent_names_review_nothing (float_repr : Q -> string)
    (env : Env.t) (total_ms : Z) (pr_diff : PRDiff.t) (llm : LLMProvider.t)
    (names : list string) (max_concurrent : Z) (timeout_per_agent : Q) :
  0 <= max_concurrent ->
  (forall n, In n names -> ~ In n get_agent_names) ->
  run_review float_repr env total_ms pr_diff llm
    (Some (create_agents_by_name env llm (Some names)))
    max_concurrent timeout_per_agent =
  Py.Done
    {| ReviewResult.pr_diff := pr_diff;
       ReviewResult.comments := [];
       ReviewResult.summary := "";
       ReviewResult.risk_score := RiskScore.LOW;
       ReviewResult.agent_metrics := [];
       ReviewResult.total_duration_ms := total_ms |}.
Proof.
  intros Hm H.
  assert (E : create_agents_by_name env llm (Some names) = []).
  { apply (map_eq_nil ReviewAgent.name). rewrite created_names.
    induction get_agent_names as [|n l IH] in H |- *; [reflexivity|].
    cbn [List.filter].
    rewrite bool_decide_eq_false_2.
    - apply IH. intros m Hm' Hl. apply (H m Hm'). right. exact Hl.
    - intros Hn. apply (H n Hn). left. reflexivity. }
  rewrite E. apply run_review_no_tasks; [exact Hm|right; reflexivity].
Qed.

End RegistryFacts.

Section RegistrySamples.
Import agents registry pipeline samples.

Lemma unknown_agent_names_review_nothing_witness :
  run_review float_repr env 7 (pr_diff 3) quiet_llm
    (Some (create_agents_by_name env quiet_llm
             (Some ["logic"; "Security_Agent"])))
    4 60 =
  Py.Done
    {| ReviewResult.pr_diff := pr_diff 3;
       ReviewResult.comments := [];
       ReviewResult.summary := "";
       ReviewResult.risk_score := RiskScore.LOW;
       ReviewResult.agent_metrics := [];
       ReviewResult.total_duration_ms := 7 |}.
Proof.
  apply unknown_agent_names_review_nothing; [lia|].
  intros n Hn Hr. cbn in Hn, Hr.
  intuition (subst; discriminate).
Defined.

End RegistrySamples.

(** ** Statistics of a result *)

Section StatsFacts.
Import stats.

Lemma count_length (p : ReviewComment.t -> bool)
    (comments : list ReviewComment.t) :
  count p comments = Z.of_nat (length (List.filter p comments)).
Proof.
  unfold count. induction (List.filter p comments) as [|c l IH];
    [reflexivity|].
  cbn [map length]. rewrite sum_cons, IH. lia.
Qed.

Lemma count_cons (p : ReviewComment.t -> bool) (c : ReviewComment.t)
    (comments : list ReviewComment.t) :
  count p (c :: comments) = (if p c then 1 else 0) + count p comments.
Proof.
  rewrite !count_length. cbn [List.filter]. destruct (p c); cbn [length]; lia.
Qed.

(** X20: the statistics of a result count every comment once per
    breakdown: the four severity counts add up to [total_comments], and
    so do the four category counts; each breakdown has an entry for every
    member of its enumeration, in declaration order, also when the count
    is zero, and [total_comments] is the number of comments. *)
Theorem stats_partition (r : ReviewResult.t) :
  total_comments (stats r) = Z.of_nat (length (ReviewResult.comments r)) /\
  map fst (by_severity (stats r)) =
  ["critical"; "warning"; "suggestion"; "nitpick"] /\
  map fst (by_category (stats r)) =
  ["logic"; "readability"; "performance"; "security"] /\
  Py.sum (map snd (by_severity (stats r))) = total_comments (stats r) /\
  Py.sum (map snd (by_category (stats r))) = total_comments (stats r) /\
  (forall s,
      Py.dict_get (Severity.value s) (by_severity (stats r)) =
      Some (Z.of_nat
              (length (List.filter
                         (fun c => bool_decide (ReviewComment.severity c = s))
                         (ReviewResult.comments r))))).
Proof.
  split; [reflexivity|]. split; [reflexivity|]. split; [reflexivity|].
  unfold stats.
  cbn [by_severity by_category total_comments severities categories map snd].
  generalize (ReviewResult.comments r). intros l.
  split; [|split].
  - rewrite !sum_cons. change (Py.sum []) with 0.
    induction l as [|c l IH]; [reflexivity|].
    rewrite !count_cons. cbn [length].
    destruct (ReviewComment.severity c);
      repeat case_bool_decide; try discriminate; try congruence; lia.
  - rewrite !sum_cons. change (Py.sum []) with 0.
    induction l as [|c l IH]; [reflexivity|].
    rewrite !count_cons. cbn [length].
    destruct (ReviewComment.category c);
      repeat case_bool_decide; try discriminate; try congruence; lia.
  - intros s. rewrite <- count_length. destruct s; reflexivity.
Qed.

End StatsFacts.

(** ** Paths, languages and the skip list *)

Section PathFacts.
Import ospath.

Lemma rfind_from_range (c : ascii) (s : string) (i : Z) :
  0 <= i ->
  rfind_from c s i = -1 \/
  i <= rfind_from c s i < i + Z.of_nat (String.length s).
Proof.
  revert i. induction s as [|a s IH]; intros i Hi; cbn [rfind_from String.length].
  - left. reflexivity.
  - destruct (IH (i + 1) ltac:(lia)) as [E|R].
    + rewrite E. cbn. destruct (Ascii.eqb a c); [right; lia|left; reflexivity].
    + destruct (Z.geb_spec (rfind_from c s (i + 1)) 0); [right; lia|lia].
Qed.

Lemma rfind_from_absent (c : ascii) (s : string) (i : Z) :
  Py.has_char c s = false -> rfind_from c s i = -1.
Proof.
  revert i. induction s as [|a s IH]; intros i H; cbn [rfind_from].
  - reflexivity.
  - cbn [Py.has_char] in H. destruct (Ascii.eqb a c); [discriminate|].
    rewrite (IH _ H). reflexivity.
Qed.

Lemma rfind_from_present (c : ascii) (s : string) (i : Z) :
  0 <= i -> Py.has_char c s = true -> i <= rfind_from c s i.
Proof.
  revert i. induction s as [|a s IH]; intros i Hi H; cbn [rfind_from].
  - discriminate.
  - cbn [Py.has_char] in H.
    destruct (rfind_from_range c s (i + 1) ltac:(lia)) as [E|R].
    + rewrite E. cbn. destruct (Ascii.eqb a c) eqn:A; [lia|].
      specialize (IH (i + 1) ltac:(lia) H). lia.
    + destruct (Z.geb_spec (rfind_from c s (i + 1)) 0); lia.
Qed.

Lemma rfind_from_app (c : ascii) (a b : string) (i : Z) :
  0 <= i ->
  rfind_from c (a +:+ b) i =
  if Z.geb (rfind_from c b (i + Z.of_nat (String.length a))) 0
  then rfind_from c b (i + Z.of_nat (String.length a))
  else rfind_from c a i.
Proof.
  revert i. induction a as [|x a IH]; intros i Hi.
  - change ("" +:+ b) with b. cbn [String.length rfind_from].
    rewrite Z.add_0_r.
    destruct (Z.geb_spec (rfind_from c b i) 0) as [G|G]; [reflexivity|].
    destruct (rfind_from_range c b i Hi); lia.
  - change (String x a +:+ b) with (String x (a +:+ b)).
    cbn [String.length rfind_from].
    rewrite (IH (i + 1)) by lia.
    replace (i + 1 + Z.of_nat (String.length a))
      with (i + Z.of_nat (S (String.length a))) by lia.
    destruct (Z.geb_spec (rfind_from c b (i + Z.of_nat (S (String.length a)))) 0)
      as [G|G].
    + destruct (Z.geb_spec (rfind_from c b (i + Z.of_nat (S (String.length a)))) 0);
        [reflexivity|lia].
    + reflexivity.
Qed.

Lemma str_drop_app (a b : string) :
  str_drop (String.length a) (a +:+ b) = b.
Proof. induction a as [|x a IH]; [destruct b; reflexivity|exact IH]. Qed.

Lemma str_take_app (a b : string) :
  str_take (String.length a) (a +:+ b) = a.
Proof.
  induction a as [|x a IH]; [destruct b; reflexivity|].
  change (String x a +:+ b) with (String x (a +:+ b)).
  cbn [String.length str_take]. rewrite IH. reflexivity.
Qed.

Lemma str_drop_add (n m : nat) (s : string) :
  str_drop (n + m) s = str_drop m (str_drop n s).
Proof.
  revert s. induction n as [|n IH]; intros s; [reflexivity|].
  destruct s as [|x s]; cbn [Nat.add str_drop].
  - destruct m; reflexivity.
  - apply IH.
Qed.

Lemma str_length_app (a b : string) :
  String.length (a +:+ b) = (String.length a + String.length b)%nat.
Proof.
  induction a as [|x a IH]; [reflexivity|].
  change (String x a +:+ b) with (String x (a +:+ b)).
  cbn [String.length]. rewrite IH. reflexivity.
Qed.

(** The last [c] of [a ++ c ++ b] when [b] has none. *)
Lemma rfind_from_last (c : ascii) (a b : string) (i : Z) :
  0 <= i -> Py.has_char c b = false ->
  rfind_from c (a +:+ String c b) i = i + Z.of_nat (String.length a).
Proof.
  intros Hi H. rewrite rfind_from_app by exact Hi.
  cbn [rfind_from]. rewrite (rfind_from_absent _ _ _ H).
  rewrite Ascii.eqb_refl.
  change (Z.geb (-1) 0) with false. cbv beta iota.
  destruct (Z.geb_spec (i + Z.of_nat (String.length a)) 0); [reflexivity|lia].
Qed.

Lemma str_drop_join (a b : string) (c : ascii) :
  str_drop (Z.to_nat (Z.of_nat (String.length a) + 1)) (a +:+ String c b) = b.
Proof.
  replace (Z.to_nat (Z.of_nat (String.length a) + 1))
    with (String.length a + 1)%nat by lia.
  rewrite str_drop_add, str_drop_app. reflexivity.
Qed.

(** The last component of [dir/name]. *)
Lemma basename_join (dir name : string) :
  Py.has_char "/" name = false ->
  basename (dir +:+ "/" +:+ name) = name.
Proof.
  intros H. unfold basename, rfind.
  change ("/" +:+ name) with (String "/"%char name).
  rewrite rfind_from_last by (lia || exact H).
  rewrite Z.add_0_l. apply str_drop_join.
Qed.

Lemma basename_plain (name : string) :
  Py.has_char "/" name = false -> basename name = name.
Proof.
  intros H. unfold basename, rfind. rewrite (rfind_from_absent _ _ _ H).
  reflexivity.
Qed.

End PathFacts.

Section LanguageFacts.
Import ospath constants_scope diff_parser.

Lemma rfind_from_shift (c : ascii) (s : string) (i : Z) :
  0 <= i ->
  rfind_from c s i =
  if Z.geb (rfind_from c s 0) 0 then i + rfind_from c s 0 else -1.
Proof.
  revert i. induction s as [|a s IH]; intros i Hi; [reflexivity|].
  cbn [rfind_from].
  rewrite (IH (i + 1)) by lia. rewrite (IH (0 + 1)) by lia.
  destruct (rfind_from_range c s 0 ltac:(lia)) as [E|R].
  - rewrite E. change (Z.geb (-1) 0) with false. cbv beta iota.
    change (Z.geb (-1) 0) with false. cbv beta iota.
    destruct (Ascii.eqb a c); [|reflexivity].
    change (Z.geb 0 0) with true. cbv beta iota. lia.
  - destruct (Z.geb_spec (rfind_from c s 0) 0); [|lia].
    destruct (Z.geb_spec (0 + 1 + rfind_from c s 0) 0); [|lia].
    destruct (Z.geb_spec (i + 1 + rfind_from c s 0) 0); [|lia].
    destruct (Z.geb_spec (0 + 1 + rfind_from c s 0) 0); lia.
Qed.

Lemma lower_char_slash (a : ascii) :
  Ascii.eqb (Py.lower_char a) "/" = Ascii.eqb a "/".
Proof. destruct a as [[] [] [] [] [] [] [] []]; reflexivity. Qed.

Lemma lower_char_dot (a : ascii) :
  Ascii.eqb (Py.lower_char a) "." = Ascii.eqb a ".".
Proof. destruct a as [[] [] [] [] [] [] [] []]; reflexivity. Qed.

Lemma lower_char_idem (a : ascii) :
  Py.lower_char (Py.lower_char a) = Py.lower_char a.
Proof. destruct a as [[] [] [] [] [] [] [] []]; reflexivity. Qed.

Lemma lower_idem (s : string) : Py.lower (Py.lower s) = Py.lower s.
Proof.
  induction s as [|a s IH]; [reflexivity|].
  cbn [Py.lower]. rewrite lower_char_idem, IH. reflexivity.
Qed.

Lemma lower_app (a b : string) :
  Py.lower (a +:+ b) = Py.lower a +:+ Py.lower b.
Proof.
  induction a as [|x a IH]; [reflexivity|].
  change (String x a +:+ b) with (String x (a +:+ b)).
  cbn [Py.lower]. rewrite IH. reflexivity.
Qed.

Lemma lower_has_slash (s : string) :
  Py.has_char "/" (Py.lower s) = Py.has_char "/" s.
Proof.
  induction s as [|a s IH]; [reflexivity|].
  cbn [Py.lower Py.has_char]. rewrite lower_char_slash, IH. reflexivity.
Qed.

Lemma lower_has_dot (s : string) :
  Py.has_char "." (Py.lower s) = Py.has_char "." s.
Proof.
  induction s as [|a s IH]; [reflexivity|].
  cbn [Py.lower Py.has_char]. rewrite lower_char_dot, IH. reflexivity.
Qed.

Lemma lower_any_nondot (s : string) :
  str_any (fun a => negb (Ascii.eqb a ".")) (Py.lower s) =
  str_any (fun a => negb (Ascii.eqb a ".")) s.
Proof.
  induction s as [|a s IH]; [reflexivity|].
  cbn [Py.lower str_any]. rewrite lower_char_dot, IH. reflexivity.
Qed.

Lemma rfind_from_app_absent (c : ascii) (a b : string) (i : Z) :
  0 <= i -> Py.has_char c b = false ->
  rfind_from c (a +:+ b) i = rfind_from c a i.
Proof.
  intros Hi H. rewrite rfind_from_app by exact Hi.
  rewrite (rfind_from_absent _ _ _ H). reflexivity.
Qed.

Lemma rfind_from_app_present (c : ascii) (a b : string) (i : Z) :
  0 <= i -> Py.has_char c b = true ->
  rfind_from c (a +:+ b) i =
  i + Z.of_nat (String.length a) + rfind_from c b 0 /\
  0 <= rfind_from c b 0.
Proof.
  intros Hi H. rewrite rfind_from_app by exact Hi.
  pose proof (rfind_from_present c b 0 ltac:(lia) H) as P.
  rewrite (rfind_from_shift c b (i + Z.of_nat (String.length a))) by lia.
  destruct (Z.geb_spec (rfind_from c b 0) 0); [|lia].
  destruct (Z.geb_spec (i + Z.of_nat (String.length a) + rfind_from c b 0) 0);
    [|lia].
  split; [reflexivity|exact P].
Qed.

(** The extension of [dir/name] is the extension of [name]. *)
Lemma splitext_join (dir name : string) :
  Py.has_char "/" name = false ->
  snd (splitext (dir +:+ String "/" name)) = snd (splitext name).
Proof.
  intros H. unfold splitext, rfind.
  rewrite rfind_from_last by (lia || exact H). rewrite Z.add_0_l.
  rewrite (rfind_from_absent "/" name 0 H).
  set (L := Z.of_nat (String.length dir)).
  assert (HL : 0 <= L) by (unfold L; lia).
  destruct (Py.has_char "." name) eqn:D.
  - destruct (rfind_from_app_present "." dir (String "/" name) 0 ltac:(lia))
      as [E _]; [exact D|].
    rewrite E. clear E.
    cbn [rfind_from]. rewrite (rfind_from_shift "." name (0 + 1)) by lia.
    pose proof (rfind_from_present "." name 0 ltac:(lia) D) as J.
    set (j := rfind_from "." name 0) in *.
    destruct (Z.geb_spec j 0); [|lia].
    destruct (Z.geb_spec (0 + 1 + j) 0); [|lia].
    fold L.
    destruct (Z.gtb_spec (0 + L + (0 + 1 + j)) L); [|lia].
    destruct (Z.gtb_spec j (-1)); [|lia].
    replace (0 + L + (0 + 1 + j) - (L + 1)) with j by lia.
    replace (j - (-1 + 1)) with j by lia.
    change (Z.to_nat (-1 + 1)) with 0%nat. cbn [str_drop].
    unfold L. rewrite str_drop_join.
    destruct (str_any _ (str_take (Z.to_nat j) name)); [|reflexivity].
    cbn [snd].
    replace (Z.to_nat (0 + Z.of_nat (String.length dir) + (0 + 1 + j)))
      with (Z.to_nat (Z.of_nat (String.length dir) + 1) + Z.to_nat j)%nat by lia.
    rewrite str_drop_add, str_drop_join. reflexivity.
  - rewrite (rfind_from_app_absent "." dir (String "/" name)) by (lia || exact D).
    rewrite (rfind_from_absent "." name 0 D).
    change (Z.gtb (-1) (-1)) with false. cbv beta iota.
    destruct (rfind_from_range "." dir 0 ltac:(lia)) as [E'|R'].
    + rewrite E'. destruct (Z.gtb_spec (-1) L); [lia|reflexivity].
    + destruct (Z.gtb_spec (rfind_from "." dir 0) L); [unfold L in *; lia|].
      reflexivity.
Qed.

End LanguageFacts.

Section DetectFacts.
Import ospath constants_scope diff_parser.

Lemma has_char_app (c : ascii) (a b : string) :
  Py.has_char c (a +:+ b) = (Py.has_char c a || Py.has_char c b)%bool.
Proof.
  induction a as [|x a IH]; [reflexivity|].
  change (String x a +:+ b) with (String x (a +:+ b)).
  cbn [Py.has_char]. destruct (Ascii.eqb x c); [reflexivity|exact IH].
Qed.

(** Every key of the table is a dot followed by characters that are
    neither dots nor slashes, and no key occurs twice. *)
Lemma extension_shape :
  List.Forall
    (fun p : string * string =>
       exists rest, fst p = String "." rest /\
                    Py.has_char "." rest = false /\
                    Py.has_char "/" rest = false)
    extension_language_items.
Proof.
  unfold extension_language_items.
  repeat (apply List.Forall_cons;
          [eexists; split; [reflexivity|split; reflexivity]|]).
  apply List.Forall_nil.
Qed.

Lemma extension_keys_NoDup : NoDup (extension_language_items.*1).
Proof.
  refine (@bool_decide_unpack _ (NoDup_dec _) _). vm_compute. exact I.
Qed.

Lemma extension_lookup (ext lang : string) :
  In (ext, lang) extension_language_items ->
  EXTENSION_LANGUAGE_MAP !! ext = Some lang.
Proof.
  intros H. apply elem_of_list_to_map_1.
  - exact extension_keys_NoDup.
  - apply list_elem_of_In. exact H.
Qed.

Lemma no_extension_no_language : EXTENSION_LANGUAGE_MAP !! "" = None.
Proof. vm_compute. reflexivity. Qed.

Lemma detect_language_join (dir name : string) :
  Py.has_char "/" name = false ->
  detect_language (dir +:+ "/" +:+ name) = detect_language name.
Proof.
  intros H. unfold detect_language.
  rewrite lower_app.
  change (Py.lower ("/" +:+ name)) with (String "/"%char (Py.lower name)).
  rewrite splitext_join by (rewrite lower_has_slash; exact H).
  reflexivity.
Qed.

Lemma detect_language_known (stem e lang : string) :
  Py.has_char "/" stem = false ->
  str_any (fun a => negb (Ascii.eqb a ".")) stem = true ->
  In (Py.lower e, lang) extension_language_items ->
  detect_language (stem +:+ e) = Some lang.
Proof.
  intros Hs Hd Hin. unfold detect_language. rewrite lower_app.
  pose proof (proj1 (List.Forall_forall _ _) extension_shape _ Hin)
    as (rest & E & Rd & Rs).
  cbn [fst] in E. rewrite <- (extension_lookup _ _ Hin). f_equal.
  rewrite E. set (s := Py.lower stem).
  assert (S1 : Py.has_char "/" (s +:+ String "." rest) = false).
  { rewrite has_char_app. unfold s. rewrite lower_has_slash, Hs.
    cbn [Py.has_char orb]. exact Rs. }
  unfold splitext, rfind.
  rewrite (rfind_from_absent "/" _ 0 S1).
  rewrite rfind_from_last by (lia || exact Rd). rewrite Z.add_0_l.
  destruct (Z.gtb_spec (Z.of_nat (String.length s)) (-1)); [|lia].
  change (Z.to_nat (-1 + 1)) with 0%nat. cbn [str_drop].
  replace (Z.to_nat (Z.of_nat (String.length s) - (-1 + 1)))
    with (String.length s) by lia.
  rewrite str_take_app. unfold s at 1. rewrite lower_any_nondot, Hd.
  cbn [snd]. rewrite Nat2Z.id. apply str_drop_app.
Qed.

Lemma detect_language_no_dot (name : string) :
  Py.has_char "/" name = false -> Py.has_char "." name = false ->
  detect_language name = None.
Proof.
  intros Hs Hd. unfold detect_language, splitext, rfind.
  rewrite (rfind_from_absent "/" (Py.lower name) 0)
    by (rewrite lower_has_slash; exact Hs).
  rewrite (rfind_from_absent "." (Py.lower name) 0)
    by (rewrite lower_has_dot; exact Hd).
  exact no_extension_no_language.
Qed.

Lemma detect_language_dotfile (rest : string) :
  Py.has_char "/" rest = false -> Py.has_char "." rest = false ->
  detect_language (String "." rest) = None.
Proof.
  intros Hs Hd. unfold detect_language, splitext, rfind.
  change (Py.lower (String "." rest)) with (String "."%char (Py.lower rest)).
  rewrite (rfind_from_absent "/" _ 0)
    by (change (Py.has_char "/" (Py.lower rest) = false);
        rewrite lower_has_slash; exact Hs).
  change (String "."%char (Py.lower rest))
    with ("" +:+ String "."%char (Py.lower rest)).
  rewrite rfind_from_last by (lia || (rewrite lower_has_dot; exact Hd)).
  exact no_extension_no_language.
Qed.

End DetectFacts.

(** ** The diff parser *)

Section ParserFacts.
Import ospath constants_scope diff_parser parser_notions.
Variable hunk_scan : string -> Py.outcome (list HunkRange.t).
Variable str_repr : string -> string.

Lemma count_changes_bounds (lines : list string) (a d : Z) :
  a <= fst (count_changes lines a d) /\
  d <= snd (count_changes lines a d) /\
  fst (count_changes lines a d) + snd (count_changes lines a d)
  <= a + d + Z.of_nat (length lines).
Proof.
  revert a d. induction lines as [|line lines IH]; intros a d.
  - cbn [count_changes fst snd length]. lia.
  - cbn [count_changes length].
    destruct (startswith line "+" && negb (startswith line "+++"))%bool.
    + specialize (IH (a + 1) d). lia.
    + destruct (startswith line "-" && negb (startswith line "---"))%bool.
      * specialize (IH a (d + 1)). lia.
      * specialize (IH a d). lia.
Qed.

Lemma skip_list_members (name : string) :
  bool_decide (name ∈ SKIP_PATTERNS) = true <->
  In name ["package-lock.json"; "yarn.lock"; "poetry.lock"; "Pipfile.lock";
           "pnpm-lock.yaml"; ".gitignore"; ".gitattributes"; "LICENSE"].
Proof.
  rewrite bool_decide_eq_true. unfold SKIP_PATTERNS.
  rewrite elem_of_list_to_set. apply list_elem_of_In.
Qed.

(** What the body of [parse_patch] has in hand when it reaches the
    construction of the result. *)
Lemma parse_patch_scanned (filename patch status : string) :
  parse_patch hunk_scan str_repr filename patch status =
  match scanned hunk_scan patch with
  | Py.Raise e => Py.Raise e
  | Py.Return hunks =>
      let normalised :=
        if bool_decide (status = "removed") then "deleted" else status in
      let counts :=
        if bool_decide (patch = "") then (0, 0)
        else count_changes (splitlines patch) 0 0 in
      if bool_decide (normalised ∈ FileStatus_values) then
        Py.Return
          {| FileChange.filename := filename;
             FileChange.status := normalised;
             FileChange.patch := patch;
             FileChange.additions := fst counts;
             FileChange.deletions := snd counts;
             FileChange.language := detect_language filename;
             FileChange.hunks := hunks |}
      else Py.Raise (not_a_status str_repr normalised)
  end.
Proof.
  unfold parse_patch, scanned, not_a_status.
  destruct (bool_decide (patch = "")); [reflexivity|].
  destruct (hunk_scan patch) as [hunks|e]; [|reflexivity].
  destruct (count_changes (splitlines patch) 0 0). reflexivity.
Qed.

Lemma parse_patch_accepted (filename patch status : string)
    (hunks : list HunkRange.t) :
  In status accepted_statuses ->
  scanned hunk_scan patch = Py.Return hunks ->
  exists fc,
    parse_patch hunk_scan str_repr filename patch status = Py.Return fc /\
    FileChange.filename fc = filename /\
    FileChange.patch fc = patch /\
    In (FileChange.status fc) FileStatus_values /\
    FileChange.status fc =
      (if bool_decide (status = "removed") then "deleted" else status) /\
    FileChange.language fc = detect_language filename /\
    FileChange.hunks fc = hunks /\
    0 <= FileChange.additions fc /\ 0 <= FileChange.deletions fc /\
    FileChange.additions fc + FileChange.deletions fc
    <= Z.of_nat (length (splitlines patch)).
Proof.
  intros H Hs. rewrite parse_patch_scanned, Hs. cbn zeta.
  set (normalised := if bool_decide (status = "removed") then "deleted" else status).
  assert (N : In normalised FileStatus_values).
  { unfold normalised. case_bool_decide as E.
    - right. right. left. reflexivity.
    - destruct H as [H|H]; [congruence|exact H]. }
  rewrite (bool_decide_eq_true_2 (normalised ∈ FileStatus_values))
    by (apply list_elem_of_In; exact N).
  eexists. split; [reflexivity|].
  cbn [FileChange.filename FileChange.patch FileChange.status
       FileChange.language FileChange.hunks FileChange.additions
       FileChange.deletions].
  pose proof (count_changes_bounds (splitlines patch) 0 0) as B.
  case_bool_decide as P; cbn [fst snd];
    repeat split; try reflexivity; try exact N; lia.
Qed.

Lemma parse_patch_refused (filename patch status : string)
    (hunks : list HunkRange.t) :
  ~ In status accepted_statuses ->
  scanned hunk_scan patch = Py.Return hunks ->
  parse_patch hunk_scan str_repr filename patch status =
  Py.Raise (not_a_status str_repr status).
Proof.
  intros H Hs. rewrite parse_patch_scanned, Hs. cbn zeta.
  rewrite (bool_decide_eq_false_2 (status = "removed"))
    by (intros ->; apply H; left; reflexivity).
  rewrite (bool_decide_eq_false_2 (status ∈ FileStatus_values))
    by (intros E; apply H; right; apply list_elem_of_In; exact E).
  reflexivity.
Qed.

Lemma parse_patch_scan_raises (filename patch status : string)
    (e : Py.exn) :
  scanned hunk_scan patch = Py.Raise e ->
  parse_patch hunk_scan str_repr filename patch status = Py.Raise e.
Proof. intros Hs. rewrite parse_patch_scanned, Hs. reflexivity. Qed.

End ParserFacts.

Section ParseLoopFacts.
Import ospath constants_scope diff_parser parser_notions.
Variable hunk_scan : string -> Py.outcome (list HunkRange.t).
Variable str_repr : string -> string.

Lemma parse_patch_returns (filename patch status : string)
    (fc : FileChange.t) :
  parse_patch hunk_scan str_repr filename patch status = Py.Return fc ->
  In status accepted_statuses /\
  FileChange.filename fc = filename /\
  FileChange.patch fc = patch /\
  In (FileChange.status fc) FileStatus_values.
Proof.
  intros R.
  destruct (scanned hunk_scan patch) as [hunks|e] eqn:Hs.
  - destruct (in_dec string_dec status accepted_statuses) as [A|A].
    + destruct (parse_patch_accepted hunk_scan str_repr filename patch
                                     status hunks A Hs)
        as (fc' & R' & F & P & S & _).
      rewrite R in R'. injection R' as <-. auto.
    + rewrite (parse_patch_refused hunk_scan str_repr _ _ _ _ A Hs) in R.
      discriminate R.
  - rewrite (parse_patch_scan_raises hunk_scan str_repr _ _ _ _ Hs) in R.
    discriminate R.
Qed.

(** [parse_patch] raises what the scan raises, or else the error of the
    enumeration on a status that is not accepted. *)
Lemma parse_patch_raises (filename patch status : string) (e : Py.exn) :
  parse_patch hunk_scan str_repr filename patch status = Py.Raise e ->
  scanned hunk_scan patch = Py.Raise e \/
  (~ In status accepted_statuses /\ e = not_a_status str_repr status).
Proof.
  intros R.
  destruct (scanned hunk_scan patch) as [hunks|e'] eqn:Hs.
  - right.
    destruct (in_dec string_dec status accepted_statuses) as [A|A].
    + destruct (parse_patch_accepted hunk_scan str_repr filename patch
                                     status hunks A Hs) as (fc & R' & _).
      rewrite R in R'. discriminate R'.
    + rewrite (parse_patch_refused hunk_scan str_repr _ _ _ _ A Hs) in R.
      injection R as <-. auto.
  - left. rewrite (parse_patch_scan_raises hunk_scan str_repr _ _ _ _ Hs) in R.
    injection R as <-. reflexivity.
Qed.

(** One turn of the loop on a file that is passed over. *)
Lemma parse_loop_pass (max_files max_lines : Z) (f : GitHubFileDict.t)
    (files : list GitHubFileDict.t) (parsed : list FileChange.t)
    (skipped : list string) (total : Z) :
  passed_over f = true ->
  parse_loop hunk_scan str_repr max_files max_lines (f :: files) parsed skipped total =
  parse_loop hunk_scan str_repr max_files max_lines files parsed
             (skipped ++ [file_name f]) total.
Proof.
  unfold passed_over, file_name, file_patch. intros H. cbn [parse_loop].
  destruct (should_skip_file (default "" (GitHubFileDict.filename f)));
    [reflexivity|].
  cbn [orb] in H. rewrite H. reflexivity.
Qed.

(** One turn of the loop on a file that is not passed over. *)
Lemma parse_loop_turn (max_files max_lines : Z) (f : GitHubFileDict.t)
    (files : list GitHubFileDict.t) (parsed : list FileChange.t)
    (skipped : list string) (total : Z) :
  passed_over f = false ->
  parse_loop hunk_scan str_repr max_files max_lines (f :: files) parsed skipped total =
  if Z.gtb (total + patch_lines (file_patch f)) max_lines then
    parse_loop hunk_scan str_repr max_files max_lines files parsed
               (skipped ++ [file_name f]) total
  else
    match parse_patch hunk_scan str_repr (file_name f) (file_patch f) (file_status f)
    with
    | Py.Raise e => Py.Raise e
    | Py.Return fc =>
        if Z.geb (Z.of_nat (length (parsed ++ [fc]))) max_files
        then Py.Return (parsed ++ [fc], skipped)
        else parse_loop hunk_scan str_repr max_files max_lines files (parsed ++ [fc])
                        skipped (total + patch_lines (file_patch f))
    end.
Proof.
  unfold passed_over, file_name, file_patch, file_status, patch_lines.
  intros H. cbn [parse_loop].
  apply orb_false_iff in H. destruct H as [H1 H2].
  rewrite H1, H2. reflexivity.
Qed.

Lemma parse_loop_passed_over (max_files max_lines : Z)
    (pre rest : list GitHubFileDict.t) (parsed : list FileChange.t)
    (skipped : list string) (total : Z) :
  List.Forall (fun f => passed_over f = true) pre ->
  parse_loop hunk_scan str_repr max_files max_lines (pre ++ rest) parsed skipped total =
  parse_loop hunk_scan str_repr max_files max_lines rest parsed
             (skipped ++ map file_name pre) total.
Proof.
  intros H. revert skipped.
  induction H as [|f pre Hf _ IH]; intros skipped.
  - cbn [app map]. rewrite app_nil_r. reflexivity.
  - change ((f :: pre) ++ rest) with (f :: (pre ++ rest)).
    rewrite (parse_loop_pass _ _ _ _ _ _ _ Hf), IH.
    cbn [map]. rewrite <- app_assoc. reflexivity.
Qed.

(** What a run of the loop that returns has added to its lists. *)
Lemma parse_loop_returns (max_files max_lines : Z)
    (files : list GitHubFileDict.t) :
  forall (parsed : list FileChange.t) (skipped : list string) (total : Z)
         (P : list FileChange.t) (S : list string),
  parse_loop hunk_scan str_repr max_files max_lines files parsed skipped total
  = Py.Return (P, S) ->
  exists P' S',
    P = parsed ++ P' /\ S = skipped ++ S' /\
    (length P' + length S' <= length files)%nat /\
    (Z.of_nat (length P) < max_files ->
     (length P' + length S')%nat = length files) /\
    (P' = [] \/
     (Z.of_nat (length P) <= Z.max (Z.of_nat (length parsed) + 1) max_files /\
      total + total_patch_lines P' <= max_lines)) /\
    List.Forall
      (fun fc => exists f,
           In f files /\ passed_over f = false /\
           parse_patch hunk_scan str_repr (file_name f) (file_patch f) (file_status f)
           = Py.Return fc) P' /\
    sublist (map FileChange.filename P') (map file_name files) /\
    sublist S' (map file_name files).
Proof.
  induction files as [|f files IH]; intros parsed skipped total P S R.
  - cbn [parse_loop] in R. injection R as <- <-.
    exists [], []. rewrite !app_nil_r. cbn [length map Nat.add].
    repeat split; try lia; try (left; reflexivity); try constructor.
  - assert (SK : forall skipped',
               parse_loop hunk_scan str_repr max_files max_lines files parsed
                          (skipped ++ [file_name f]) total = Py.Return (P, S) ->
               skipped' = skipped ->
               exists P' S',
                 P = parsed ++ P' /\ S = skipped' ++ S' /\
                 (length P' + length S' <= length (f :: files))%nat /\
                 (Z.of_nat (length P) < max_files ->
                  (length P' + length S')%nat = length (f :: files)) /\
                 (P' = [] \/
                  (Z.of_nat (length P)
                   <= Z.max (Z.of_nat (length parsed) + 1) max_files /\
                   total + total_patch_lines P' <= max_lines)) /\
                 List.Forall
                   (fun fc => exists f0,
                        In f0 (f :: files) /\ passed_over f0 = false /\
                        parse_patch hunk_scan str_repr (file_name f0) (file_patch f0)
                                    (file_status f0) = Py.Return fc) P' /\
                 sublist (map FileChange.filename P')
                         (map file_name (f :: files)) /\
                 sublist S' (map file_name (f :: files))).
    { intros skipped' R' ->.
      destruct (IH _ _ _ _ _ R')
        as (P' & S' & EP & ES & L1 & L2 & B & F & SP & SS).
      exists P', (file_name f :: S').
      rewrite <- app_assoc in ES. cbn [app] in ES.
      cbn [length map]. repeat split.
      - exact EP.
      - exact ES.
      - lia.
      - intros M. specialize (L2 M). lia.
      - exact B.
      - eapply List.Forall_impl; [|exact F].
        intros fc (f0 & I0 & P0 & R0). exists f0.
        split; [right; exact I0|]. auto.
      - apply sublist_cons. exact SP.
      - apply sublist_skip. exact SS. }
    destruct (passed_over f) eqn:PO.
    + rewrite (parse_loop_pass _ _ _ _ _ _ _ PO) in R.
      apply (SK skipped R eq_refl).
    + rewrite (parse_loop_turn _ _ _ _ _ _ _ PO) in R.
      destruct (Z.gtb_spec (total + patch_lines (file_patch f)) max_lines)
        as [G|G]; [apply (SK skipped R eq_refl)|].
      clear SK.
      destruct (parse_patch hunk_scan str_repr (file_name f) (file_patch f)
                            (file_status f)) as [fc|e] eqn:PP;
        [|discriminate R].
      destruct (parse_patch_returns _ _ _ _ PP) as (_ & Fn & Fp & _).
      destruct (Z.geb_spec (Z.of_nat (length (parsed ++ [fc]))) max_files)
        as [M|M].
      * injection R as <- <-. exists [fc], [].
        rewrite app_nil_r. rewrite length_app in *.
        cbn [length map Nat.add total_patch_lines] in *.
        rewrite Fn, Fp. repeat split.
        -- lia.
        -- intros M'. lia.
        -- right. lia.
        -- constructor; [|constructor]. exists f.
           split; [left; reflexivity|]. auto.
        -- apply sublist_skip. apply sublist_nil_l.
        -- apply sublist_nil_l.
      * destruct (IH _ _ _ _ _ R)
          as (P' & S' & EP & ES & L1 & L2 & B & F & SP & SS).
        exists (fc :: P'), S'.
        rewrite <- app_assoc in EP. cbn [app] in EP.
        rewrite length_app in *.
        cbn [length map Nat.add total_patch_lines] in *.
        rewrite Fn, Fp. repeat split.
        -- exact EP.
        -- exact ES.
        -- lia.
        -- intros M'. specialize (L2 M'). lia.
        -- right. destruct B as [->|[B1 B2]].
           ++ subst P. rewrite length_app. cbn [length total_patch_lines]. lia.
           ++ lia.
        -- constructor.
           ++ exists f. split; [left; reflexivity|]. auto.
           ++ eapply List.Forall_impl; [|exact F].
              intros fc' (f0 & I0 & P0 & R0). exists f0.
              split; [right; exact I0|]. auto.
        -- apply sublist_skip. exact SP.
        -- apply sublist_cons. exact SS.
Qed.

(** A run of the loop raises only what [parse_patch] raises on a file
    that is not passed over. *)
Lemma parse_loop_raises (max_files max_lines : Z)
    (files : list GitHubFileDict.t) :
  forall (parsed : list FileChange.t) (skipped : list string) (total : Z)
         (e : Py.exn),
  parse_loop hunk_scan str_repr max_files max_lines files parsed skipped total
  = Py.Raise e ->
  exists f,
    In f files /\ passed_over f = false /\
    (scanned hunk_scan (file_patch f) = Py.Raise e \/
     (~ In (file_status f) accepted_statuses /\
      e = not_a_status str_repr (file_status f))).
Proof.
  induction files as [|f files IH]; intros parsed skipped total e R.
  - discriminate R.
  - assert (K : forall parsed' skipped' total',
               parse_loop hunk_scan str_repr max_files max_lines files
                          parsed' skipped' total' = Py.Raise e ->
               exists f0,
                 In f0 (f :: files) /\ passed_over f0 = false /\
                 (scanned hunk_scan (file_patch f0) = Py.Raise e \/
                  (~ In (file_status f0) accepted_statuses /\
                   e = not_a_status str_repr (file_status f0)))).
    { intros parsed' skipped' total' R'.
      destruct (IH _ _ _ _ R') as (f0 & I0 & Q).
      exists f0. split; [right; exact I0|exact Q]. }
    destruct (passed_over f) eqn:PO.
    + rewrite (parse_loop_pass _ _ _ _ _ _ _ PO) in R. apply (K _ _ _ R).
    + rewrite (parse_loop_turn _ _ _ _ _ _ _ PO) in R.
      destruct (Z.gtb (total + patch_lines (file_patch f)) max_lines);
        [apply (K _ _ _ R)|].
      destruct (parse_patch hunk_scan str_repr (file_name f) (file_patch f)
                            (file_status f)) as [fc|e'] eqn:PP.
      * destruct (Z.geb (Z.of_nat (length (parsed ++ [fc]))) max_files);
          [discriminate R|apply (K _ _ _ R)].
      * injection R as <-. exists f.
        split; [left; reflexivity|]. split; [exact PO|].
        apply (parse_patch_raises _ _ _ _ PP).
Qed.

End ParseLoopFacts.

Section ParserProperties.
Import ospath constants_scope diff_parser parser_notions parser_samples.

(** X21: [detect_language] looks at the extension of the last path
    component only and ignores its case: a directory in front and
    lower-casing change nothing; a name without dot, or whose only dot is
    the first character (a dotfile, also [.py]), has no language; a name
    that ends in a key of the table, in any case, after a stem with some
    character other than a dot, has the language of that key. *)
Theorem detect_language_by_extension (dir name : string) :
  Py.has_char "/" name = false ->
  detect_language (dir +:+ "/" +:+ name) = detect_language name /\
  detect_language (Py.lower name) = detect_language name /\
  (Py.has_char "." name = false -> detect_language name = None) /\
  (forall rest,
      name = String "." rest -> Py.has_char "." rest = false ->
      detect_language name = None) /\
  (forall stem e lang,
      name = stem +:+ e -> more_than_dots stem = true ->
      In (Py.lower e, lang) extension_language_items ->
      detect_language name = Some lang).
Proof.
  intros H. split; [apply detect_language_join; exact H|].
  split; [unfold detect_language; rewrite lower_idem; reflexivity|].
  split; [apply detect_language_no_dot; exact H|].
  split.
  - intros rest -> D. apply detect_language_dotfile; [|exact D].
    cbn [Py.has_char] in H. destruct (Ascii.eqb "." "/"); [discriminate|exact H].
  - intros stem e lang -> M I. apply detect_language_known; [|exact M|exact I].
    rewrite has_char_app in H. apply orb_false_iff in H. apply H.
Qed.

Lemma detect_language_by_extension_witness :
  detect_language "src/ui/App.TSX" = Some "typescript" /\
  detect_language "src/.gitignore" = None.
Proof.
  split.
  - destruct (detect_language_by_extension "src/ui" "App.TSX" eq_refl)
      as (A & _ & _ & _ & K).
    etransitivity; [exact A|].
    apply (K "App" ".TSX" "typescript"); [reflexivity|reflexivity|].
    do 4 right. left. reflexivity.
  - destruct (detect_language_by_extension "src" ".gitignore" eq_refl)
      as (A & _ & _ & K & _).
    etransitivity; [exact A|].
    apply (K "gitignore"); reflexivity.
Defined.

(** X22: [should_skip_file] looks at the last path component only, which
    it compares as a whole and with its case with the eight names of the
    skip list; a path that ends in a slash is never skipped. *)
Theorem should_skip_file_basename (dir name : string) :
  Py.has_char "/" name = false ->
  should_skip_file (dir +:+ "/" +:+ name) = should_skip_file name /\
  (should_skip_file name = true <->
   In name ["package-lock.json"; "yarn.lock"; "poetry.lock"; "Pipfile.lock";
            "pnpm-lock.yaml"; ".gitignore"; ".gitattributes"; "LICENSE"]) /\
  should_skip_file (dir +:+ "/") = false.
Proof.
  intros H. unfold should_skip_file.
  rewrite (basename_join dir name H), (basename_plain name H).
  split; [reflexivity|]. split; [apply skip_list_members|].
  change (dir +:+ "/") with (dir +:+ "/" +:+ "").
  rewrite (basename_join dir "" eq_refl). vm_compute. reflexivity.
Qed.

Lemma should_skip_file_basename_witness :
  should_skip_file "frontend/web/yarn.lock" = true /\
  should_skip_file "docs/LICENSE.md" = false.
Proof.
  split.
  - destruct (should_skip_file_basename "frontend/web" "yarn.lock" eq_refl)
      as (A & B & _).
    etransitivity; [exact A|]. apply B. right. left. reflexivity.
  - destruct (should_skip_file_basename "docs" "LICENSE.md" eq_refl)
      as (A & B & _).
    etransitivity; [exact A|].
    destruct B as [B _].
    destruct (should_skip_file "LICENSE.md"); [|reflexivity].
    exfalso. specialize (B eq_refl).
    repeat (destruct B as [B|B]; [discriminate B|]). exact B.
Defined.

End ParserProperties.

Section PullRequestFiles.
Import ospath constants_scope diff_parser parser_notions parser_samples.

(** X23: when the scan of the patch for hunk headers returns,
    [parse_patch] takes the four values of [FileStatus] and GitHub's
    [removed], which it reads as [deleted]; the file change it returns
    keeps the file name and the patch, has the hunks of the scan, and
    its additions and deletions are not negative and together at most
    the lines of the patch; on any other status it raises the
    [ValueError] of the enumeration, whose message holds the [repr] of
    the status.  What the scan raises, [parse_patch] raises, whatever
    the status. *)
Theorem parse_patch_outcome
    (hunk_scan : string -> Py.outcome (list HunkRange.t))
    (str_repr : string -> string) (filename patch status : string) :
  (forall hunks,
      scanned hunk_scan patch = Py.Return hunks ->
      (In status accepted_statuses ->
       exists fc,
         parse_patch hunk_scan str_repr filename patch status
         = Py.Return fc /\
         FileChange.filename fc = filename /\
         FileChange.patch fc = patch /\
         In (FileChange.status fc) FileStatus_values /\
         FileChange.status fc =
           (if bool_decide (status = "removed") then "deleted" else status) /\
         FileChange.language fc = detect_language filename /\
         FileChange.hunks fc = hunks /\
         0 <= FileChange.additions fc /\ 0 <= FileChange.deletions fc /\
         FileChange.additions fc + FileChange.deletions fc
         <= Z.of_nat (length (splitlines patch))) /\
      (~ In status accepted_statuses ->
       parse_patch hunk_scan str_repr filename patch status
       = Py.Raise
           (Py.Exn Py.ValueError
                   (str_repr status +:+ " is not a valid FileStatus")))) /\
  (forall e,
      scanned hunk_scan patch = Py.Raise e ->
      parse_patch hunk_scan str_repr filename patch status = Py.Raise e) /\
  parse_patch hunk_scan str_repr filename patch "removed"
  = parse_patch hunk_scan str_repr filename patch "deleted".
Proof.
  split; [|split].
  - intros hunks Hs. split.
    + intros A. apply parse_patch_accepted; assumption.
    + intros A. apply (parse_patch_refused _ _ _ _ _ hunks A Hs).
  - intros e Hs. apply parse_patch_scan_raises. exact Hs.
  - rewrite !parse_patch_scanned. reflexivity.
Qed.

Lemma parse_patch_outcome_witness :
  parse_patch no_hunks plain_repr "src/copy.py" "+import os" "copied"
  = Py.Raise (Py.Exn Py.ValueError "'copied' is not a valid FileStatus").
Proof.
  destruct (parse_patch_outcome no_hunks plain_repr
              "src/copy.py" "+import os" "copied") as (A & _).
  apply (A [] eq_refl).
  intros H. repeat (destruct H as [H|H]; [discriminate H|]). exact H.
Defined.

(** X24: What [parse_pr_files] returns keeps within the limits: at most
    [max_files] files are parsed, but one even when [max_files] is below
    one; the patches of the parsed files count at most [max_lines] lines;
    the parsed and the skipped files are together at most the files
    given, and all of them while the file limit is not reached; both
    lists keep the order of the input; a parsed file is not on the skip list, has patch text and
    a status of [FileStatus]. *)
Theorem parse_pr_files_limits
    (hunk_scan : string -> Py.outcome (list HunkRange.t))
    (str_repr : string -> string)
    (files : list GitHubFileDict.t) (max_files max_lines : Z)
    (parsed : list FileChange.t) (skipped : list string) :
  parse_pr_files hunk_scan str_repr files max_files max_lines
  = Py.Return (parsed, skipped) ->
  Z.of_nat (length parsed) <= Z.max 1 max_files /\
  (parsed = [] \/ total_patch_lines parsed <= max_lines) /\
  (length parsed + length skipped <= length files)%nat /\
  (Z.of_nat (length parsed) < max_files ->
   (length parsed + length skipped)%nat = length files) /\
  sublist (map FileChange.filename parsed) (map file_name files) /\
  sublist skipped (map file_name files) /\
  List.Forall
    (fun fc =>
       should_skip_file (FileChange.filename fc) = false /\
       FileChange.patch fc <> "" /\
       In (FileChange.status fc) FileStatus_values) parsed.
Proof.
  intros R. unfold parse_pr_files in R.
  destruct (parse_loop_returns hunk_scan str_repr _ _ _ _ _ _ _ _ R)
    as (P' & S' & EP & ES & L1 & L2 & B & F & SP & SS).
  cbn [app] in EP, ES. subst P' S'. cbn [length] in B.
  repeat split.
  - destruct B as [->|[B _]]; [cbn [length]|]; lia.
  - destruct B as [B|[_ B]]; [left; exact B|right; lia].
  - exact L1.
  - exact L2.
  - exact SP.
  - exact SS.
  - eapply List.Forall_impl; [|exact F].
    intros fc (f & _ & PO & PP).
    destruct (parse_patch_returns _ _ _ _ _ _ PP) as (_ & Fn & Fp & St).
    unfold passed_over in PO. apply orb_false_iff in PO.
    destruct PO as [PO1 PO2]. rewrite Fn, Fp.
    split; [exact PO1|]. split; [|exact St].
    apply bool_decide_eq_false in PO2. exact PO2.
Qed.

Lemma parse_pr_files_limits_witness :
  exists parsed skipped,
    parse_pr_files no_hunks plain_repr pull_files 2 50 = Py.Return (parsed, skipped) /\
    Z.of_nat (length parsed) <= 2 /\
    (length parsed + length skipped <= 5)%nat.
Proof.
  destruct (parse_pr_files no_hunks plain_repr pull_files 2 50) as [[parsed skipped]|e]
    eqn:R.
  - exists parsed, skipped. split; [reflexivity|].
    destruct (parse_pr_files_limits no_hunks plain_repr pull_files 2 50 _ _ R)
      as (A & _ & B & _).
    split; [exact A|exact B].
  - vm_compute in R. discriminate R.
Defined.

(** X25: [parse_pr_files] raises nothing but what [parse_patch] raises
    on a file that is neither on the skip list nor without patch text:
    the error of the scan of its patch, or the [ValueError] of a status
    that is not accepted.  When on every file the status is one that
    [parse_patch] takes and the scan of the patch returns, it
    returns. *)
Theorem parse_pr_files_raises_on_status
    (hunk_scan : string -> Py.outcome (list HunkRange.t))
    (str_repr : string -> string)
    (files : list GitHubFileDict.t) (max_files max_lines : Z) :
  (forall e,
      parse_pr_files hunk_scan str_repr files max_files max_lines
      = Py.Raise e ->
      exists f,
        In f files /\ passed_over f = false /\
        (scanned hunk_scan (file_patch f) = Py.Raise e \/
         (~ In (file_status f) accepted_statuses /\
          e = Py.Exn Py.ValueError
                (str_repr (file_status f) +:+
                 " is not a valid FileStatus")))) /\
  (List.Forall
     (fun f =>
        In (file_status f) accepted_statuses /\
        exists hunks, scanned hunk_scan (file_patch f) = Py.Return hunks)
     files ->
   exists parsed skipped,
     parse_pr_files hunk_scan str_repr files max_files max_lines
     = Py.Return (parsed, skipped)).
Proof.
  split.
  - intros e R.
    apply (parse_loop_raises hunk_scan str_repr _ _ _ _ _ _ _ R).
  - intros A.
    destruct (parse_pr_files hunk_scan str_repr files max_files max_lines)
      as [[parsed skipped]|e] eqn:R.
    + exists parsed, skipped. reflexivity.
    + exfalso.
      destruct (parse_loop_raises hunk_scan str_repr _ _ _ _ _ _ _ R)
        as (f & I & _ & N).
      destruct (proj1 (List.Forall_forall _ _) A f I) as (St & hunks & Hs).
      destruct N as [N|[N _]]; [congruence|contradiction].
Qed.

Lemma parse_pr_files_raises_on_status_witness :
  exists f,
    In f pull_with_copy /\ passed_over f = false /\
    (scanned no_hunks (file_patch f)
     = Py.Raise (Py.Exn Py.ValueError "'copied' is not a valid FileStatus") \/
     (~ In (file_status f) accepted_statuses /\
      Py.Exn Py.ValueError "'copied' is not a valid FileStatus" =
      Py.Exn Py.ValueError
        (plain_repr (file_status f) +:+ " is not a valid FileStatus"))).
Proof.
  apply (parse_pr_files_raises_on_status no_hunks plain_repr
           pull_with_copy 50 5000).
  vm_compute. reflexivity.
Defined.

(** X26: the first file that is neither passed over nor too long
    decides.  When the scan of its patch raises, or its status is not
    accepted, the whole call raises that error, whatever follows and
    whatever the file limit; otherwise, when [max_files] is at most
    one, it is the only file parsed, and the files after it are neither
    parsed nor listed as skipped. *)
Theorem parse_pr_files_first_reviewed
    (hunk_scan : string -> Py.outcome (list HunkRange.t))
    (str_repr : string -> string)
    (pre post : list GitHubFileDict.t) (f : GitHubFileDict.t)
    (max_files max_lines : Z) :
  List.Forall (fun g => passed_over g = true) pre ->
  passed_over f = false ->
  patch_lines (file_patch f) <= max_lines ->
  (forall e,
      scanned hunk_scan (file_patch f) = Py.Raise e ->
      parse_pr_files hunk_scan str_repr (pre ++ f :: post)
                     max_files max_lines = Py.Raise e) /\
  (forall hunks,
      scanned hunk_scan (file_patch f) = Py.Return hunks ->
      (~ In (file_status f) accepted_statuses ->
       parse_pr_files hunk_scan str_repr (pre ++ f :: post)
                      max_files max_lines
       = Py.Raise
           (Py.Exn Py.ValueError
                   (str_repr (file_status f) +:+
                    " is not a valid FileStatus"))) /\
      (In (file_status f) accepted_statuses -> max_files <= 1 ->
       exists fc,
         parse_patch hunk_scan str_repr (file_name f) (file_patch f)
                     (file_status f) = Py.Return fc /\
         parse_pr_files hunk_scan str_repr (pre ++ f :: post)
                        max_files max_lines
         = Py.Return ([fc], map file_name pre))).
Proof.
  intros Hpre Hf Hl. unfold parse_pr_files.
  rewrite (parse_loop_passed_over hunk_scan str_repr _ _ _ _ _ _ _ Hpre).
  rewrite (parse_loop_turn hunk_scan str_repr _ _ _ _ _ _ _ Hf).
  destruct (Z.gtb_spec (0 + patch_lines (file_patch f)) max_lines); [lia|].
  split.
  - intros e Hs.
    rewrite (parse_patch_scan_raises hunk_scan str_repr _ _ _ _ Hs).
    reflexivity.
  - intros hunks Hs. split.
    + intros N.
      rewrite (parse_patch_refused hunk_scan str_repr _ _ _ _ N Hs).
      reflexivity.
    + intros A M.
      destruct (parse_patch_accepted hunk_scan str_repr (file_name f)
                  (file_patch f) (file_status f) hunks A Hs)
        as (fc & PP & _).
      exists fc. split; [exact PP|]. rewrite PP. cbn [app length].
      destruct (Z.geb_spec (Z.of_nat 1) max_files); [reflexivity|lia].
Qed.

Lemma parse_pr_files_first_reviewed_witness :
  exists fc,
    parse_patch no_hunks plain_repr "src/app.py" "+import os" "modified"
    = Py.Return fc /\
    parse_pr_files no_hunks plain_repr pull_files 0 50
    = Py.Return ([fc], ["frontend/yarn.lock"; "logo.png"]).
Proof.
  destruct (parse_pr_files_first_reviewed no_hunks plain_repr
           [gh_file "frontend/yarn.lock" "modified" "+lock";
            gh_binary "logo.png"]
           [gh_file "src/old.py" "removed" "-import sys";
            gh_file "docs/guide.md" "added" "+# Guide"]
           (gh_file "src/app.py" "modified" "+import os") 0 50)
    as (_ & B).
  - repeat constructor.
  - vm_compute. reflexivity.
  - vm_compute. discriminate.
  - destruct (B [] eq_refl) as (_ & C). apply C.
    + right. right. left. reflexivity.
    + lia.
Defined.

End PullRequestFiles.
